(** * Audiotext: the transcription-orchestration controller

    A shallow embedding of [src/controllers/main_controller.py] and of the
    extension tables of [src/utils/constants.py], with the properties of the
    controller that the design document states.

    Layout: string and path helpers, the constants, the directory scan, the
    filesystem and controller state, the exception monad, the controller's
    methods, and then the theorems. *)

From Stdlib Require Import Ascii String DecimalString List Arith Bool Lia.
From stdpp Require Import base option gmap strings list fin_maps.


(* ===================================================================== *)
(** * Strings as Python uses them                                          *)
(* ===================================================================== *)

Module PyStr.

(** [s.endswith(suffix)]. *)
Definition endswith (s suffix : string) : bool :=
  let n := String.length s in
  let k := String.length suffix in
  (k <=? n) && String.eqb (substring (n - k) k s) suffix.

(** [not s] on a [str] is true exactly for the empty string. *)
Definition is_empty (s : string) : bool :=
  match s with EmptyString => true | String _ _ => false end.

(** [s.rfind(".")], as an option instead of Python's [-1]. *)
Fixpoint rfind_dot (s : string) : option nat :=
  match s with
  | EmptyString => None
  | String c r =>
      match rfind_dot r with
      | Some i => Some (S i)
      | None => if Ascii.eqb c "."%char then Some 0 else None
      end
  end.

(** ASCII letters, and what [str.upper] and [str.lower] do on them. *)
Definition is_lower (c : ascii) : bool :=
  let n := nat_of_ascii c in (97 <=? n) && (n <=? 122).
Definition is_upper (c : ascii) : bool :=
  let n := nat_of_ascii c in (65 <=? n) && (n <=? 90).
Definition upper_char (c : ascii) : ascii :=
  if is_lower c then ascii_of_nat (nat_of_ascii c - 32) else c.
Definition lower_char (c : ascii) : ascii :=
  if is_upper c then ascii_of_nat (nat_of_ascii c + 32) else c.

Fixpoint lower (s : string) : string :=
  match s with
  | EmptyString => EmptyString
  | String c r => String (lower_char c) (lower r)
  end.

(** What [s.capitalize()] is on a string of ASCII characters: the first
    character upper-cased, the rest lower-cased.  Python's own method, which
    also knows the letters outside ASCII, is a function of the world
    ([str_capitalize] below); this one serves the sample world, whose texts
    are ASCII. *)
Definition capitalize_ascii (s : string) : string :=
  match s with
  | EmptyString => EmptyString
  | String c r => String (upper_char c) (lower r)
  end.

(** What [s.strip()] is on a string of ASCII characters whose whitespace
    is the blank and the characters 9 to 13; as with [capitalize_ascii],
    for the sample world only ([str_strip] below is Python's method). *)
Fixpoint lstrip_ascii (s : string) : string :=
  match s with
  | EmptyString => EmptyString
  | String c r => if Ascii.is_space c then lstrip_ascii r else s
  end.

Fixpoint rstrip_ascii (s : string) : string :=
  match s with
  | EmptyString => EmptyString
  | String c r =>
      match rstrip_ascii r with
      | EmptyString => if Ascii.is_space c then EmptyString else String c EmptyString
      | r' => String c r'
      end
  end.

Definition strip_ascii (s : string) : string := rstrip_ascii (lstrip_ascii s).

(** [sep.join(parts)]. *)
Fixpoint join (sep : string) (parts : list string) : string :=
  match parts with
  | [] => EmptyString
  | [p] => p
  | p :: rest => p +:+ sep +:+ join sep rest
  end.

(** [str(n)] for a non-negative integer. *)
Definition of_nat (n : nat) : string :=
  NilEmpty.string_of_uint (Nat.to_uint n).

End PyStr.

(* ===================================================================== *)
(** * Paths ([pathlib.Path])                                               *)
(* ===================================================================== *)

(** A path is kept as its directory part ([PurePath.parent], as a string)
    and its final component ([PurePath.name]).  File names hold no
    separator. *)
Record Path := mkPath { parent : string; name : string }.

#[global] Instance Path_eq_dec : EqDecision Path.
Proof. solve_decision. Defined.

#[global] Instance Path_countable : Countable Path.
Proof.
  refine (inj_countable' (fun p => (parent p, name p))
                         (fun q => mkPath (fst q) (snd q)) _).
  intros []; reflexivity.
Defined.

Module PyPath.

(** [PurePath.suffix]:
    [i = name.rfind('.'); name[i:] if 0 < i < len(name) - 1 else ''] *)
Definition suffix_of (nm : string) : string :=
  match PyStr.rfind_dot nm with
  | Some i =>
      if (0 <? i) && (i <? String.length nm - 1)
      then substring i (String.length nm - i) nm
      else EmptyString
  | None => EmptyString
  end.

(** [PurePath.stem]: the name without its suffix. *)
Definition stem_of (nm : string) : string :=
  match PyStr.rfind_dot nm with
  | Some i =>
      if (0 <? i) && (i <? String.length nm - 1)
      then substring 0 i nm
      else nm
  | None => nm
  end.

Definition suffix (p : Path) : string := suffix_of (name p).
Definition stem (p : Path) : string := stem_of (name p).

(** [p.parent / child] *)
Definition sibling (p : Path) (child : string) : Path :=
  mkPath (parent p) child.

(** [os.path.join(top, d)]: an absolute [d] stands alone, and no
    separator is put after an empty [top] or one that ends in a
    separator. *)
Definition join (top d : string) : string :=
  if String.prefix "/" d then d
  else if PyStr.is_empty top || PyStr.endswith top "/" then top +:+ d
  else top +:+ "/" +:+ d.

(** [os.fspath(p)], [str(p)] *)
Definition fspath (p : Path) : string :=
  if String.eqb (parent p) "." then
    if PyStr.is_empty (name p) then "." else name p
  else if PyStr.is_empty (name p) then parent p
  else join (parent p) (name p).

(** The pieces of [s] between its separators. *)
Fixpoint split_sep (s : string) : list string :=
  match s with
  | EmptyString => [EmptyString]
  | String c r =>
      if Ascii.eqb c "/"%char then EmptyString :: split_sep r
      else
        match split_sep r with
        | [] => [String c EmptyString]
        | piece :: pieces => String c piece :: pieces
        end
  end.

(** The root of a POSIX path: exactly two leading separators are kept,
    any other number is one. *)
Definition root_of (s : string) : string :=
  if String.prefix "//" s && negb (String.prefix "///" s) then "//"
  else if String.prefix "/" s then "/"
  else EmptyString.

(** [Path(s)] for a string [s]: empty pieces (doubled or trailing
    separators) and ["."] pieces are dropped, [".."] pieces are kept. *)
Definition of_string (s : string) : Path :=
  let parts :=
    List.filter (fun piece => negb (PyStr.is_empty piece || String.eqb piece "."))
      (split_sep s) in
  let dir := root_of s +:+ PyStr.join "/" (List.removelast parts) in
  mkPath (if PyStr.is_empty dir then "." else dir)
    (List.last parts EmptyString).

End PyPath.

(* ===================================================================== *)
(** * [utils/constants.py]                                                 *)
(* ===================================================================== *)

Definition AUDIO_FILE_EXTENSIONS : list string :=
  [".mp3"; ".mpeg"; ".wav"; ".wma"; ".aac"; ".flac"; ".ogg"; ".oga"; ".opus"].

Definition VIDEO_FILE_EXTENSIONS : list string :=
  [".mp4"; ".m4a"; ".m4v"; ".f4v"; ".f4a"; ".m4b"; ".m4r"; ".f4b"; ".mov";
   ".avi";
   ".webm";
   ".flv";
   ".mkv";
   ".3gp"; ".3gp2"; ".3g2"; ".3gpp"; ".3gpp2";
   ".ogv"; ".ogx";
   ".wmv"; ".asf"].

Definition SUPPORTED_FILE_EXTENSIONS : list string :=
  AUDIO_FILE_EXTENSIONS ++ VIDEO_FILE_EXTENSIONS.

(** [x in xs] on a list of strings. *)
Definition str_in (x : string) (xs : list string) : bool :=
  existsb (String.eqb x) xs.

(* ===================================================================== *)
(** * Directory trees and [os.walk]                                        *)
(* ===================================================================== *)

(** A directory holds the names of its non-directory entries and its
    sub-directories, each in listing order. *)
#[local] Unset Elimination Schemes.
Inductive Dir : Type :=
| mkDir (files : list string) (subdirs : list (string * Dir)).
#[local] Set Elimination Schemes.

Definition WalkEntry : Type := (string * list string * list string)%type.

(** [os.walk(top)], top-down: the directory itself, then every
    sub-directory in turn. *)
Fixpoint os_walk (top : string) (d : Dir) : list WalkEntry :=
  match d with
  | mkDir files subdirs =>
      (top, map fst subdirs, files)
        :: (fix walk_subdirs (l : list (string * Dir)) : list WalkEntry :=
              match l with
              | [] => []
              | (n, sd) :: rest =>
                  os_walk (PyPath.join top n) sd ++ walk_subdirs rest
              end) subdirs
  end.

(** The body of [_get_transcribable_files_from_dir] over the entries that
    [os.walk] yields: two nested loops appending to [matching_files]. *)
Definition scan_entries (walk : list WalkEntry) : list Path :=
  let matching_extensions := AUDIO_FILE_EXTENSIONS ++ VIDEO_FILE_EXTENSIONS in
  fold_left
    (fun matching_files (entry : WalkEntry) =>
       let '(root, _, files) := entry in
       fold_left
         (fun acc file =>
            if existsb (fun ext => PyStr.endswith file ext) matching_extensions
            then acc ++ [mkPath root file]
            else acc)
         files matching_files)
    walk [].

(** What the design document calls a matching file: its name ends in an
    extension of the allow-list. *)
Definition is_transcribable (nm : string) : bool :=
  existsb (PyStr.endswith nm) SUPPORTED_FILE_EXTENSIONS.

(** Every file of a tree, at any depth, with the directory it lies in. *)
Fixpoint tree_files (top : string) (d : Dir) : list Path :=
  match d with
  | mkDir files subdirs =>
      map (mkPath top) files
        ++ (fix sub_files (l : list (string * Dir)) : list Path :=
              match l with
              | [] => []
              | (n, sd) :: rest =>
                  tree_files (PyPath.join top n) sd ++ sub_files rest
              end) subdirs
  end.

(* ===================================================================== *)
(** * Data model                                                           *)
(* ===================================================================== *)

(** [utils/enums.py] *)
Inductive AudioSource : Type := FILE | DIRECTORY | MIC | YOUTUBE.
Inductive TranscriptionMethod : Type := WHISPERX | GOOGLE_API.

#[global] Instance AudioSource_eq_dec : EqDecision AudioSource.
Proof. solve_decision. Defined.
#[global] Instance TranscriptionMethod_eq_dec : EqDecision TranscriptionMethod.
Proof. solve_decision. Defined.

(** [models/transcription.py].  [method] holds a raw value that the
    controller compares with the two enumeration values; [None] stands for
    a value that is neither. *)
Record Transcription := mkTranscription {
  source : AudioSource;
  source_path : Path;
  youtube_url : string;
  method : option TranscriptionMethod;
  language_code : string;
  should_translate : bool;
  should_subtitle : bool;
  should_autosave : bool;
  should_overwrite : bool;
  text : string
}.

(** The dictionary that whisperx returns: the segment texts, whether the
    alignment pass has added timings, and the ["language"] entry. *)
Record WhisperxResult := mkWhisperxResult {
  segments : list string;
  aligned : bool;
  language : option string
}.

(** What a file holds. *)
Inductive FileData : Type :=
| FText (content : string)
| FAudio
| FSubtitles (output_format : string) (result : WhisperxResult).

(** The filesystem as the controller sees it: the regular files it reads
    and writes, by path, and the directories it has made.  Whether a
    directory can be made or removed is not read off this record: the
    operating system answers ([mkdir_error], [rmtree_error] below), and
    every statement on the controller holds for each of its answers. *)
Record FS := mkFS {
  files : gmap Path FileData;
  dirs : gset string
}.

Inductive Exn : Type :=
| ValueError (msg : string)
| TypeError (msg : string)
| AttributeError (msg : string)
| FileNotFoundError (p : Path)
| FileExistsError (p : string)
| PermissionError (p : string)
| LibraryError (what : string).

(** Arguments of [view.display_text]. *)
Inductive Message : Type :=
| MsgText (s : string)
| MsgRepr (e : Exn)
| MsgTraceback (e : Exn)
| MsgFilesTranscribed (dir_path : Path).

(** The calls the controller makes on the view. *)
Inductive ViewCall : Type :=
| on_select_path_success (p : string)
| on_processing_transcription
| on_processed_transcription (success : bool)
| display_text (m : Message)
| view_stop_recording_from_mic.

(** The calls on collaborators, in the order they are made: the view, and
    the entry into a backend for a file. *)
Inductive Call : Type :=
| CallView (c : ViewCall)
| CallBackend (m : TranscriptionMethod) (file_path : Path).

(** Targets of the threads the controller starts. *)
Inductive ThreadTarget : Type :=
| run_transcription_process
| record_from_mic
| download_audio_from_yt_video.

(** The controller ([self]) with the world it acts on. *)
Record State := mkState {
  transcription : Transcription;
  _is_mic_recording : bool;
  _whisperx_result : option WhisperxResult;
  fs : FS;
  log : list Call;
  threads : list ThreadTarget
}.

(** ** Field updates *)

Definition set_text (t : Transcription) (s : string) : Transcription :=
  mkTranscription (source t) (source_path t) (youtube_url t) (method t)
    (language_code t) (should_translate t) (should_subtitle t)
    (should_autosave t) (should_overwrite t) s.

Definition set_source_path (t : Transcription) (p : Path) : Transcription :=
  mkTranscription (source t) p (youtube_url t) (method t)
    (language_code t) (should_translate t) (should_subtitle t)
    (should_autosave t) (should_overwrite t) (text t).

Definition with_transcription (st : State) (t : Transcription) : State :=
  mkState t (_is_mic_recording st) (_whisperx_result st) (fs st) (log st)
    (threads st).

Definition with_mic_recording (st : State) (b : bool) : State :=
  mkState (transcription st) b (_whisperx_result st) (fs st) (log st)
    (threads st).

Definition with_whisperx_result (st : State) (r : option WhisperxResult) : State :=
  mkState (transcription st) (_is_mic_recording st) r (fs st) (log st)
    (threads st).

Definition with_fs (st : State) (f : FS) : State :=
  mkState (transcription st) (_is_mic_recording st) (_whisperx_result st) f
    (log st) (threads st).

Definition with_log (st : State) (l : list Call) : State :=
  mkState (transcription st) (_is_mic_recording st) (_whisperx_result st)
    (fs st) l (threads st).

Definition with_threads (st : State) (ts : list ThreadTarget) : State :=
  mkState (transcription st) (_is_mic_recording st) (_whisperx_result st)
    (fs st) (log st) ts.

(** ** The filesystem operations the controller uses *)

Module Os.

(** [os.path.exists(p)], [p.is_file()] *)
Definition path_exists (f : FS) (p : Path) : bool :=
  bool_decide (is_Some (files f !! p)).

(** [open(p, "w").write(data)] *)
Definition write_file (f : FS) (p : Path) (data : FileData) : FS :=
  mkFS (<[p := data]> (files f)) (dirs f).

Definition remove_file (f : FS) (p : Path) : FS :=
  mkFS (delete p (files f)) (dirs f).

(** What a [d.mkdir(exist_ok=True)] that returns leaves. *)
Definition add_dir (f : FS) (d : string) : FS :=
  mkFS (files f) ({[d]} ∪ dirs f).

(** Whether [p] lies in directory [d] or below it. *)
Definition in_dir (d : string) (p : Path) : bool :=
  String.eqb (parent p) d || String.prefix (d +:+ "/") (parent p).

(** What a [shutil.rmtree(d)] that returns leaves. *)
Definition remove_tree (f : FS) (d : string) : FS :=
  mkFS (filter (fun kv => in_dir d (fst kv) = false) (files f))
       (dirs f ∖ {[d]}).

(** What a [shutil.rmtree(d)] that raises leaves: the entries it had
    removed before the error are gone, the directory is still there. *)
Definition remove_some (f : FS) (d : string) (removed : Path -> bool) : FS :=
  mkFS (filter (fun kv => in_dir d (fst kv) && removed (fst kv) = false)
          (files f))
       (dirs f).

End Os.

(** ** Everything outside the controller

    The libraries and services that the controller calls, as the answers
    they give. *)

Inductive ChunkOutcome : Type :=
| Recognized (chunk_text : string)   (* [recognize_google] returns *)
| RecognitionFails                   (* [recognize_google] raises *)
| ExportFails.                       (* exporting or reading the chunk raises *)

Inductive YtOutcome : Type :=
| YtRegexMatchError
| YtFails
| YtDownloaded (output_file : string).

Record Externals := mkExternals {
  (** [utils.path_helper.ROOT_PATH] *)
  ROOT_PATH : string;
  (** the directory tree under a path; [None] when it is no directory *)
  dir_tree : string -> option Dir;
  (** [whisperx.load_model], [load_audio] and [model.transcribe]: the
      segment texts, or [None] when one of them raises *)
  whisperx_transcribe : Path -> option (list string);
  (** whether [whisperx.load_align_model] and [whisperx.align] return *)
  whisperx_align : Path -> bool;
  (** decoding the file and [split_on_silence]: the chunks with what
      recognition does on each, or [None] when decoding raises *)
  google_chunks : Path -> option (list ChunkOutcome);
  (** [filedialog.asksaveasfilename(initialdir, initialfile)]; the empty
      string when the user cancels *)
  asksaveasfilename : string -> string -> string;
  (** the microphone loop: the number of segments captured before
      [stop_recording_from_mic], or [None] when [listen] raises *)
  mic_listen : option nat;
  (** [YouTube(url).streams...download(...)] *)
  yt_download : string -> YtOutcome;
  (** Python's [str.capitalize] and [str.strip] *)
  str_capitalize : string -> string;
  str_strip : string -> string;
  (** what [Path(d).mkdir(exist_ok=True)] raises, if anything:
      [FileExistsError] when [d] names something that is no directory,
      [PermissionError], and so on *)
  mkdir_error : string -> option Exn;
  (** what [shutil.rmtree(d)] raises, if anything, and the entries it has
      removed by then *)
  rmtree_error : string -> option Exn;
  rmtree_removed : Path -> bool
}.

(* ===================================================================== *)
(** * Exceptions over a mutable state                                      *)
(* ===================================================================== *)

Inductive Res (A : Type) : Type :=
| Ok (a : A)
| Raise (e : Exn).
Arguments Ok {A} a.
Arguments Raise {A} e.

(** A method of the controller: it may change the state and either
    returns or raises; what it changed before raising stays changed. *)
Definition M (A : Type) : Type := State -> Res A * State.

Definition ret {A} (a : A) : M A := fun st => (Ok a, st).

Definition bind {A B} (m : M A) (k : A -> M B) : M B :=
  fun st =>
    match m st with
    | (Ok a, st') => k a st'
    | (Raise e, st') => (Raise e, st')
    end.

Definition raise {A} (e : Exn) : M A := fun st => (Raise e, st).

Definition gets {A} (f : State -> A) : M A := fun st => (Ok (f st), st).

Definition modify (f : State -> State) : M unit := fun st => (Ok tt, f st).

Declare Scope py_scope.
Delimit Scope py_scope with py.
Notation "x <- m ;; k" := (bind m (fun x => k))
  (at level 100, m at next level, right associativity) : py_scope.
Notation "m ;; k" := (bind m (fun _ => k))
  (at level 100, right associativity) : py_scope.
Local Open Scope py_scope.

(** [if c: body] *)
Definition when (c : bool) (body : M unit) : M unit :=
  if c then body else ret tt.

(** [try: body except Exception as e: handler(e)] *)
Definition try_except {A} (body : M A) (handler : Exn -> M A) : M A :=
  fun st =>
    match body st with
    | (Ok a, st') => (Ok a, st')
    | (Raise e, st') => handler e st'
    end.

(** [try: body finally: cleanup]: the cleanup runs on both exits, and an
    exception it raises replaces the outcome of the body. *)
Definition try_finally {A} (body : M A) (cleanup : M unit) : M A :=
  fun st =>
    match body st with
    | (r, st') =>
        match cleanup st' with
        | (Ok _, st'') => (r, st'')
        | (Raise e, st'') => (Raise e, st'')
        end
    end.

(** [for x in xs: body(x)] *)
Fixpoint for_each {A} (xs : list A) (body : A -> M unit) : M unit :=
  match xs with
  | [] => ret tt
  | x :: rest => body x ;; for_each rest body
  end.

(** [await asyncio.gather] of the tasks.  None of the coroutines of the
    controller awaits anything but another of its coroutines, so a task
    runs to its end once the event loop steps it; the loop steps the tasks
    in list order, all of them, and the first exception is raised in the
    awaiting coroutine afterwards. *)
Fixpoint gather (tasks : list (M unit)) : M unit :=
  match tasks with
  | [] => ret tt
  | t :: rest =>
      fun st =>
        match t st with
        | (r, st1) =>
            match gather rest st1 with
            | (r', st2) =>
                (match r with Raise e => Raise e | Ok _ => r' end, st2)
            end
        end
  end.

(** ** State access *)

Definition view_call (c : ViewCall) : M unit :=
  modify (fun st => with_log st (log st ++ [CallView c])).

Definition enter_backend (m : TranscriptionMethod) (file_path : Path) : M unit :=
  modify (fun st => with_log st (log st ++ [CallBackend m file_path])).

Definition set_transcription_text (s : string) : M unit :=
  modify (fun st => with_transcription st (set_text (transcription st) s)).

Definition set_transcription_source_path (p : Path) : M unit :=
  modify (fun st => with_transcription st (set_source_path (transcription st) p)).

Definition set_whisperx_result (r : option WhisperxResult) : M unit :=
  modify (fun st => with_whisperx_result st r).

Definition write_file (p : Path) (data : FileData) : M unit :=
  modify (fun st => with_fs st (Os.write_file (fs st) p data)).

(** [p.unlink()] *)
Definition unlink (p : Path) : M unit :=
  fun st =>
    if Os.path_exists (fs st) p
    then (Ok tt, with_fs st (Os.remove_file (fs st) p))
    else (Raise (FileNotFoundError p), st).

(** [Path(d).mkdir(exist_ok=True)].  Whether it raises is the answer of
    the operating system, which looks at what already bears the name [d]
    and at the permissions of the directory above it; [mkdir_error] gives
    that answer.  A world in which a regular file bears the name is a world
    whose [mkdir_error] is a [FileExistsError]. *)
Definition mkdir (ext : Externals) (d : string) : M unit :=
  fun st =>
    match mkdir_error ext d with
    | Some e => (Raise e, st)
    | None => (Ok tt, with_fs st (Os.add_dir (fs st) d))
    end.

(** [shutil.rmtree(d)]: it raises at the first entry it cannot remove,
    with the entries before that one removed. *)
Definition rmtree (ext : Externals) (d : string) : M unit :=
  fun st =>
    match rmtree_error ext d with
    | Some e =>
        (Raise e, with_fs st (Os.remove_some (fs st) d (rmtree_removed ext)))
    | None => (Ok tt, with_fs st (Os.remove_tree (fs st) d))
    end.

(** [threading.Thread(target=...).start()] *)
Definition start_thread (t : ThreadTarget) : M unit :=
  modify (fun st => with_threads st (threads st ++ [t])).

(* ===================================================================== *)
(** * [controllers/main_controller.py]: class [MainController]             *)
(* ===================================================================== *)

(** [__init__], in a world with filesystem [f]. *)
Definition MainController_init (t : Transcription) (f : FS) : State :=
  mkState t false None f [] [].

Definition _handle_exception (e : Exn) : M unit :=
  view_call (on_processed_transcription false) ;;
  view_call (display_text (MsgRepr e)).

Definition _is_file_valid (f : FS) (file_path : Path) : bool :=
  let is_audio := str_in (PyPath.suffix file_path) AUDIO_FILE_EXTENSIONS in
  let is_video := str_in (PyPath.suffix file_path) VIDEO_FILE_EXTENSIONS in
  Os.path_exists f file_path && (is_audio || is_video).

Definition _get_transcribable_files_from_dir
    (ext : Externals) (dir_path : Path) : list Path :=
  let top := PyPath.fspath dir_path in
  scan_entries
    (match dir_tree ext top with
     | Some d => os_walk top d
     | None => []
     end).

(** The value of [txt_file_path] in [save_transcription]: a [Path] when
    autosaving, the string the dialog returns otherwise. *)
Inductive PathOrStr : Type :=
| AsPath (p : Path)
| AsStr (s : string).

(** [not x]: a [Path] is never falsy, a string is when it is empty. *)
Definition falsy (x : PathOrStr) : bool :=
  match x with
  | AsPath _ => false
  | AsStr s => PyStr.is_empty s
  end.

Definition to_path (x : PathOrStr) : Path :=
  match x with
  | AsPath p => p
  | AsStr s => PyPath.of_string s
  end.

Definition subtitle_path (file_path : Path) (output_format : string) : Path :=
  PyPath.sibling file_path (PyPath.stem file_path +:+ "." +:+ output_format).

(** The writer of whisperx puts [<stem>.<format>] into [output_dir], the
    path that was checked. *)
Definition _generate_subtitles (file_path : Path) (should_overwrite : bool)
  : M unit :=
  let output_formats := ["srt"; "vtt"] in
  for_each output_formats (fun output_format =>
    let path_to_check := subtitle_path file_path output_format in
    present <- gets (fun st => Os.path_exists (fs st) path_to_check) ;;
    when (should_overwrite || negb present)
      (r <- gets _whisperx_result ;;
       match r with
       | None =>
           raise (TypeError "'NoneType' object does not support item assignment")
       | Some res =>
           let res' := mkWhisperxResult (segments res) (aligned res) (Some "en") in
           set_whisperx_result (Some res') ;;
           write_file path_to_check (FSubtitles output_format res')
       end)).

Definition txt_destination (ext : Externals) (file_path : Path)
    (should_autosave : bool) : PathOrStr :=
  let file_dir := parent file_path in
  let txt_file_name := PyPath.stem file_path +:+ ".txt" in
  if should_autosave
  then AsPath (PyPath.sibling file_path txt_file_name)
  else AsStr (asksaveasfilename ext file_dir txt_file_name).

Definition save_transcription (ext : Externals) (file_path : Path)
    (should_autosave should_overwrite : bool) : M unit :=
  let txt_file_path := txt_destination ext file_path should_autosave in
  if falsy txt_file_path then ret tt
  else
    present <- gets (fun st => Os.path_exists (fs st) (to_path txt_file_path)) ;;
    when (should_overwrite || negb present)
      (t <- gets transcription ;;
       write_file (to_path txt_file_path) (FText (text t))) ;;
    t <- gets transcription ;;
    when (should_subtitle t)
      (_generate_subtitles (to_path txt_file_path) should_overwrite).

Definition _transcribe_using_whisperx (ext : Externals) (file_path : Path)
  : M unit :=
  enter_backend WHISPERX file_path ;;
  try_except
    (match whisperx_transcribe ext file_path with
     | None => raise (LibraryError "whisperx")
     | Some segs =>
         t <- gets transcription ;;
         set_whisperx_result
           (Some (mkWhisperxResult segs false (Some (language_code t)))) ;;
         let text_combined := PyStr.join " " (map (str_strip ext) segs) in
         when (should_subtitle t)
           (if whisperx_align ext file_path
            then set_whisperx_result (Some (mkWhisperxResult segs true None))
            else raise (LibraryError "whisperx.align")) ;;
         set_transcription_text text_combined ;;
         when (negb (bool_decide (source t = DIRECTORY)))
           (view_call (display_text (MsgText text_combined)))
     end)
    _handle_exception.

(** The loop over [enumerate(audio_chunks)]: the text recognized so far is
    the accumulator; a chunk whose recognition raises is passed over. *)
Fixpoint recognize_chunks (ext : Externals) (chunks_directory : string)
    (idx : nat) (audio_chunks : list ChunkOutcome)
    (transcription_text : string)
  : M string :=
  match audio_chunks with
  | [] => ret transcription_text
  | audio_chunk :: rest =>
      let chunk_filename :=
        mkPath chunks_directory ("chunk" +:+ PyStr.of_nat idx +:+ ".wav") in
      match audio_chunk with
      | ExportFails => raise (LibraryError "export")
      | Recognized chunk_text =>
          write_file chunk_filename FAudio ;;
          let chunk_text' := str_capitalize ext chunk_text +:+ ". " in
          recognize_chunks ext chunks_directory (S idx) rest
            (transcription_text +:+ chunk_text')
      | RecognitionFails =>
          write_file chunk_filename FAudio ;;
          recognize_chunks ext chunks_directory (S idx) rest
            transcription_text
      end
  end.

Definition chunks_directory_of (ext : Externals) : string :=
  PyPath.join (ROOT_PATH ext) "audio-chunks".

(** The directory is made before the [try]: an exception of [mkdir]
    leaves the method at once.  The [finally] block starts with [rmtree]:
    an exception of it leaves the method too, whatever the [try] did, and
    skips the rest of the block. *)
Definition _transcribe_using_google_api (ext : Externals) (file_path : Path)
  : M unit :=
  enter_backend GOOGLE_API file_path ;;
  let chunks_directory := chunks_directory_of ext in
  mkdir ext chunks_directory ;;
  try_finally
    (try_except
       (let content_type := PyPath.suffix file_path in
        sound <-
          (if str_in content_type AUDIO_FILE_EXTENSIONS then
             match google_chunks ext file_path with
             | None => raise (LibraryError "AudioSegment.from_file")
             | Some cs => ret (Some cs)
             end
           else if str_in content_type VIDEO_FILE_EXTENSIONS then
             match google_chunks ext file_path with
             | None => raise (LibraryError "VideoFileClip")
             | Some cs =>
                 let video_audio_path :=
                   mkPath chunks_directory (PyPath.stem file_path +:+ ".wav") in
                 write_file video_audio_path FAudio ;;
                 ret (Some cs)
             end
           else ret None) ;;
        audio_chunks <-
          match sound with
          | None =>
              raise (AttributeError "'NoneType' object has no attribute 'dBFS'")
          | Some cs => ret cs
          end ;;
        transcription_text <-
          recognize_chunks ext chunks_directory 0 audio_chunks EmptyString ;;
        set_transcription_text transcription_text)
       (fun e => view_call (display_text (MsgTraceback e))))
    (rmtree ext chunks_directory ;;
     t <- gets transcription ;;
     let is_not_dir := negb (bool_decide (source t = DIRECTORY)) in
     when (negb (PyStr.is_empty (text t)) && is_not_dir)
       (view_call (display_text (MsgText (text t))))).

Definition _transcribe_file (ext : Externals) (file_path : Path) : M unit :=
  t <- gets transcription ;;
  match method t with
  | Some WHISPERX => _transcribe_using_whisperx ext file_path
  | Some GOOGLE_API => _transcribe_using_google_api ext file_path
  | None => ret tt
  end ;;
  t <- gets transcription ;;
  when (bool_decide (source t = MIC) || bool_decide (source t = YOUTUBE))
    (unlink (source_path t)) ;;
  t <- gets transcription ;;
  when (should_autosave t)
    (save_transcription ext file_path true (should_overwrite t)).

Definition directory_error : Exn :=
  ValueError
    ("Error: The directory path is invalid or doesn't contain valid "
     +:+ "file types to transcribe. Please choose another one.").

Definition _handle_transcription_process (ext : Externals) : M unit :=
  try_finally
    (try_except
       (t <- gets transcription ;;
        let path := source_path t in
        if bool_decide (source t = DIRECTORY) then
          match _get_transcribable_files_from_dir ext path with
          | (_ :: _) as files =>
              let tasks := map (_transcribe_file ext) files in
              gather tasks ;;
              view_call (display_text (MsgFilesTranscribed path))
          | [] => raise directory_error
          end
        else _transcribe_file ext path)
       _handle_exception)
    (t <- gets transcription ;;
     let is_transcription_empty := PyStr.is_empty (text t) in
     view_call (on_processed_transcription is_transcription_empty)).

Definition stop_recording_from_mic : M unit :=
  modify (fun st => with_mic_recording st false).

Definition _prepare_for_file_transcription (source_file_path : Path) : M unit :=
  valid <- gets (fun st => _is_file_valid (fs st) source_file_path) ;;
  if valid then
    set_transcription_source_path source_file_path ;;
    start_thread run_transcription_process
  else raise (ValueError "Error: No valid file selected.").

Definition _prepare_for_directory_files_transcription (dir_path : Path)
  : M unit :=
  set_transcription_source_path dir_path ;;
  start_thread run_transcription_process.

Definition _prepare_for_mic_transcription : M unit :=
  start_thread record_from_mic.

Definition _prepare_for_yt_transcription : M unit :=
  start_thread download_audio_from_yt_video.

Definition prepare_for_transcription (t : Transcription) : M unit :=
  modify (fun st => with_transcription st t) ;;
  try_except
    (view_call on_processing_transcription ;;
     match source t with
     | FILE => _prepare_for_file_transcription (source_path t)
     | DIRECTORY => _prepare_for_directory_files_transcription (source_path t)
     | MIC => _prepare_for_mic_transcription
     | YOUTUBE => _prepare_for_yt_transcription
     end)
    _handle_exception.

(** The loop of [_record_from_mic] ends when the user interface calls
    [stop_recording_from_mic]; the flag is false from then on. *)
Definition _record_from_mic (ext : Externals) : M unit :=
  modify (fun st => with_mic_recording st true) ;;
  try_except
    (match mic_listen ext with
     | None => raise (LibraryError "listen")
     | Some captured =>
         stop_recording_from_mic ;;
         if 0 <? captured then
           let filename := "mic-output.wav" in
           write_file (PyPath.of_string filename) FAudio ;;
           set_transcription_source_path (PyPath.of_string filename) ;;
           start_thread run_transcription_process
         else _handle_exception (ValueError "No audio detected")
     end)
    (fun e => view_call view_stop_recording_from_mic ;; _handle_exception e).

Definition _download_audio_from_yt_video (ext : Externals) : M unit :=
  t <- gets transcription ;;
  match yt_download ext (youtube_url t) with
  | YtRegexMatchError => _handle_exception (ValueError "The URL is not correct.")
  | YtFails => _handle_exception (LibraryError "pytube")
  | YtDownloaded output_file =>
      when (negb (PyStr.is_empty output_file))
        (write_file (PyPath.of_string output_file) FAudio ;;
         set_transcription_source_path (PyPath.of_string output_file) ;;
         start_thread run_transcription_process)
  end.

(** ** Threads

    A started thread runs later, off the caller's thread; an exception that
    leaves its target ends the thread and nothing else. *)
Definition run_target (ext : Externals) (t : ThreadTarget) : M unit :=
  match t with
  | run_transcription_process => _handle_transcription_process ext
  | record_from_mic => _record_from_mic ext
  | download_audio_from_yt_video => _download_audio_from_yt_video ext
  end.

Definition run_next_thread (ext : Externals) (st : State) : State :=
  match threads st with
  | [] => st
  | t :: rest => snd (run_target ext t (with_threads st rest))
  end.

(* ===================================================================== *)
(** * Reference definitions used by the statements                         *)
(* ===================================================================== *)

(** The files of one [os.walk] entry that the scan keeps. *)
Definition entry_matches (entry : WalkEntry) : list Path :=
  let '(root, _, files) := entry in
  List.filter (fun p => is_transcribable (name p)) (map (mkPath root) files).

Ltac py_unfold :=
  unfold view_call, enter_backend, set_transcription_text,
    set_transcription_source_path, set_whisperx_result, write_file,
    start_thread, stop_recording_from_mic, when in *;
  unfold bind, ret, raise, gets, modify, try_except, try_finally in *;
  cbv beta iota zeta in *.

Ltac st_simpl :=
  unfold with_transcription, with_mic_recording, with_whisperx_result,
    with_fs, with_log, with_threads in *;
  cbn [transcription _is_mic_recording _whisperx_result fs log threads
       fst snd] in *.

(** The recognized texts of a run of chunks, in order. *)
Fixpoint recognized_texts (chunks : list ChunkOutcome) : list string :=
  match chunks with
  | [] => []
  | Recognized chunk_text :: rest => chunk_text :: recognized_texts rest
  | _ :: rest => recognized_texts rest
  end.

(** Each text capitalized and followed by [". "], all put together. *)
Definition concat_chunk_texts (ext : Externals) (texts : list string) : string :=
  fold_right (fun t acc => (str_capitalize ext t +:+ ". ") +:+ acc)
    EmptyString texts.

(** Every chunk is exported and read; only recognition may fail. *)
Definition recognition_only (chunks : list ChunkOutcome) : Prop :=
  Forall (fun c => c <> ExportFails) chunks.

(** The result that the subtitle writer is given: the stored one with its
    language entry forced to English. *)
Definition forced_english (r : WhisperxResult) : WhisperxResult :=
  mkWhisperxResult (segments r) (aligned r) (Some "en").

(** The state in which [save_transcription] reaches its subtitle step. *)
Definition after_text_write (dest : Path) (ov : bool) (st : State) : State :=
  if ov || negb (Os.path_exists (fs st) dest)
  then with_fs st (Os.write_file (fs st) dest (FText (text (transcription st))))
  else st.

(** The first statement of [_transcribe_file]: the backend chosen by
    [method]. *)
Definition dispatch_backend (ext : Externals) (file_path : Path) : M unit :=
  t <- gets transcription ;;
  match method t with
  | Some WHISPERX => _transcribe_using_whisperx ext file_path
  | Some GOOGLE_API => _transcribe_using_google_api ext file_path
  | None => ret tt
  end.

(** The second statement of [_transcribe_file]: the temporary file of a
    microphone or YouTube request is removed. *)
Definition remove_tmp_file : M unit :=
  t <- gets transcription ;;
  when (bool_decide (source t = MIC) || bool_decide (source t = YOUTUBE))
    (unlink (source_path t)).

Definition is_export_failure (c : ChunkOutcome) : bool :=
  match c with ExportFails => true | _ => false end.

(** The chunks directory can be made and removed: neither [mkdir] nor
    [rmtree] raises on it. *)
Definition chunks_directory_usable (ext : Externals) : bool :=
  match mkdir_error ext (chunks_directory_of ext),
        rmtree_error ext (chunks_directory_of ext) with
  | None, None => true
  | _, _ => false
  end.

(** The backend call for [file_path] fails inside the backend: an
    exception is raised between its [try] and its [except], where it is
    caught, and none outside them. *)
Definition backend_fails_internally
    (ext : Externals) (t : Transcription) (file_path : Path) : bool :=
  match method t with
  | Some WHISPERX =>
      match whisperx_transcribe ext file_path with
      | None => true
      | Some _ => should_subtitle t && negb (whisperx_align ext file_path)
      end
  | Some GOOGLE_API =>
      chunks_directory_usable ext
      && (negb (str_in (PyPath.suffix file_path) SUPPORTED_FILE_EXTENSIONS)
          || match google_chunks ext file_path with
             | None => true
             | Some chunks => existsb is_export_failure chunks
             end)
  | None => false
  end.

(** The backend call returns: the whisperx backend always does, the
    cloud-API backend when the chunks directory can be made and removed. *)
Definition backend_returns (ext : Externals) (t : Transcription) : bool :=
  match method t with
  | Some GOOGLE_API => chunks_directory_usable ext
  | _ => true
  end.

(** Two records of the same request: they differ in [text] at most. *)
Definition same_request (t t' : Transcription) : Prop :=
  t' = set_text t (text t').

(** The outputs written beside a source file are other files than the
    source itself, unless the source bears one of their extensions. *)
Definition not_an_output (p : Path) : Prop :=
  PyPath.suffix p <> ".txt" /\ PyPath.suffix p <> ".srt"
  /\ PyPath.suffix p <> ".vtt".

(** Kinds of calls in the log. *)
Definition is_processed (c : Call) : bool :=
  match c with
  | CallView (on_processed_transcription _) => true
  | _ => false
  end.

(** [_handle_exception] is the one place that displays the [repr] of an
    exception. *)
Definition is_handled_exception (c : Call) : bool :=
  match c with
  | CallView (display_text (MsgRepr _)) => true
  | _ => false
  end.

Definition is_backend_call (c : Call) : bool :=
  match c with
  | CallBackend _ _ => true
  | _ => false
  end.

Definition count (f : Call -> bool) (l : list Call) : nat :=
  length (List.filter f l).

(** A stretch of the log with as many [on_processed_transcription] calls
    as handled exceptions. *)
Definition balanced (new : list Call) : Prop :=
  count is_processed new = count is_handled_exception new.

(** A method that only adds to the log, and adds a balanced stretch. *)
Definition logs_balanced {A} (m : M A) : Prop :=
  forall st, exists new, log (snd (m st)) = log st ++ new /\ balanced new.

(** An extension as [Path.suffix] can return it: a dot, then at least one
    character, none of them a dot. *)
Definition plain_extension (e : string) : bool :=
  match e with
  | String c rest =>
      Ascii.eqb c "."%char
      && negb (PyStr.is_empty rest)
      && match PyStr.rfind_dot rest with None => true | Some _ => false end
  | EmptyString => false
  end.

(** What the [try] of the cloud-API backend makes of a file: the text of
    its chunks, or [None] when an exception is raised there. *)
Definition google_try_text (ext : Externals) (file_path : Path) : option string :=
  if str_in (PyPath.suffix file_path) SUPPORTED_FILE_EXTENSIONS then
    match google_chunks ext file_path with
    | Some chunks =>
        if existsb is_export_failure chunks then None
        else Some (concat_chunk_texts ext (recognized_texts chunks))
    | None => None
    end
  else None.

(** The text a backend call puts into the record for [file_path], or
    [None] when it leaves the text as it is (it fails inside, it cannot
    make the chunks directory, or [method] names no backend). *)
Definition text_set_by_backend
    (ext : Externals) (t : Transcription) (file_path : Path) : option string :=
  match method t with
  | Some WHISPERX =>
      match whisperx_transcribe ext file_path with
      | Some segs =>
          if should_subtitle t && negb (whisperx_align ext file_path)
          then None
          else Some (PyStr.join " " (map (str_strip ext) segs))
      | None => None
      end
  | Some GOOGLE_API =>
      match mkdir_error ext (chunks_directory_of ext) with
      | Some _ => None
      | None => google_try_text ext file_path
      end
  | None => None
  end.

(** The text that a backend call which returns has put into the record
    for [file_path]; [None] when the call does not return or leaves the
    text as it is. *)
Definition backend_text
    (ext : Externals) (t : Transcription) (file_path : Path) : option string :=
  if backend_returns ext t then text_set_by_backend ext t file_path else None.

(** The record after a backend call. *)
Definition with_backend_text (t : Transcription) (o : option string)
  : Transcription :=
  match o with
  | Some s => set_text t s
  | None => t
  end.

(** The text in the record after the files of a directory have been
    served in order: that of the last file whose backend set it. *)
Definition text_after_files
    (ext : Externals) (t : Transcription) (files : list Path) (text0 : string)
  : string :=
  fold_left (fun txt fp => default txt (text_set_by_backend ext t fp))
    files text0.

(** A whole request as the application runs it: the call of
    [prepare_for_transcription] on the caller's thread, then the thread it
    started, then the thread that one started. *)
Definition run_request (ext : Externals) (t : Transcription) (st : State)
  : State :=
  run_next_thread ext
    (run_next_thread ext (snd (prepare_for_transcription t st))).

(** The file that [_record_from_mic] writes. *)
Definition mic_output : Path := PyPath.of_string "mic-output.wav".

(** A YouTube request whose download returns an empty path. *)
Definition download_yields_nothing (ext : Externals) (t : Transcription) : bool :=
  bool_decide (source t = YOUTUBE)
  && match yt_download ext (youtube_url t) with
     | YtDownloaded output_file => PyStr.is_empty output_file
     | _ => false
     end.

(** Induction over a directory tree, with the sub-directories. *)
Section DirInduction.

Variable P : Dir -> Prop.
Hypothesis step :
  forall files subdirs,
    Forall (fun nd => P (snd nd)) subdirs -> P (mkDir files subdirs).

Fixpoint Dir_nested_ind (d : Dir) : P d :=
  match d with
  | mkDir files subdirs =>
      step files subdirs
        ((fix all (l : list (string * Dir)) : Forall (fun nd => P (snd nd)) l :=
            match l with
            | [] => @List.Forall_nil _ _
            | (n, sd) :: rest =>
                @List.Forall_cons _ (fun nd => P (snd nd)) (n, sd) rest
                  (Dir_nested_ind sd) (all rest)
            end) subdirs)
  end.

End DirInduction.

(* ===================================================================== *)
(** * A sample world                                                       *)
(* ===================================================================== *)

Module Sample.

Definition music : Dir :=
  mkDir ["talk.mp3"; "notes.txt"; "Song.MP3"]
    [("live", mkDir ["set.wav"; "cover.jpg"]
                [("deep", mkDir ["clip.mp4"] [])])].

Definition papers : Dir :=
  mkDir ["readme.md"] [("old", mkDir [] [])].

Definition mixed : Dir :=
  mkDir ["noise.mp3"; "talk.mp3"] [].

Definition ext : Externals :=
  mkExternals "/app"
    (fun top =>
       if String.eqb top "/home/music" then Some music
       else if String.eqb top "/home/papers" then Some papers
       else if String.eqb top "/home/mixed" then Some mixed
       else None)
    (fun p =>
       if String.eqb (name p) "talk.mp3" then Some [" hello "; "world  "]
       else if String.eqb (name p) "set.wav" then Some ["live set"]
       else None)
    (fun _ => true)
    (fun _ => Some [Recognized "hello there"; RecognitionFails; Recognized "bYE"])
    (fun _ _ => EmptyString)
    (Some 2)
    (fun _ => YtDownloaded "yt-audio.mp3")
    PyStr.capitalize_ascii
    PyStr.strip_ascii
    (fun _ => None)
    (fun _ => None)
    (fun _ => true).

Definition talk : Path := mkPath "/home/music" "talk.mp3".
Definition noise : Path := mkPath "/home/music" "noise.mp3".

Definition disk : FS :=
  mkFS {[ talk := FAudio; noise := FAudio;
          mkPath "/home/music" "noise.txt" := FText "kept" ]} ∅.

(** The same world with a microphone that hears nothing and a download
    that yields no file. *)
Definition ext_silent : Externals :=
  mkExternals (ROOT_PATH ext) (dir_tree ext) (whisperx_transcribe ext)
    (whisperx_align ext) (google_chunks ext) (asksaveasfilename ext)
    (Some 0) (fun _ => YtDownloaded EmptyString)
    (str_capitalize ext) (str_strip ext)
    (mkdir_error ext) (rmtree_error ext) (rmtree_removed ext).

(** The same world with a regular file in the place of the chunks
    directory. *)
Definition ext_blocked : Externals :=
  mkExternals (ROOT_PATH ext) (dir_tree ext) (whisperx_transcribe ext)
    (whisperx_align ext) (google_chunks ext) (asksaveasfilename ext)
    (mic_listen ext) (yt_download ext)
    (str_capitalize ext) (str_strip ext)
    (fun d => Some (FileExistsError d)) (rmtree_error ext)
    (rmtree_removed ext).

(** The same world in which the chunk files cannot be removed. *)
Definition ext_locked : Externals :=
  mkExternals (ROOT_PATH ext) (dir_tree ext) (whisperx_transcribe ext)
    (whisperx_align ext) (google_chunks ext) (asksaveasfilename ext)
    (mic_listen ext) (yt_download ext)
    (str_capitalize ext) (str_strip ext)
    (mkdir_error ext) (fun d => Some (PermissionError d)) (fun _ => false).

(** A request: the source, its path, the backend and the flags
    [should_subtitle], [should_autosave], [should_overwrite]. *)
Definition request (src : AudioSource) (p : Path)
    (m : TranscriptionMethod) (subtitle autosave overwrite : bool)
  : Transcription :=
  mkTranscription src p EmptyString (Some m) "en" false
    subtitle autosave overwrite EmptyString.

(** A controller as the application creates it. *)
Definition fresh (t : Transcription) : State := MainController_init t disk.

(** A whole request: [prepare_for_transcription], then the thread it
    started. *)
Definition serve (t : Transcription) (st : State) : State :=
  run_next_thread ext (snd (prepare_for_transcription t st)).

End Sample.
(* ===================================================================== *)
(** * The directory scan                                                   *)
(* ===================================================================== *)

Lemma append_if_filter (keep : string -> bool) (root : string)
    (files : list string) (acc : list Path) :
  fold_left
    (fun acc file => if keep file then acc ++ [mkPath root file] else acc)
    files acc
  = acc ++ List.filter (fun p => keep (name p)) (map (mkPath root) files).
Proof.
  revert acc. induction files as [|f fs IH]; intros acc.
  - cbn. now rewrite app_nil_r.
  - cbn [fold_left map List.filter name]. rewrite IH.
    destruct (keep f); [|reflexivity].
    now rewrite <- List.app_assoc.
Qed.

Lemma scan_files_loop (root : string) (files : list string) (acc : list Path) :
  fold_left
    (fun acc file =>
       if existsb (fun ext => PyStr.endswith file ext)
            (AUDIO_FILE_EXTENSIONS ++ VIDEO_FILE_EXTENSIONS)
       then acc ++ [mkPath root file]
       else acc)
    files acc
  = acc ++ List.filter (fun p => is_transcribable (name p)) (map (mkPath root) files).
Proof.
  exact (append_if_filter
           (fun file => existsb (fun ext => PyStr.endswith file ext)
                          (AUDIO_FILE_EXTENSIONS ++ VIDEO_FILE_EXTENSIONS))
           root files acc).
Qed.

Lemma scan_entries_loop (walk : list WalkEntry) (acc : list Path) :
  fold_left
    (fun matching_files (entry : WalkEntry) =>
       let '(root, _, files) := entry in
       fold_left
         (fun acc file =>
            if existsb (fun ext => PyStr.endswith file ext)
                 (AUDIO_FILE_EXTENSIONS ++ VIDEO_FILE_EXTENSIONS)
            then acc ++ [mkPath root file]
            else acc)
         files matching_files)
    walk acc
  = acc ++ flat_map entry_matches walk.
Proof.
  revert acc. induction walk as [|[[root ds] fs] walk IH]; intros acc.
  - cbn. now rewrite app_nil_r.
  - cbn [fold_left flat_map entry_matches].
    rewrite scan_files_loop, IH. now rewrite <- List.app_assoc.
Qed.

Lemma scan_entries_flat (walk : list WalkEntry) :
  scan_entries walk = flat_map entry_matches walk.
Proof. unfold scan_entries. now rewrite scan_entries_loop. Qed.

Lemma walk_matches_tree (d : Dir) :
  forall top,
    flat_map entry_matches (os_walk top d)
    = List.filter (fun p => is_transcribable (name p)) (tree_files top d).
Proof.
  induction d as [files subdirs IH] using Dir_nested_ind; intros top.
  simpl. rewrite List.filter_app. f_equal.
  induction subdirs as [|[n sd] rest IHrest]; simpl; [reflexivity|].
  inversion IH as [|? ? Hsd Hrest]; subst; simpl in Hsd.
  rewrite flat_map_app, List.filter_app, Hsd, (IHrest Hrest). reflexivity.
Qed.

Lemma scan_walk_tree (top : string) (d : Dir) :
  scan_entries (os_walk top d)
  = List.filter (fun p => is_transcribable (name p)) (tree_files top d).
Proof. rewrite scan_entries_flat. apply walk_matches_tree. Qed.

Lemma filter_partition_length {A} (f : A -> bool) (l : list A) :
  length (List.filter f l) + length (List.filter (fun x => negb (f x)) l)
  = length l.
Proof.
  induction l as [|x l IH]; simpl; [reflexivity|].
  destruct (f x); simpl; lia.
Qed.

(** C7.  For a directory tree holding N files whose names end in an
    extension of the audio/video allow-list and M files that do not, the
    scan returns exactly the N matching paths, whatever their depth, and
    none of the M others: the result is the files of the tree filtered by
    the allow-list, its length is N, and a path is returned if and only if
    it is a file of the tree with a matching name. *)
Theorem C7_scan_returns_exactly_matching
    (ext : Externals) (dir_path : Path) (d : Dir) (N M : nat) :
  dir_tree ext (PyPath.fspath dir_path) = Some d ->
  N = length (List.filter (fun p => is_transcribable (name p))
                (tree_files (PyPath.fspath dir_path) d)) ->
  M = length (List.filter (fun p => negb (is_transcribable (name p)))
                (tree_files (PyPath.fspath dir_path) d)) ->
  let found := _get_transcribable_files_from_dir ext dir_path in
  found = List.filter (fun p => is_transcribable (name p))
            (tree_files (PyPath.fspath dir_path) d)
  /\ length found = N
  /\ N + M = length (tree_files (PyPath.fspath dir_path) d)
  /\ (forall p, In p found <->
                In p (tree_files (PyPath.fspath dir_path) d)
                /\ is_transcribable (name p) = true)
  /\ (forall p, is_transcribable (name p) = false -> ~ In p found).
Proof.
  intros Htree HN HM found.
  assert (Hfound : found = List.filter (fun p => is_transcribable (name p))
                             (tree_files (PyPath.fspath dir_path) d)).
  { unfold found, _get_transcribable_files_from_dir. rewrite Htree.
    apply scan_walk_tree. }
  split; [exact Hfound|].
  split; [now rewrite Hfound, HN|].
  split; [subst N M; apply filter_partition_length|].
  split.
  - intros p. rewrite Hfound. apply List.filter_In.
  - intros p Hp Hin. rewrite Hfound in Hin.
    apply List.filter_In in Hin. destruct Hin as [_ Hin]. congruence.
Qed.

(* ===================================================================== *)
(** * Facts on strings and paths                                           *)
(* ===================================================================== *)

Lemma str_app_cons (x : ascii) (a b : string) :
  String x a +:+ b = String x (a +:+ b).
Proof. reflexivity. Qed.

Lemma str_app_nil_l (b : string) : EmptyString +:+ b = b.
Proof. reflexivity. Qed.

Lemma str_app_assoc (a b c : string) : (a +:+ b) +:+ c = a +:+ (b +:+ c).
Proof.
  induction a as [|x a IH]; [reflexivity|].
  rewrite !str_app_cons. now rewrite IH.
Qed.

Lemma str_app_nil_r (a : string) : a +:+ EmptyString = a.
Proof.
  induction a as [|x a IH]; [reflexivity|].
  rewrite str_app_cons. now rewrite IH.
Qed.

Lemma str_app_length (a b : string) :
  String.length (a +:+ b) = String.length a + String.length b.
Proof.
  induction a as [|x a IH]; [reflexivity|].
  rewrite str_app_cons. simpl. now rewrite IH.
Qed.

Lemma str_app_inv_head (a b c : string) : a +:+ b = a +:+ c -> b = c.
Proof.
  induction a as [|x a IH]; [intros H; exact H|].
  rewrite !str_app_cons. intros H. injection H as H. now apply IH.
Qed.

Lemma substring_split (s : string) (i : nat) :
  i <= String.length s ->
  substring 0 i s +:+ substring i (String.length s - i) s = s.
Proof.
  revert i. induction s as [|c s IH]; intros [|i] Hi; simpl in *;
    try reflexivity; try lia.
  - rewrite str_app_nil_l. f_equal. specialize (IH 0 ltac:(lia)).
    rewrite Nat.sub_0_r in IH. destruct s; simpl in *; [reflexivity|].
    rewrite str_app_nil_l in IH. exact IH.
  - rewrite str_app_cons. f_equal. apply IH. lia.
Qed.

Lemma rfind_dot_bound (s : string) (i : nat) :
  PyStr.rfind_dot s = Some i -> i < String.length s.
Proof.
  revert i. induction s as [|c s IH]; intros i; simpl; [discriminate|].
  destruct (PyStr.rfind_dot s) as [j|].
  - intros [= <-]. specialize (IH j eq_refl). lia.
  - destruct (Ascii.eqb c "."); [intros [= <-]; lia | discriminate].
Qed.

(** A name is its stem followed by its suffix. *)
Lemma stem_suffix (nm : string) :
  PyPath.stem_of nm +:+ PyPath.suffix_of nm = nm.
Proof.
  unfold PyPath.stem_of, PyPath.suffix_of.
  destruct (PyStr.rfind_dot nm) as [i|] eqn:Hi; [|apply str_app_nil_r].
  destruct ((0 <? i) && (i <? String.length nm - 1)); [|apply str_app_nil_r].
  apply substring_split. apply rfind_dot_bound in Hi. lia.
Qed.

Lemma substring_0_app (a b : string) :
  substring 0 (String.length a) (a +:+ b) = a.
Proof.
  induction a as [|x a IH]; [destruct b; reflexivity|].
  rewrite str_app_cons. simpl. now rewrite IH.
Qed.

Lemma rfind_dot_app (s e : string) :
  PyStr.rfind_dot e = None ->
  PyStr.rfind_dot (s +:+ String "." e) = Some (String.length s).
Proof.
  intros He. induction s as [|c s IH].
  - rewrite str_app_nil_l. simpl. now rewrite He.
  - rewrite str_app_cons. simpl. now rewrite IH.
Qed.

(** The stem of [<s>.<e>] when [e] is a plain, non-empty extension. *)
Lemma stem_of_app_ext (s e : string) :
  PyStr.rfind_dot e = None -> e <> EmptyString ->
  PyPath.stem_of (s +:+ String "." e)
  = if PyStr.is_empty s then String "." e else s.
Proof.
  intros He Hne. unfold PyPath.stem_of. rewrite rfind_dot_app by exact He.
  rewrite str_app_length. destruct s as [|c s].
  - reflexivity.
  - cbn [PyStr.is_empty].
    replace ((0 <? String.length (String c s))
             && (String.length (String c s)
                 <? String.length (String c s) + String.length (String "." e) - 1))
      with true.
    + apply substring_0_app.
    + symmetry. apply andb_true_iff. split; apply Nat.ltb_lt; simpl; [lia|].
      destruct e; [congruence | simpl; lia].
Qed.

Lemma subtitle_path_formats_differ (p : Path) :
  subtitle_path p "srt" <> subtitle_path p "vtt".
Proof.
  unfold subtitle_path, PyPath.sibling. intros [= H].
  apply str_app_inv_head in H. discriminate.
Qed.

(** The subtitle files made for a [.txt] destination are other files. *)
Lemma subtitle_path_not_txt (d s fmt : string) :
  fmt = "srt" \/ fmt = "vtt" ->
  subtitle_path (mkPath d (s +:+ ".txt")) fmt <> mkPath d (s +:+ ".txt").
Proof.
  intros Hfmt. unfold subtitle_path, PyPath.sibling, PyPath.stem.
  cbn [parent name]. rewrite (stem_of_app_ext s "txt") by (reflexivity || discriminate).
  intros [= H]. destruct s as [|c s]; cbn [PyStr.is_empty] in H.
  - destruct Hfmt as [-> | ->]; discriminate.
  - apply str_app_inv_head in H. destruct Hfmt as [-> | ->]; discriminate.
Qed.

(** The text file saved beside a source file is another file than the
    source, unless the source is itself a [.txt]. *)
Lemma txt_sibling_not_source (p : Path) :
  PyPath.suffix p <> ".txt" ->
  PyPath.sibling p (PyPath.stem p +:+ ".txt") <> p.
Proof.
  intros Hs H. apply Hs. destruct p as [d nm].
  unfold PyPath.sibling, PyPath.stem, PyPath.suffix in *. cbn [parent name] in *.
  injection H as H.
  rewrite <- (stem_suffix nm) in H at 2.
  apply str_app_inv_head in H. now symmetry.
Qed.

Lemma stem_of_empty_name (nm : string) :
  PyPath.stem_of nm = EmptyString -> nm = EmptyString.
Proof.
  intros H. pose proof (stem_suffix nm) as Hs. rewrite H in Hs.
  rewrite str_app_nil_l in Hs.
  unfold PyPath.stem_of, PyPath.suffix_of in *.
  destruct (PyStr.rfind_dot nm) as [i|] eqn:Hi; [|exact H].
  destruct ((0 <? i) && (i <? String.length nm - 1)) eqn:Hc; [|exact H].
  apply andb_true_iff in Hc. destruct Hc as [H0 H1].
  apply Nat.ltb_lt in H0, H1.
  assert (Hlen : String.length (substring i (String.length nm - i) nm)
                 = String.length nm) by now rewrite Hs.
  assert (Hle : forall (t : string) a b, String.length (substring a b t) <= b).
  { clear. induction t as [|c t IH]; intros [|a] [|b]; simpl; try lia.
    - specialize (IH 0 b). lia.
    - apply IH.
    - apply IH. }
  specialize (Hle nm i (String.length nm - i)). lia.
Qed.

(** The subtitle files made beside a source file are other files than the
    source, unless the source is itself a subtitle file. *)
Lemma subtitle_sibling_not_source (p : Path) (fmt : string) :
  fmt = "srt" \/ fmt = "vtt" ->
  PyPath.suffix p <> String "." fmt ->
  subtitle_path (PyPath.sibling p (PyPath.stem p +:+ ".txt")) fmt <> p.
Proof.
  intros Hfmt Hs H. destruct p as [d nm].
  unfold subtitle_path, PyPath.sibling, PyPath.stem, PyPath.suffix in *.
  cbn [parent name] in *.
  rewrite (stem_of_app_ext (PyPath.stem_of nm) "txt") in H
    by (reflexivity || discriminate).
  injection H as H.
  destruct (PyPath.stem_of nm) as [|c s] eqn:Hstem; cbn [PyStr.is_empty] in H.
  - apply stem_of_empty_name in Hstem. subst nm.
    destruct Hfmt as [-> | ->]; discriminate.
  - apply Hs. rewrite <- (stem_suffix nm) in H. rewrite Hstem in H.
    apply str_app_inv_head in H. now symmetry.
Qed.

(* ===================================================================== *)
(** * The cloud-API backend                                                *)
(* ===================================================================== *)

Lemma recognize_chunks_text (ext : Externals) (chunks : list ChunkOutcome) :
  forall dir idx acc st,
    recognition_only chunks ->
    exists f',
      recognize_chunks ext dir idx chunks acc st
      = (Ok (acc +:+ concat_chunk_texts ext (recognized_texts chunks)),
         with_fs st f').
Proof.
  induction chunks as [|c chunks IH]; intros dir idx acc st Hrec.
  - exists (fs st). cbn. rewrite str_app_nil_r. now destruct st.
  - inversion Hrec as [|? ? Hc Hrest]; subst.
    destruct c as [chunk_text| |]; [| |congruence].
    + cbn [recognize_chunks recognized_texts concat_chunk_texts fold_right].
      py_unfold.
      destruct (IH dir (S idx)
                  (acc +:+ str_capitalize ext chunk_text +:+ ". ")
                  (with_fs st (Os.write_file (fs st)
                     (mkPath dir ("chunk" +:+ PyStr.of_nat idx +:+ ".wav")) FAudio))
                  Hrest) as [f' Hf'].
      exists f'. rewrite Hf'. f_equal. f_equal.
      fold (concat_chunk_texts ext (recognized_texts chunks)).
      now rewrite !str_app_assoc.
    + cbn [recognize_chunks recognized_texts]. py_unfold.
      destruct (IH dir (S idx) acc
                  (with_fs st (Os.write_file (fs st)
                     (mkPath dir ("chunk" +:+ PyStr.of_nat idx +:+ ".wav")) FAudio))
                  Hrest) as [f' Hf'].
      exists f'. now rewrite Hf'.
Qed.

(** C5.  In the cloud-API backend, when some chunks fail recognition, each
    failing chunk adds no text and the later chunks are still processed:
    once the chunks directory has been made, the text of the record is the
    concatenation, in order, of the recognized text of each successful
    chunk, capitalized by [str.capitalize] and followed by [". "]; and
    the backend returns when the directory can be removed. *)
Theorem C5_google_text_is_concatenation
    (ext : Externals) (file_path : Path) (st : State)
    (chunks : list ChunkOutcome) :
  google_chunks ext file_path = Some chunks ->
  str_in (PyPath.suffix file_path) SUPPORTED_FILE_EXTENSIONS = true ->
  recognition_only chunks ->
  mkdir_error ext (chunks_directory_of ext) = None ->
  let out := _transcribe_using_google_api ext file_path st in
  text (transcription (snd out))
  = concat_chunk_texts ext (recognized_texts chunks)
  /\ (rmtree_error ext (chunks_directory_of ext) = None -> fst out = Ok tt).
Proof.
  intros Hchunks Hsuffix Hrec Hmk.
  unfold str_in, SUPPORTED_FILE_EXTENSIONS in Hsuffix.
  rewrite existsb_app in Hsuffix. apply orb_true_iff in Hsuffix.
  unfold _transcribe_using_google_api, mkdir, rmtree. py_unfold.
  rewrite Hchunks, Hmk.
  fold (str_in (PyPath.suffix file_path) AUDIO_FILE_EXTENSIONS) in *.
  fold (str_in (PyPath.suffix file_path) VIDEO_FILE_EXTENSIONS) in *.
  destruct (str_in (PyPath.suffix file_path) AUDIO_FILE_EXTENSIONS) eqn:Ha.
  - match goal with
    | |- context [recognize_chunks ?ee ?d ?i ?c ?a ?s] =>
        destruct (recognize_chunks_text ee c d i a s Hrec) as [f' Hf']
    end.
    rewrite Hf'. st_simpl.
    destruct (rmtree_error ext (chunks_directory_of ext)); st_simpl;
      [split; [reflexivity | discriminate]|].
    destruct (negb _ && negb _); cbn; split; reflexivity.
  - destruct Hsuffix as [Hsuffix | Hsuffix]; [discriminate|]. rewrite Hsuffix.
    match goal with
    | |- context [recognize_chunks ?ee ?d ?i ?c ?a ?s] =>
        destruct (recognize_chunks_text ee c d i a s Hrec) as [f' Hf']
    end.
    rewrite Hf'. st_simpl.
    destruct (rmtree_error ext (chunks_directory_of ext)); st_simpl;
      [split; [reflexivity | discriminate]|].
    destruct (negb _ && negb _); cbn; split; reflexivity.
Qed.

(* ===================================================================== *)
(** * Saving                                                               *)
(* ===================================================================== *)

Lemma path_exists_false (f : FS) (p : Path) :
  Os.path_exists f p = false <-> files f !! p = None.
Proof.
  unfold Os.path_exists. rewrite bool_decide_eq_false.
  rewrite <- eq_None_not_Some. reflexivity.
Qed.

(** [_generate_subtitles] touches the two subtitle files only. *)
Lemma generate_subtitles_frame (file_path : Path) (ov : bool) (st : State) (p : Path) :
  p <> subtitle_path file_path "srt" ->
  p <> subtitle_path file_path "vtt" ->
  files (fs (snd (_generate_subtitles file_path ov st))) !! p
  = files (fs st) !! p.
Proof.
  intros Hsrt Hvtt. unfold _generate_subtitles. cbn [for_each]. py_unfold.
  repeat (case_match; simplify_eq; cbn [snd fs with_fs with_whisperx_result
                                         Os.write_file files _whisperx_result] in * );
    rewrite ?lookup_insert_ne by congruence; reflexivity.
Qed.

Lemma generate_subtitles_keeps (file_path : Path) (ov : bool) (st : State) :
  transcription (snd (_generate_subtitles file_path ov st)) = transcription st
  /\ log (snd (_generate_subtitles file_path ov st)) = log st
  /\ threads (snd (_generate_subtitles file_path ov st)) = threads st
  /\ dirs (fs (snd (_generate_subtitles file_path ov st))) = dirs (fs st).
Proof.
  unfold _generate_subtitles. cbn [for_each]. py_unfold.
  repeat (case_match; simplify_eq; cbn in * ); auto.
Qed.

Lemma path_exists_write_ne (f : FS) (p q : Path) (data : FileData) :
  p <> q -> Os.path_exists (Os.write_file f p data) q = Os.path_exists f q.
Proof.
  intros Hne. unfold Os.path_exists, Os.write_file. cbn [files].
  now rewrite lookup_insert_ne.
Qed.

(** With a result stored, [_generate_subtitles] returns, and writes each
    format that may be written from that result. *)
Lemma generate_subtitles_stored
    (file_path : Path) (ov : bool) (st : State) (r : WhisperxResult) :
  _whisperx_result st = Some r ->
  fst (_generate_subtitles file_path ov st) = Ok tt
  /\ forall fmt, fmt = "srt" \/ fmt = "vtt" ->
       files (fs (snd (_generate_subtitles file_path ov st)))
         !! subtitle_path file_path fmt
       = if ov || negb (Os.path_exists (fs st) (subtitle_path file_path fmt))
         then Some (FSubtitles fmt (forced_english r))
         else files (fs st) !! subtitle_path file_path fmt.
Proof.
  intros Hr. pose proof (subtitle_path_formats_differ file_path) as Hne.
  unfold _generate_subtitles, forced_english. cbn [for_each]. py_unfold.
  destruct (ov || negb (Os.path_exists (fs st) (subtitle_path file_path "srt")))
    eqn:Hsrt; cbv beta iota; rewrite ?Hr; cbv beta iota;
    cbn [fs with_fs with_whisperx_result _whisperx_result segments aligned];
    rewrite ?path_exists_write_ne by exact Hne;
    destruct (ov || negb (Os.path_exists (fs st) (subtitle_path file_path "vtt")))
      eqn:Hvtt; cbv beta iota; rewrite ?Hr; cbv beta iota;
    cbn [fs with_fs with_whisperx_result _whisperx_result segments aligned
         fst snd Os.write_file files];
    (split; [reflexivity|]);
    intros fmt [-> | ->]; rewrite ?Hsrt, ?Hvtt;
    rewrite ?lookup_insert_eq; try reflexivity;
    rewrite ?lookup_insert_ne by congruence;
    rewrite ?lookup_insert_eq; reflexivity.
Qed.

(** With every subtitle file present and no permission to overwrite,
    [_generate_subtitles] does nothing. *)
Lemma generate_subtitles_all_present (file_path : Path) (st : State) :
  Os.path_exists (fs st) (subtitle_path file_path "srt") = true ->
  Os.path_exists (fs st) (subtitle_path file_path "vtt") = true ->
  _generate_subtitles file_path false st = (Ok tt, st).
Proof.
  intros Hsrt Hvtt. unfold _generate_subtitles. cbn [for_each]. py_unfold.
  rewrite Hsrt. cbn. rewrite Hvtt. reflexivity.
Qed.

Lemma save_transcription_steps
    (ext : Externals) (file_path : Path) (autosave ov : bool) (st : State) :
  falsy (txt_destination ext file_path autosave) = false ->
  save_transcription ext file_path autosave ov st
  = let dest := to_path (txt_destination ext file_path autosave) in
    if should_subtitle (transcription st)
    then _generate_subtitles dest ov (after_text_write dest ov st)
    else (Ok tt, after_text_write dest ov st).
Proof.
  intros Hdest. unfold save_transcription, after_text_write. rewrite Hdest.
  py_unfold.
  destruct (ov || negb (Os.path_exists (fs st) _));
    cbv beta iota; cbn [transcription with_fs];
    destruct (should_subtitle (transcription st)); reflexivity.
Qed.

Lemma save_transcription_cancelled
    (ext : Externals) (file_path : Path) (autosave ov : bool) (st : State) :
  falsy (txt_destination ext file_path autosave) = true ->
  save_transcription ext file_path autosave ov st = (Ok tt, st).
Proof. intros Hdest. unfold save_transcription. now rewrite Hdest. Qed.

(** What [save_transcription] leaves in its destination. *)
Lemma save_transcription_at_dest
    (ext : Externals) (file_path : Path) (autosave ov : bool) (st : State)
    (dest : Path) :
  falsy (txt_destination ext file_path autosave) = false ->
  dest = to_path (txt_destination ext file_path autosave) ->
  dest <> subtitle_path dest "srt" ->
  dest <> subtitle_path dest "vtt" ->
  files (fs (snd (save_transcription ext file_path autosave ov st))) !! dest
  = if ov || negb (Os.path_exists (fs st) dest)
    then Some (FText (text (transcription st)))
    else files (fs st) !! dest.
Proof.
  intros Hdest -> Hsrt Hvtt. rewrite save_transcription_steps by exact Hdest.
  cbv zeta. set (dest := to_path _) in *.
  assert (Hmid : files (fs (after_text_write dest ov st)) !! dest
                 = if ov || negb (Os.path_exists (fs st) dest)
                   then Some (FText (text (transcription st)))
                   else files (fs st) !! dest).
  { unfold after_text_write.
    destruct (ov || negb (Os.path_exists (fs st) dest)); [|reflexivity].
    cbn. apply lookup_insert_eq. }
  destruct (should_subtitle (transcription st)); [|exact Hmid].
  rewrite generate_subtitles_frame by assumption. exact Hmid.
Qed.

(** [save_transcription] touches its destination and the two subtitle
    files beside it, nothing else. *)
Lemma save_transcription_frame
    (ext : Externals) (file_path : Path) (autosave ov : bool) (st : State)
    (p : Path) :
  let dest := to_path (txt_destination ext file_path autosave) in
  p <> dest ->
  p <> subtitle_path dest "srt" ->
  p <> subtitle_path dest "vtt" ->
  files (fs (snd (save_transcription ext file_path autosave ov st))) !! p
  = files (fs st) !! p.
Proof.
  intros dest Hp Hsrt Hvtt.
  destruct (falsy (txt_destination ext file_path autosave)) eqn:Hdest.
  - now rewrite save_transcription_cancelled.
  - rewrite save_transcription_steps by exact Hdest. cbv zeta. fold dest.
    assert (Hmid : files (fs (after_text_write dest ov st)) !! p
                   = files (fs st) !! p).
    { unfold after_text_write.
      destruct (ov || negb (Os.path_exists (fs st) dest)); [|reflexivity].
      cbn. now rewrite lookup_insert_ne. }
    destruct (should_subtitle (transcription st)); [|exact Hmid].
    rewrite generate_subtitles_frame by assumption. exact Hmid.
Qed.

(** C6.  [save_transcription] with a [.txt] destination: when
    [should_overwrite] is false and the destination exists, its contents
    are the same after the call; when [should_overwrite] is true or the
    destination does not exist, its contents afterwards are
    [transcription.text]. *)
Theorem C6_save_respects_overwrite
    (ext : Externals) (file_path : Path) (should_autosave should_overwrite : bool)
    (st : State) (dest : Path) :
  falsy (txt_destination ext file_path should_autosave) = false ->
  dest = to_path (txt_destination ext file_path should_autosave) ->
  (exists s, name dest = s +:+ ".txt") ->
  let st' := snd (save_transcription ext file_path should_autosave
                    should_overwrite st) in
  (should_overwrite = false ->
   forall old, files (fs st) !! dest = Some old ->
               files (fs st') !! dest = Some old)
  /\ (should_overwrite = true \/ files (fs st) !! dest = None ->
      files (fs st') !! dest = Some (FText (text (transcription st)))).
Proof.
  intros Hdest Heq [s Hs] st'.
  assert (Hsrt : dest <> subtitle_path dest "srt").
  { destruct dest as [d nm]. cbn in Hs. subst nm.
    intros H. symmetry in H. revert H. apply subtitle_path_not_txt. now left. }
  assert (Hvtt : dest <> subtitle_path dest "vtt").
  { destruct dest as [d nm]. cbn in Hs. subst nm.
    intros H. symmetry in H. revert H. apply subtitle_path_not_txt. now right. }
  pose proof (save_transcription_at_dest ext file_path should_autosave
                should_overwrite st dest Hdest Heq Hsrt Hvtt) as Hat.
  fold st' in Hat. split.
  - intros -> old Hold. rewrite Hat.
    assert (Os.path_exists (fs st) dest = true) as ->.
    { unfold Os.path_exists. apply bool_decide_eq_true. now exists old. }
    exact Hold.
  - intros [-> | Hnone]; rewrite Hat; [reflexivity|].
    apply path_exists_false in Hnone. rewrite Hnone.
    now rewrite orb_true_r.
Qed.

(** C6 on the sample disk: [noise.txt] exists and may not be overwritten. *)
Lemma C6_save_respects_overwrite_witness :
  let st := Sample.fresh (Sample.request FILE Sample.noise WHISPERX false true false) in
  let dest := mkPath "/home/music" "noise.txt" in
  let st' := snd (save_transcription Sample.ext Sample.noise true false st) in
  (false = false ->
   forall old, files (fs st) !! dest = Some old ->
               files (fs st') !! dest = Some old)
  /\ (false = true \/ files (fs st) !! dest = None ->
      files (fs st') !! dest = Some (FText (text (transcription st)))).
Proof.
  intros st dest st'.
  apply (C6_save_respects_overwrite Sample.ext Sample.noise true false st dest).
  - reflexivity.
  - reflexivity.
  - exists "noise". reflexivity.
Defined.

(** C10.  [save_transcription] with [should_autosave] false: when the
    destination dialog yields the empty path, the call returns without an
    error and leaves the whole state, the filesystem with it, as it was:
    no text file and no subtitle file is written. *)
Theorem C10_cancelled_dialog_changes_nothing
    (ext : Externals) (file_path : Path) (should_overwrite : bool) (st : State) :
  asksaveasfilename ext (parent file_path) (PyPath.stem file_path +:+ ".txt")
  = EmptyString ->
  save_transcription ext file_path false should_overwrite st = (Ok tt, st).
Proof.
  intros Hcancel. apply save_transcription_cancelled.
  unfold txt_destination. cbn [falsy]. now rewrite Hcancel.
Qed.

(** C10 in the sample world, whose save dialog is always cancelled. *)
Lemma C10_cancelled_dialog_changes_nothing_witness :
  let st := Sample.fresh (Sample.request FILE Sample.talk WHISPERX true false true) in
  save_transcription Sample.ext Sample.talk false true st = (Ok tt, st).
Proof.
  intros st.
  apply (C10_cancelled_dialog_changes_nothing Sample.ext Sample.talk true st).
  reflexivity.
Defined.

(** C2, a counterexample.  [save_transcription] against the statement that
    the cloud-API backend yields no subtitle files and no error.  On a new
    controller, a request for the cloud-API backend with subtitles raises
    in [save_transcription]; and after an earlier request served by whisperx,
    the same request writes both subtitle files from the result that the
    earlier request left in the controller. *)
Lemma C2_counterexample :
  let google := Sample.request FILE Sample.noise GOOGLE_API true true false in
  let whisper := Sample.request FILE Sample.talk WHISPERX true true false in
  (method google = Some GOOGLE_API
   /\ fst (save_transcription Sample.ext Sample.noise true false
             (Sample.fresh google))
      = Raise (TypeError "'NoneType' object does not support item assignment"))
  /\ (let st := Sample.serve google (Sample.serve whisper (Sample.fresh whisper)) in
      method (transcription st) = Some GOOGLE_API
      /\ files (fs (Sample.fresh whisper)) !! mkPath "/home/music" "noise.srt" = None
      /\ files (fs st) !! mkPath "/home/music" "noise.srt"
         = Some (FSubtitles "srt"
                   (mkWhisperxResult [" hello "; "world  "] true (Some "en")))
      /\ files (fs st) !! mkPath "/home/music" "noise.vtt"
         = Some (FSubtitles "vtt"
                   (mkWhisperxResult [" hello "; "world  "] true (Some "en")))).
Proof. vm_compute. repeat split; reflexivity. Qed.

(** C2, as the code has it.  [save_transcription] with [should_subtitle]
    set and a [.txt] destination generates subtitles whatever backend is
    selected.  When the controller holds a whisperx result, the call raises
    no error and writes, from that result with its language set to ["en"],
    each of the two subtitle files
    that is absent or may be overwritten, and leaves the other as it was.
    When both subtitle files exist and [should_overwrite] is false, it
    writes no subtitle file and raises no error. *)
Theorem C2_subtitles_from_stored_result
    (ext : Externals) (file_path : Path) (should_autosave should_overwrite : bool)
    (st : State) (dest : Path) :
  should_subtitle (transcription st) = true ->
  falsy (txt_destination ext file_path should_autosave) = false ->
  dest = to_path (txt_destination ext file_path should_autosave) ->
  (exists s, name dest = s +:+ ".txt") ->
  let out := save_transcription ext file_path should_autosave should_overwrite st in
  (forall r, _whisperx_result st = Some r ->
     fst out = Ok tt
     /\ forall fmt, fmt = "srt" \/ fmt = "vtt" ->
          files (fs (snd out)) !! subtitle_path dest fmt
          = if should_overwrite
               || negb (Os.path_exists (fs st) (subtitle_path dest fmt))
            then Some (FSubtitles fmt (forced_english r))
            else files (fs st) !! subtitle_path dest fmt)
  /\ (should_overwrite = false ->
      Os.path_exists (fs st) (subtitle_path dest "srt") = true ->
      Os.path_exists (fs st) (subtitle_path dest "vtt") = true ->
      fst out = Ok tt
      /\ forall fmt, fmt = "srt" \/ fmt = "vtt" ->
           files (fs (snd out)) !! subtitle_path dest fmt
           = files (fs st) !! subtitle_path dest fmt).
Proof.
  intros Hsub Hdest Heq [s Hs] out.
  assert (Hne : forall fmt, fmt = "srt" \/ fmt = "vtt" ->
                            subtitle_path dest fmt <> dest).
  { intros fmt Hfmt. destruct dest as [d nm]. cbn in Hs. subst nm.
    now apply subtitle_path_not_txt. }
  assert (Hmid_exists : forall fmt, fmt = "srt" \/ fmt = "vtt" ->
            Os.path_exists (fs (after_text_write dest should_overwrite st))
              (subtitle_path dest fmt)
            = Os.path_exists (fs st) (subtitle_path dest fmt)).
  { intros fmt Hfmt. unfold after_text_write.
    destruct (should_overwrite || negb (Os.path_exists (fs st) dest));
      [|reflexivity].
    cbn [fs with_fs]. apply path_exists_write_ne.
    intros H. symmetry in H. revert H. now apply Hne. }
  assert (Hmid_files : forall fmt, fmt = "srt" \/ fmt = "vtt" ->
            files (fs (after_text_write dest should_overwrite st))
              !! subtitle_path dest fmt
            = files (fs st) !! subtitle_path dest fmt).
  { intros fmt Hfmt. unfold after_text_write.
    destruct (should_overwrite || negb (Os.path_exists (fs st) dest));
      [|reflexivity].
    cbn [fs with_fs Os.write_file files]. rewrite lookup_insert_ne; [reflexivity|].
    intros H. symmetry in H. revert H. now apply Hne. }
  assert (Hout : out = _generate_subtitles dest should_overwrite
                         (after_text_write dest should_overwrite st)).
  { unfold out. rewrite save_transcription_steps by exact Hdest.
    cbv zeta. rewrite <- Heq, Hsub. reflexivity. }
  split.
  - intros r Hr.
    assert (Hr' : _whisperx_result (after_text_write dest should_overwrite st)
                  = Some r).
    { unfold after_text_write.
      destruct (should_overwrite || negb (Os.path_exists (fs st) dest)); exact Hr. }
    destruct (generate_subtitles_stored dest should_overwrite _ r Hr')
      as [Hok Hfiles].
    rewrite Hout. split; [exact Hok|].
    intros fmt Hfmt. rewrite (Hfiles fmt Hfmt).
    rewrite (Hmid_exists fmt Hfmt), (Hmid_files fmt Hfmt). reflexivity.
  - intros -> Hsrt Hvtt. rewrite Hout.
    rewrite generate_subtitles_all_present
      by (rewrite Hmid_exists; [assumption | now (left + right)]).
    split; [reflexivity|]. intros fmt Hfmt. cbn [snd]. now apply Hmid_files.
Qed.

(** C2 after a whisperx request has left its result in the controller. *)
Lemma C2_subtitles_from_stored_result_witness :
  let st := Sample.serve (Sample.request FILE Sample.talk WHISPERX true true false)
              (Sample.fresh (Sample.request FILE Sample.talk WHISPERX true true false)) in
  let st := with_transcription st
              (Sample.request FILE Sample.noise GOOGLE_API true true false) in
  let dest := mkPath "/home/music" "noise.txt" in
  let out := save_transcription Sample.ext Sample.noise true false st in
  (forall r, _whisperx_result st = Some r ->
     fst out = Ok tt
     /\ forall fmt, fmt = "srt" \/ fmt = "vtt" ->
          files (fs (snd out)) !! subtitle_path dest fmt
          = if false || negb (Os.path_exists (fs st) (subtitle_path dest fmt))
            then Some (FSubtitles fmt (forced_english r))
            else files (fs st) !! subtitle_path dest fmt)
  /\ (false = false ->
      Os.path_exists (fs st) (subtitle_path dest "srt") = true ->
      Os.path_exists (fs st) (subtitle_path dest "vtt") = true ->
      fst out = Ok tt
      /\ forall fmt, fmt = "srt" \/ fmt = "vtt" ->
           files (fs (snd out)) !! subtitle_path dest fmt
           = files (fs st) !! subtitle_path dest fmt).
Proof.
  intros st0 st dest out.
  apply (C2_subtitles_from_stored_result Sample.ext Sample.noise true false st dest).
  - reflexivity.
  - reflexivity.
  - reflexivity.
  - exists "noise". reflexivity.
Defined.

(* ===================================================================== *)
(** * The backends                                                         *)
(* ===================================================================== *)

Lemma same_request_refl (t : Transcription) : same_request t t.
Proof. now destruct t. Qed.

Lemma same_request_set_text (t : Transcription) (s : string) :
  same_request t (set_text t s).
Proof. now destruct t. Qed.

Lemma handle_exception_run (e : Exn) (st : State) :
  _handle_exception e st
  = (Ok tt,
     with_log st
       (log st ++ [CallView (on_processed_transcription false);
                   CallView (display_text (MsgRepr e))])).
Proof.
  unfold _handle_exception. py_unfold. cbn. now rewrite <- List.app_assoc.
Qed.

(** The whisperx backend returns whatever happens inside it, leaves the
    filesystem alone, and changes the record in its text at most. *)
Lemma whisperx_backend_shape (ext : Externals) (file_path : Path) (st : State) :
  let out := _transcribe_using_whisperx ext file_path st in
  fst out = Ok tt
  /\ fs (snd out) = fs st
  /\ same_request (transcription st) (transcription (snd out))
  /\ threads (snd out) = threads st.
Proof.
  unfold _transcribe_using_whisperx. py_unfold.
  destruct (whisperx_transcribe ext file_path) as [segs|]; cbn;
    [|repeat split; apply same_request_refl].
  destruct (should_subtitle (transcription st)); cbn.
  - destruct (whisperx_align ext file_path); cbn;
      [|repeat split; apply same_request_refl].
    destruct (bool_decide (source (transcription st) = DIRECTORY)); cbn;
      repeat split; apply same_request_set_text.
  - destruct (bool_decide (source (transcription st) = DIRECTORY)); cbn;
      repeat split; apply same_request_set_text.
Qed.

Lemma whisperx_backend_failure (ext : Externals) (file_path : Path) (st : State) :
  method (transcription st) = Some WHISPERX ->
  backend_fails_internally ext (transcription st) file_path = true ->
  transcription (snd (_transcribe_using_whisperx ext file_path st))
  = transcription st.
Proof.
  unfold backend_fails_internally. intros -> Hfail.
  unfold _transcribe_using_whisperx. py_unfold.
  destruct (whisperx_transcribe ext file_path) as [segs|]; cbn; [|reflexivity].
  apply andb_true_iff in Hfail. destruct Hfail as [-> Halign]. cbn.
  apply negb_true_iff in Halign. rewrite Halign. reflexivity.
Qed.

Lemma rmtree_inside (f : FS) (d : string) (p : Path) :
  Os.in_dir d p = true -> files (Os.remove_tree f d) !! p = None.
Proof.
  intros Hin. unfold Os.remove_tree. cbn [files].
  apply map_lookup_filter_None. right. intros x _. cbn. congruence.
Qed.

Lemma rmtree_outside (f : FS) (d : string) (p : Path) :
  Os.in_dir d p = false -> files (Os.remove_tree f d) !! p = files f !! p.
Proof.
  intros Hout. unfold Os.remove_tree. cbn [files].
  destruct (files f !! p) as [x|] eqn:Hp.
  - apply map_lookup_filter_Some. split; [exact Hp | exact Hout].
  - apply map_lookup_filter_None. now left.
Qed.

Lemma rmtree_removes_dir (f : FS) (d : string) : d ∉ dirs (Os.remove_tree f d).
Proof.
  unfold Os.remove_tree. cbn [dirs]. rewrite elem_of_difference, elem_of_singleton.
  intros [_ H]. now apply H.
Qed.

(** A removal that raises has touched nothing outside the directory. *)
Lemma remove_some_outside (f : FS) (d : string) (removed : Path -> bool) (p : Path) :
  Os.in_dir d p = false -> files (Os.remove_some f d removed) !! p = files f !! p.
Proof.
  intros Hout. unfold Os.remove_some. cbn [files].
  destruct (files f !! p) as [x|] eqn:Hp.
  - apply map_lookup_filter_Some. split; [exact Hp|]. cbn. now rewrite Hout.
  - apply map_lookup_filter_None. now left.
Qed.

Lemma in_dir_parent (d : string) (nm : string) : Os.in_dir d (mkPath d nm) = true.
Proof. unfold Os.in_dir. cbn [parent]. now rewrite String.eqb_refl. Qed.

(** The chunk loop writes into the chunks directory only, and raises when
    a chunk cannot be exported. *)
Lemma recognize_chunks_shape (ext : Externals) (chunks : list ChunkOutcome) :
  forall dir idx acc st,
  exists r f',
    recognize_chunks ext dir idx chunks acc st = (r, with_fs st f')
    /\ (forall p, Os.in_dir dir p = false -> files f' !! p = files (fs st) !! p)
    /\ (existsb is_export_failure chunks = true -> exists e, r = Raise e).
Proof.
  induction chunks as [|c chunks IH]; intros dir idx acc st.
  - exists (Ok acc), (fs st). cbn. repeat split; [now destruct st | discriminate].
  - assert (Hwrite : forall p,
              Os.in_dir dir p = false ->
              files (Os.write_file (fs st)
                       (mkPath dir ("chunk" +:+ PyStr.of_nat idx +:+ ".wav")) FAudio)
                !! p = files (fs st) !! p).
    { intros p Hp. cbn [Os.write_file files]. apply lookup_insert_ne.
      intros <-. now rewrite in_dir_parent in Hp. }
    destruct c as [chunk_text| |]; cbn [recognize_chunks existsb is_export_failure];
      py_unfold.
    + destruct (IH dir (S idx) (acc +:+ str_capitalize ext chunk_text +:+ ". ")
                  (with_fs st (Os.write_file (fs st)
                     (mkPath dir ("chunk" +:+ PyStr.of_nat idx +:+ ".wav")) FAudio)))
        as (r & f' & Hrun & Hframe & Hfail).
      exists r, f'. rewrite Hrun. repeat split; [|exact Hfail].
      intros p Hp. rewrite (Hframe p Hp). cbn [fs with_fs]. now apply Hwrite.
    + destruct (IH dir (S idx) acc
                  (with_fs st (Os.write_file (fs st)
                     (mkPath dir ("chunk" +:+ PyStr.of_nat idx +:+ ".wav")) FAudio)))
        as (r & f' & Hrun & Hframe & Hfail).
      exists r, f'. rewrite Hrun. repeat split; [|exact Hfail].
      intros p Hp. rewrite (Hframe p Hp). cbn [fs with_fs]. now apply Hwrite.
    + exists (Raise (LibraryError "export")), (fs st).
      repeat split; [now destruct st | now eexists].
Qed.

Lemma str_in_supported (x : string) :
  str_in x SUPPORTED_FILE_EXTENSIONS
  = str_in x AUDIO_FILE_EXTENSIONS || str_in x VIDEO_FILE_EXTENSIONS.
Proof. unfold str_in, SUPPORTED_FILE_EXTENSIONS. apply existsb_app. Qed.

Lemma chunks_directory_usable_iff (ext : Externals) :
  chunks_directory_usable ext = true
  <-> mkdir_error ext (chunks_directory_of ext) = None
      /\ rmtree_error ext (chunks_directory_of ext) = None.
Proof.
  unfold chunks_directory_usable.
  destruct (mkdir_error ext (chunks_directory_of ext)),
    (rmtree_error ext (chunks_directory_of ext)); split;
    first [intros [? ?]; discriminate | discriminate | tauto].
Qed.

(** When the chunks directory cannot be made, the cloud-API backend raises
    at once: nothing but its entry has happened. *)
Lemma google_backend_blocked
    (ext : Externals) (file_path : Path) (st : State) (e : Exn) :
  mkdir_error ext (chunks_directory_of ext) = Some e ->
  _transcribe_using_google_api ext file_path st
  = (Raise e, with_log st (log st ++ [CallBackend GOOGLE_API file_path])).
Proof.
  intros Hmk. unfold _transcribe_using_google_api, mkdir. py_unfold.
  st_simpl. now rewrite Hmk.
Qed.

Ltac google_finish :=
  cbn [fst snd fs with_fs with_log with_transcription transcription threads
       text set_text log];
  repeat match goal with
         | |- context [if ?c then _ else _] => destruct c
         end;
  cbn [fst snd fs with_fs with_log with_transcription transcription threads
       text set_text log].

(** The cloud-API backend once the chunks directory is made: the
    filesystem it leaves is one from which the chunks directory has been
    removed, wholly or, when the removal raises, in part, and which is
    otherwise the one it found; it returns exactly when the removal does;
    the record changes in its text at most, and not at all when the
    exception of the [try] is caught. *)
Lemma google_backend_made (ext : Externals) (file_path : Path) (st : State) :
  mkdir_error ext (chunks_directory_of ext) = None ->
  let out := _transcribe_using_google_api ext file_path st in
  let d := chunks_directory_of ext in
  (exists f1,
     (forall p, Os.in_dir d p = false -> files f1 !! p = files (fs st) !! p)
     /\ match rmtree_error ext d with
        | None => fst out = Ok tt /\ fs (snd out) = Os.remove_tree f1 d
        | Some e =>
            fst out = Raise e
            /\ fs (snd out) = Os.remove_some f1 d (rmtree_removed ext)
        end)
  /\ same_request (transcription st) (transcription (snd out))
  /\ threads (snd out) = threads st
  /\ (negb (str_in (PyPath.suffix file_path) SUPPORTED_FILE_EXTENSIONS)
      || match google_chunks ext file_path with
         | None => true
         | Some chunks => existsb is_export_failure chunks
         end = true ->
      transcription (snd out) = transcription st).
Proof.
  intros Hmk. rewrite str_in_supported.
  unfold _transcribe_using_google_api, mkdir, rmtree. py_unfold.
  rewrite Hmk. cbv beta iota.
  set (d := chunks_directory_of ext).
  destruct (rmtree_error ext d) as [e0|] eqn:Hrm;
  (destruct (str_in (PyPath.suffix file_path) AUDIO_FILE_EXTENSIONS) eqn:Ha;
    [|destruct (str_in (PyPath.suffix file_path) VIDEO_FILE_EXTENSIONS) eqn:Hv];
    (destruct (google_chunks ext file_path) as [chunks|] eqn:Hc;
     cbv beta iota;
     try match goal with
       | |- context [recognize_chunks ?ee ?dd ?i ?c ?a ?s] =>
           destruct (recognize_chunks_shape ee c dd i a s)
             as (r & f' & Hrun & Hframe & Hfail);
           rewrite Hrun; destruct r as [txt|e]
       end)).
  all: google_finish.
  all: repeat split;
       try apply same_request_refl; try apply same_request_set_text.
  all: try (eexists; split; [|split; reflexivity]; intros p Hp;
            cbn [fs with_fs with_log Os.add_dir Os.write_file files] in *;
            rewrite ?Hframe by exact Hp;
            cbn [fs with_fs with_log Os.add_dir Os.write_file files] in *;
            rewrite ?lookup_insert_ne
              by (intros <-; now rewrite in_dir_parent in Hp);
            reflexivity).
  all: try (intros Hf; cbn [orb negb] in Hf;
            try discriminate;
            destruct (Hfail Hf) as [? ?]; discriminate).
  all: try (intros Hf; reflexivity).
Qed.

(** The cloud-API backend on every path through it.  It returns when the
    chunks directory can be made and removed, and then the directory is
    gone with every file in it; it changes no file outside the directory,
    starts no thread, changes the record in its text at most, and not at
    all when it fails inside. *)
Lemma google_backend_shape (ext : Externals) (file_path : Path) (st : State) :
  let out := _transcribe_using_google_api ext file_path st in
  let d := chunks_directory_of ext in
  (chunks_directory_usable ext = true ->
   fst out = Ok tt
   /\ (d ∉ dirs (fs (snd out)))
   /\ (forall p, Os.in_dir d p = true -> files (fs (snd out)) !! p = None))
  /\ (forall p, Os.in_dir d p = false ->
                files (fs (snd out)) !! p = files (fs st) !! p)
  /\ same_request (transcription st) (transcription (snd out))
  /\ threads (snd out) = threads st
  /\ (method (transcription st) = Some GOOGLE_API ->
      backend_fails_internally ext (transcription st) file_path = true ->
      transcription (snd out) = transcription st).
Proof.
  cbv zeta. set (d := chunks_directory_of ext).
  destruct (mkdir_error ext d) as [e|] eqn:Hmk.
  - rewrite (google_backend_blocked ext file_path st e Hmk). st_simpl.
    split.
    { intros Hu. apply chunks_directory_usable_iff in Hu. fold d in Hu.
      destruct Hu as [Hu _]. congruence. }
    repeat split; try reflexivity. apply same_request_refl.
  - destruct (google_backend_made ext file_path st Hmk)
      as ((f1 & Hframe & Hend) & Hreq & Hth & Hfail).
    fold d in Hframe, Hend. split.
    { intros Hu. apply chunks_directory_usable_iff in Hu. fold d in Hu.
      destruct Hu as [_ Hrm]. rewrite Hrm in Hend. destruct Hend as [Hok Hfs].
      split; [exact Hok|]. rewrite Hfs. split.
      - apply rmtree_removes_dir.
      - intros p Hp. now apply rmtree_inside. }
    split.
    { intros p Hp. destruct (rmtree_error ext d); destruct Hend as [_ Hfs];
        rewrite Hfs.
      - rewrite remove_some_outside by exact Hp. now apply Hframe.
      - rewrite rmtree_outside by exact Hp. now apply Hframe. }
    split; [exact Hreq|]. split; [exact Hth|].
    intros Hm Hf. apply Hfail. unfold backend_fails_internally in Hf.
    rewrite Hm in Hf. apply andb_true_iff in Hf. tauto.
Qed.

(* ===================================================================== *)
(** * One file                                                             *)
(* ===================================================================== *)

Lemma transcribe_file_steps (ext : Externals) (file_path : Path) (st : State) :
  _transcribe_file ext file_path st
  = (dispatch_backend ext file_path ;;
     remove_tmp_file ;;
     t <- gets transcription ;;
     when (should_autosave t)
       (save_transcription ext file_path true (should_overwrite t)))%py st.
Proof.
  unfold _transcribe_file, dispatch_backend, remove_tmp_file. py_unfold.
  destruct (method (transcription st)) as [[|]|];
    repeat match goal with
           | |- context [let (_, _) := ?x in _] => destruct x as [[?|?] ?]
           end; reflexivity.
Qed.

Lemma backend_fails_returns
    (ext : Externals) (t : Transcription) (file_path : Path) :
  backend_fails_internally ext t file_path = true ->
  backend_returns ext t = true.
Proof.
  unfold backend_fails_internally, backend_returns.
  destruct (method t) as [[|]|]; try reflexivity.
  intros H. apply andb_true_iff in H. tauto.
Qed.

(** Whatever the backend, the dispatch leaves every file outside the
    chunks directory as it was, starts no thread and changes the record in
    its text at most; when the backend call returns, no file has been
    created that stays. *)
Lemma dispatch_backend_shape (ext : Externals) (file_path : Path) (st : State) :
  let out := dispatch_backend ext file_path st in
  (backend_returns ext (transcription st) = true ->
   fst out = Ok tt
   /\ forall p, files (fs st) !! p = None -> files (fs (snd out)) !! p = None)
  /\ same_request (transcription st) (transcription (snd out))
  /\ threads (snd out) = threads st
  /\ (forall p, Os.in_dir (chunks_directory_of ext) p = false ->
                files (fs (snd out)) !! p = files (fs st) !! p)
  /\ (backend_fails_internally ext (transcription st) file_path = true ->
      transcription (snd out) = transcription st).
Proof.
  unfold dispatch_backend, backend_returns. py_unfold.
  destruct (method (transcription st)) as [[|]|] eqn:Hm.
  - destruct (whisperx_backend_shape ext file_path st) as (Hok & Hfs & Hreq & Hth).
    repeat split; try assumption.
    + intros p Hp. now rewrite Hfs.
    + intros p _. now rewrite Hfs.
    + now apply whisperx_backend_failure.
  - destruct (google_backend_shape ext file_path st)
      as (Hret & Hframe & Hreq & Hth & Hfail).
    repeat split; try assumption.
    + now apply Hret.
    + intros p Hp. destruct (Hret H) as (_ & _ & Hinside).
      destruct (Os.in_dir (chunks_directory_of ext) p) eqn:Hin.
      * now apply Hinside.
      * now rewrite Hframe.
    + now apply Hfail.
  - cbv beta iota. cbn [fst snd].
    repeat split; try apply same_request_refl; tauto.
Qed.

(** A backend call that does not return raises. *)
Lemma dispatch_backend_raises (ext : Externals) (file_path : Path) (st : State) :
  backend_returns ext (transcription st) = false ->
  exists e, fst (dispatch_backend ext file_path st) = Raise e.
Proof.
  unfold dispatch_backend, backend_returns. py_unfold.
  destruct (method (transcription st)) as [[|]|]; try discriminate.
  intros Hu. set (d := chunks_directory_of ext).
  destruct (mkdir_error ext d) as [e|] eqn:Hmk.
  - exists e. now rewrite (google_backend_blocked ext file_path st e Hmk).
  - destruct (google_backend_made ext file_path st Hmk) as ((f1 & _ & Hend) & _).
    fold d in Hend. unfold chunks_directory_usable in Hu. fold d in Hu.
    rewrite Hmk in Hu.
    destruct (rmtree_error ext d) as [e|]; [|discriminate].
    exists e. tauto.
Qed.

Lemma same_request_fields (t t' : Transcription) :
  same_request t t' ->
  source t' = source t /\ source_path t' = source_path t
  /\ method t' = method t /\ should_subtitle t' = should_subtitle t
  /\ should_autosave t' = should_autosave t
  /\ should_overwrite t' = should_overwrite t.
Proof. intros ->. now destruct t. Qed.

(** Removing the temporary file: afterwards it is not there, whether
    [unlink] found it or raised; no file appears. *)
Lemma remove_tmp_file_shape (st : State) :
  let out := remove_tmp_file st in
  transcription (snd out) = transcription st
  /\ threads (snd out) = threads st
  /\ (source (transcription st) = MIC \/ source (transcription st) = YOUTUBE ->
      files (fs (snd out)) !! source_path (transcription st) = None)
  /\ (forall p, files (fs st) !! p = None -> files (fs (snd out)) !! p = None)
  /\ ((source (transcription st) = FILE \/ source (transcription st) = DIRECTORY
       \/ Os.path_exists (fs st) (source_path (transcription st)) = true) ->
      fst out = Ok tt)
  /\ (forall p, p <> source_path (transcription st) ->
                files (fs (snd out)) !! p = files (fs st) !! p).
Proof.
  unfold remove_tmp_file, unlink. py_unfold.
  destruct (bool_decide (source (transcription st) = MIC)
            || bool_decide (source (transcription st) = YOUTUBE)) eqn:Hsrc.
  - destruct (Os.path_exists (fs st) (source_path (transcription st))) eqn:Hex;
      cbn [fst snd transcription threads fs with_fs Os.remove_file files].
    + repeat split; try reflexivity.
      * intros _. apply lookup_delete_eq.
      * intros p Hp. rewrite lookup_delete_None. now right.
      * intros p Hp. now apply lookup_delete_ne.
    + apply path_exists_false in Hex. repeat split; try tauto.
      intros [H | [H | H]]; [| |discriminate]; rewrite H in Hsrc; discriminate.
  - cbn. repeat split; try tauto.
    intros [H | H]; rewrite H in Hsrc; discriminate.
Qed.

Lemma bind_run {A B} (m : M A) (k : A -> M B) (st : State) :
  bind m k st
  = match m st with
    | (Ok a, st') => k a st'
    | (Raise e, st') => (Raise e, st')
    end.
Proof. reflexivity. Qed.

(** An exception that leaves the backend leaves [_transcribe_file]: the
    statements after the backend call are not run. *)
Lemma transcribe_file_raised
    (ext : Externals) (file_path : Path) (st : State) (e : Exn) :
  fst (dispatch_backend ext file_path st) = Raise e ->
  _transcribe_file ext file_path st
  = (Raise e, snd (dispatch_backend ext file_path st)).
Proof.
  intros Hraise. rewrite transcribe_file_steps, bind_run.
  destruct (dispatch_backend ext file_path st) as [r1 st1].
  cbn [fst snd] in *. now subst r1.
Qed.

Lemma tmp_file_removed_by_transcribe_file (ext : Externals) (st : State) :
  let tmp := source_path (transcription st) in
  source (transcription st) = MIC \/ source (transcription st) = YOUTUBE ->
  not_an_output tmp ->
  backend_returns ext (transcription st) = true ->
  files (fs (snd (_transcribe_file ext tmp st))) !! tmp = None.
Proof.
  intros tmp Hsrc (Htxt & Hsrt & Hvtt) Hret.
  rewrite transcribe_file_steps, bind_run.
  destruct (dispatch_backend_shape ext tmp st) as (Hok & Hreq & _).
  destruct (Hok Hret) as [Hok' _].
  destruct (dispatch_backend ext tmp st) as [r1 st1]. cbn [fst snd] in *.
  subst r1. apply same_request_fields in Hreq.
  destruct Hreq as (Hsource & Hpath & _).
  rewrite bind_run.
  destruct (remove_tmp_file_shape st1) as (Ht2 & _ & Hgone & _).
  rewrite Hsource, Hpath in Hgone. specialize (Hgone Hsrc). fold tmp in Hgone.
  destruct (remove_tmp_file st1) as [[[]|e] st2]; cbn [fst snd] in *;
    [|exact Hgone].
  py_unfold. destruct (should_autosave (transcription st2)); [|exact Hgone].
  rewrite save_transcription_frame; [exact Hgone| | |];
    unfold txt_destination; cbn [to_path]; intros H; symmetry in H; revert H.
  - now apply txt_sibling_not_source.
  - apply subtitle_sibling_not_source; [now left | exact Hsrt].
  - apply subtitle_sibling_not_source; [now right | exact Hvtt].
Qed.

(** For a request that is not a directory, the filesystem after
    [_handle_transcription_process] is the one [_transcribe_file] leaves. *)
Lemma process_single_file_fs (ext : Externals) (st : State) :
  source (transcription st) <> DIRECTORY ->
  fs (snd (_handle_transcription_process ext st))
  = fs (snd (_transcribe_file ext (source_path (transcription st)) st)).
Proof.
  intros Hsrc. unfold _handle_transcription_process. py_unfold.
  rewrite bool_decide_eq_false_2 by exact Hsrc.
  destruct (_transcribe_file ext (source_path (transcription st)) st)
    as [[[]|e] st1]; reflexivity.
Qed.

(** When the backend call does not return, the temporary file of the
    request is where it was after the whole request. *)
Lemma tmp_file_kept_when_backend_raises (ext : Externals) (st : State) :
  let tmp := source_path (transcription st) in
  source (transcription st) <> DIRECTORY ->
  Os.in_dir (chunks_directory_of ext) tmp = false ->
  backend_returns ext (transcription st) = false ->
  files (fs (snd (_handle_transcription_process ext st))) !! tmp
  = files (fs st) !! tmp.
Proof.
  intros tmp Hsrc Hin Hret.
  rewrite process_single_file_fs by exact Hsrc. fold tmp.
  destruct (dispatch_backend_raises ext tmp st Hret) as [e He].
  rewrite (transcribe_file_raised ext tmp st e He). cbn [snd].
  destruct (dispatch_backend_shape ext tmp st) as (_ & _ & _ & Hframe & _).
  now apply Hframe.
Qed.

(** C8, a counterexample.  A microphone request served by the cloud-API
    backend while a regular file stands where the chunks directory should
    be made: [mkdir] raises [FileExistsError] before the [try] of the
    backend, the exception leaves the backend, [_transcribe_file] does not
    reach its [unlink], and when the request is over the recording is
    still there.  The same when the chunks directory cannot be removed:
    the [rmtree] of the [finally] block raises, a chunk file stays and so
    does the recording. *)
Lemma C8_counterexample :
  let tmp := mkPath "." "mic-output.wav" in
  let t := Sample.request MIC tmp GOOGLE_API false true false in
  let blocked :=
    MainController_init t
      (mkFS {[ tmp := FAudio; mkPath "/app" "audio-chunks" := FText "notes" ]} ∅) in
  let st := MainController_init t (mkFS {[ tmp := FAudio ]} ∅) in
  (fst (_transcribe_using_google_api Sample.ext_blocked tmp blocked)
   = Raise (FileExistsError "/app/audio-chunks")
   /\ files (fs (snd (_transcribe_file Sample.ext_blocked tmp blocked))) !! tmp
      = Some FAudio
   /\ files (fs (snd (_handle_transcription_process Sample.ext_blocked blocked)))
        !! tmp = Some FAudio)
  /\ (fst (_transcribe_using_google_api Sample.ext_locked tmp st)
      = Raise (PermissionError "/app/audio-chunks")
      /\ files (fs (snd (_transcribe_using_google_api Sample.ext_locked tmp st)))
           !! mkPath "/app/audio-chunks" "chunk0.wav" = Some FAudio
      /\ files (fs (snd (_handle_transcription_process Sample.ext_locked st)))
           !! tmp = Some FAudio).
Proof. vm_compute. repeat split; reflexivity. Qed.

(** C8, as the code has it.  The cloud-API backend makes the chunks
    directory before its [try] and removes it in its [finally]: when
    [mkdir] raises, the exception leaves the backend and the filesystem is
    as it was; when the directory has been made, it is removed on every
    way out of the [try], by success or by an exception caught there, and
    unless [rmtree] itself raises the backend returns with the directory
    gone and no file left in it or below it; an exception of [rmtree]
    leaves the backend.  For a MIC or YOUTUBE request: when the backend
    call returns, whatever happened inside it, the temporary audio file is
    gone after [_transcribe_file], and so after the whole request; the
    backend itself leaves that file as it is, so it is [_transcribe_file]
    that removes it, after the backend; and when an exception leaves the
    backend, the file is still there after the whole request. *)
Theorem C8_temporary_artifacts_removed
    (ext : Externals) (file_path : Path) (st : State) :
  let d := chunks_directory_of ext in
  let tmp := source_path (transcription st) in
  (let out := _transcribe_using_google_api ext file_path st in
   (forall e, mkdir_error ext d = Some e ->
              fst out = Raise e /\ fs (snd out) = fs st)
   /\ (mkdir_error ext d = None ->
       match rmtree_error ext d with
       | None =>
           fst out = Ok tt
           /\ (d ∉ dirs (fs (snd out)))
           /\ (forall p, Os.in_dir d p = true ->
                         files (fs (snd out)) !! p = None)
       | Some e => fst out = Raise e
       end))
  /\ (source (transcription st) = MIC \/ source (transcription st) = YOUTUBE ->
      not_an_output tmp ->
      (backend_returns ext (transcription st) = true ->
       fst (dispatch_backend ext tmp st) = Ok tt
       /\ files (fs (snd (_transcribe_file ext tmp st))) !! tmp = None
       /\ files (fs (snd (_handle_transcription_process ext st))) !! tmp = None)
      /\ (Os.in_dir d tmp = false ->
          files (fs (snd (dispatch_backend ext tmp st))) !! tmp
          = files (fs st) !! tmp
          /\ (backend_returns ext (transcription st) = false ->
              files (fs (snd (_handle_transcription_process ext st))) !! tmp
              = files (fs st) !! tmp))).
Proof.
  cbv zeta. split.
  - split.
    + intros e Hmk. now rewrite (google_backend_blocked ext file_path st e Hmk).
    + intros Hmk.
      destruct (google_backend_made ext file_path st Hmk)
        as ((f1 & _ & Hend) & _).
      destruct (rmtree_error ext (chunks_directory_of ext)) as [e|];
        [tauto|].
      destruct Hend as [Hok Hfs]. split; [exact Hok|]. rewrite Hfs. split.
      * apply rmtree_removes_dir.
      * intros p Hp. now apply rmtree_inside.
  - intros Hsrc Hout.
    assert (Hnodir : source (transcription st) <> DIRECTORY)
      by (destruct Hsrc as [-> | ->]; discriminate).
    destruct (dispatch_backend_shape ext (source_path (transcription st)) st)
      as (Hret & _ & _ & Hframe & _).
    split.
    + intros Hr. split; [now apply Hret|].
      pose proof (tmp_file_removed_by_transcribe_file ext st Hsrc Hout Hr)
        as Hgone.
      split; [exact Hgone|].
      now rewrite process_single_file_fs.
    + intros Hin. split; [now apply Hframe|].
      intros Hr. now apply tmp_file_kept_when_backend_raises.
Qed.

(** C8 for a microphone recording sent to the cloud-API backend. *)
Lemma C8_temporary_artifacts_removed_witness :
  let tmp := mkPath "." "mic-output.wav" in
  let st := MainController_init
              (Sample.request MIC tmp GOOGLE_API false true false)
              (mkFS {[ tmp := FAudio ]} ∅) in
  (let out := _transcribe_using_google_api Sample.ext tmp st in
   fst out = Ok tt
   /\ (chunks_directory_of Sample.ext ∉ dirs (fs (snd out)))
   /\ (forall p, Os.in_dir (chunks_directory_of Sample.ext) p = true ->
                 files (fs (snd out)) !! p = None))
  /\ files (fs (snd (dispatch_backend Sample.ext tmp st))) !! tmp = Some FAudio
  /\ files (fs (snd (_transcribe_file Sample.ext tmp st))) !! tmp = None
  /\ files (fs (snd (_handle_transcription_process Sample.ext st))) !! tmp = None.
Proof.
  intros tmp st.
  destruct (C8_temporary_artifacts_removed Sample.ext tmp st)
    as [[_ Hdir] Htmp].
  split; [exact (Hdir eq_refl)|].
  destruct Htmp as [Hgone Hkept].
  - left. reflexivity.
  - unfold not_an_output. cbn. repeat split; discriminate.
  - destruct (Hgone eq_refl) as (_ & Hfile & Hprocess).
    destruct (Hkept eq_refl) as [Hbackend _].
    split; [exact Hbackend|]. split; [exact Hfile | exact Hprocess].
Defined.

Lemma C8_tmp_file_removed_sample :
  let tmp := mkPath "." "mic-output.wav" in
  let st := MainController_init
              (Sample.request MIC tmp GOOGLE_API false true false)
              (mkFS {[ tmp := FAudio ]} ∅) in
  (source (transcription st) = MIC \/ source (transcription st) = YOUTUBE)
  /\ not_an_output (source_path (transcription st))
  /\ files (fs st) !! tmp = Some FAudio
  /\ files (fs (snd (_handle_transcription_process Sample.ext st))) !! tmp = None
  /\ files (fs (snd (_handle_transcription_process Sample.ext st)))
       !! mkPath "." "mic-output.txt" = Some (FText "Hello there. Bye. ").
Proof.
  intros tmp st. split; [now left|]. split.
  - unfold not_an_output. cbn. repeat split; discriminate.
  - vm_compute. repeat split; reflexivity.
Qed.

(** C9.  With [should_autosave] set, [_transcribe_file] calls
    [save_transcription] after the backend has returned even when the
    backend failed inside: the backend swallowed its exception and left the
    text of the record as it was, and that text, empty or left by an
    earlier file, is what is saved under the name of the failed file. *)
Theorem C9_autosave_after_failed_backend
    (ext : Externals) (file_path : Path) (st : State) :
  should_autosave (transcription st) = true ->
  backend_fails_internally ext (transcription st) file_path = true ->
  (source (transcription st) = FILE \/ source (transcription st) = DIRECTORY
   \/ (Os.path_exists (fs st) (source_path (transcription st)) = true
       /\ Os.in_dir (chunks_directory_of ext) (source_path (transcription st))
          = false)) ->
  let before_save := snd ((dispatch_backend ext file_path ;; remove_tmp_file)%py st) in
  let dest := PyPath.sibling file_path (PyPath.stem file_path +:+ ".txt") in
  text (transcription before_save) = text (transcription st)
  /\ _transcribe_file ext file_path st
     = save_transcription ext file_path true
         (should_overwrite (transcription st)) before_save
  /\ (should_overwrite (transcription st) = true
      \/ files (fs st) !! dest = None ->
      files (fs (snd (_transcribe_file ext file_path st))) !! dest
      = Some (FText (text (transcription st)))).
Proof.
  intros Hauto Hfail Htmp before_save dest.
  destruct (dispatch_backend_shape ext file_path st)
    as (Hret & _ & _ & Hframe & Hsame).
  destruct (Hret (backend_fails_returns _ _ _ Hfail)) as [Hok Hnone].
  specialize (Hsame Hfail).
  assert (Hrun : _transcribe_file ext file_path st
                 = save_transcription ext file_path true
                     (should_overwrite (transcription st)) before_save
                 /\ transcription before_save = transcription st
                 /\ (forall p, files (fs st) !! p = None ->
                               files (fs before_save) !! p = None)).
  { unfold before_save. rewrite transcribe_file_steps, !bind_run.
    destruct (dispatch_backend ext file_path st) as [r1 st1].
    cbn [fst snd] in *. subst r1. rewrite !bind_run.
    destruct (remove_tmp_file_shape st1) as (Ht2 & _ & _ & Hnone2 & Hok2 & _).
    rewrite Hsame in Hok2.
    assert (Hok2' : fst (remove_tmp_file st1) = Ok tt).
    { apply Hok2. destruct Htmp as [H | [H | [Hex Hin]]]; [tauto | tauto |].
      right. right. unfold Os.path_exists in *.
      now rewrite (Hframe _ Hin). }
    destruct (remove_tmp_file st1) as [r2 st2]. cbn [fst snd] in *. subst r2.
    py_unfold. rewrite Ht2, Hsame, Hauto. repeat split.
    intros p Hp. apply Hnone2. now apply Hnone. }
  destruct Hrun as (Hrun & Htr & Hkeep).
  split; [now rewrite Htr|]. split; [exact Hrun|].
  intros Hwrite. rewrite Hrun.
  rewrite (save_transcription_at_dest ext file_path true
             (should_overwrite (transcription st)) before_save dest);
    try reflexivity.
  - rewrite Htr. destruct Hwrite as [-> | Hfree]; [reflexivity|].
    apply Hkeep, path_exists_false in Hfree. rewrite Hfree.
    now rewrite orb_true_r.
  - intros H. symmetry in H. revert H. unfold dest, PyPath.sibling.
    apply subtitle_path_not_txt. now left.
  - intros H. symmetry in H. revert H. unfold dest, PyPath.sibling.
    apply subtitle_path_not_txt. now right.
Qed.

(** C9 for [clip.mp4], on which whisperx fails, while the record still
    holds the text of the file before it. *)
Lemma C9_autosave_after_failed_backend_witness :
  let clip := mkPath "/home/music/live/deep" "clip.mp4" in
  let t := set_text (Sample.request DIRECTORY (mkPath "/home" "music")
                       WHISPERX false true false) "live set" in
  let st := Sample.fresh t in
  let before_save :=
    snd ((dispatch_backend Sample.ext clip ;; remove_tmp_file)%py st) in
  let dest := mkPath "/home/music/live/deep" "clip.txt" in
  text (transcription before_save) = "live set"
  /\ _transcribe_file Sample.ext clip st
     = save_transcription Sample.ext clip true false before_save
  /\ files (fs (snd (_transcribe_file Sample.ext clip st))) !! dest
     = Some (FText "live set").
Proof.
  intros clip t st before_save dest.
  destruct (C9_autosave_after_failed_backend Sample.ext clip st)
    as (Htext & Hrun & Hsaved).
  - reflexivity.
  - reflexivity.
  - right. left. reflexivity.
  - split; [exact Htext|]. split; [exact Hrun|].
    apply Hsaved. right. reflexivity.
Defined.

(* ===================================================================== *)
(** * A whole request                                                      *)
(* ===================================================================== *)

(** A [try] whose handler is [_handle_exception] always returns. *)
Lemma try_except_handled (body : M unit) (st : State) :
  exists st2, try_except body _handle_exception st = (Ok tt, st2).
Proof.
  unfold try_except. destruct (body st) as [[[]|e] st1].
  - now exists st1.
  - rewrite handle_exception_run. eexists. reflexivity.
Qed.

(** [_handle_transcription_process] returns, and its last act is the
    notification of its [finally]. *)
Lemma process_run (ext : Externals) (st : State) :
  exists st2,
    _handle_transcription_process ext st
    = (Ok tt,
       with_log st2
         (log st2 ++ [CallView (on_processed_transcription
                                  (PyStr.is_empty (text (transcription st2))))])).
Proof.
  unfold _handle_transcription_process, try_finally.
  match goal with
  | |- context [try_except ?body _handle_exception st] =>
      destruct (try_except_handled body st) as [st2 Hrun]; rewrite Hrun
  end.
  exists st2. reflexivity.
Qed.

(** The last call of every request tells the view that the request
    succeeded exactly when the text is empty. *)
Lemma process_final_notification (ext : Externals) (st : State) :
  let st' := snd (_handle_transcription_process ext st) in
  last (log st')
  = Some (CallView (on_processed_transcription
                      (PyStr.is_empty (text (transcription st'))))).
Proof.
  destruct (process_run ext st) as [st2 ->]. cbn. apply last_snoc.
Qed.

(** C1, on the code.  A file request served by whisperx ends with the
    text ["hello world"] in the record, and the last call on the view is
    [on_processed_transcription(success=False)]; a request whose backend
    fails ends with an empty text, and the last call is
    [on_processed_transcription(success=True)].  The flag passed as
    [success] is [is_transcription_empty]. *)
Theorem C1_final_flag_is_inverted :
  let ok := Sample.serve (Sample.request FILE Sample.talk WHISPERX false false false)
              (Sample.fresh (Sample.request FILE Sample.talk WHISPERX false false false)) in
  let ko := Sample.serve (Sample.request FILE Sample.noise WHISPERX false false false)
              (Sample.fresh (Sample.request FILE Sample.noise WHISPERX false false false)) in
  (text (transcription ok) = "hello world"
   /\ last (log ok) = Some (CallView (on_processed_transcription false)))
  /\ (text (transcription ko) = EmptyString
      /\ last (log ko) = Some (CallView (on_processed_transcription true))).
Proof. vm_compute. repeat split; reflexivity. Qed.

(* ===================================================================== *)
(** * The log of a request                                                 *)
(* ===================================================================== *)

Lemma count_app (f : Call -> bool) (l1 l2 : list Call) :
  count f (l1 ++ l2) = count f l1 + count f l2.
Proof. unfold count. now rewrite List.filter_app, List.length_app. Qed.

Lemma balanced_nil : balanced [].
Proof. reflexivity. Qed.

Lemma balanced_app (l1 l2 : list Call) :
  balanced l1 -> balanced l2 -> balanced (l1 ++ l2).
Proof. unfold balanced. intros H1 H2. rewrite !count_app. lia. Qed.

Lemma logs_balanced_unchanged {A} (m : M A) :
  (forall st, log (snd (m st)) = log st) -> logs_balanced m.
Proof.
  intros H st. exists []. rewrite H, app_nil_r. split; [reflexivity|apply balanced_nil].
Qed.

Lemma logs_balanced_bind {A B} (m : M A) (k : A -> M B) :
  logs_balanced m -> (forall a, logs_balanced (k a)) -> logs_balanced (bind m k).
Proof.
  intros Hm Hk st. rewrite bind_run.
  destruct (Hm st) as (new1 & Hlog1 & Hbal1).
  destruct (m st) as [[a|e] st1]; cbn [snd] in *.
  - destruct (Hk a st1) as (new2 & Hlog2 & Hbal2).
    exists (new1 ++ new2). rewrite Hlog2, Hlog1, <- List.app_assoc.
    split; [reflexivity | now apply balanced_app].
  - exists new1. now split.
Qed.

Lemma logs_balanced_gather (tasks : list (M unit)) :
  Forall logs_balanced tasks -> logs_balanced (gather tasks).
Proof.
  induction tasks as [|t tasks IH]; intros Hall st.
  - exists []. cbn. rewrite app_nil_r. split; [reflexivity | apply balanced_nil].
  - inversion Hall as [|? ? Ht Hrest]; subst. cbn [gather].
    destruct (Ht st) as (new1 & Hlog1 & Hbal1).
    destruct (t st) as [r st1]. cbn [snd] in *.
    destruct (IH Hrest st1) as (new2 & Hlog2 & Hbal2).
    destruct (gather tasks st1) as [r' st2]. cbn [snd] in *.
    exists (new1 ++ new2). rewrite Hlog2, Hlog1, <- List.app_assoc.
    split; [reflexivity | now apply balanced_app].
Qed.

Ltac log_finish :=
  rewrite ?handle_exception_run; st_simpl;
  repeat (match goal with
          | |- context [if ?c then _ else _] => destruct c
          end; cbv beta iota; rewrite ?handle_exception_run; st_simpl);
  rewrite <- ?List.app_assoc;
  eexists; (split; [reflexivity | reflexivity]).

Lemma whisperx_logs_balanced (ext : Externals) (file_path : Path) :
  logs_balanced (_transcribe_using_whisperx ext file_path).
Proof.
  intros st. unfold _transcribe_using_whisperx. py_unfold.
  destruct (whisperx_transcribe ext file_path) as [segs|]; cbv beta iota;
    log_finish.
Qed.

Lemma google_logs_balanced (ext : Externals) (file_path : Path) :
  logs_balanced (_transcribe_using_google_api ext file_path).
Proof.
  intros st. unfold _transcribe_using_google_api, mkdir, rmtree. py_unfold.
  destruct (mkdir_error ext (chunks_directory_of ext)) as [e0|];
    [st_simpl; exists [CallBackend GOOGLE_API file_path]; now split|].
  destruct (rmtree_error ext (chunks_directory_of ext)) as [e1|];
  (destruct (str_in (PyPath.suffix file_path) AUDIO_FILE_EXTENSIONS);
    [|destruct (str_in (PyPath.suffix file_path) VIDEO_FILE_EXTENSIONS)];
    (destruct (google_chunks ext file_path) as [chunks|];
     cbv beta iota;
     try match goal with
       | |- context [recognize_chunks ?ee ?dd ?i ?c ?a ?s] =>
           destruct (recognize_chunks_shape ee c dd i a s)
             as (r & f' & Hrun & _ & _);
           rewrite Hrun; destruct r as [txt|e]
       end)).
  all: log_finish.
Qed.

Lemma save_transcription_keeps_log
    (ext : Externals) (file_path : Path) (autosave ov : bool) (st : State) :
  log (snd (save_transcription ext file_path autosave ov st)) = log st.
Proof.
  destruct (falsy (txt_destination ext file_path autosave)) eqn:Hdest.
  - now rewrite save_transcription_cancelled.
  - rewrite save_transcription_steps by exact Hdest. cbv zeta.
    assert (Hmid : forall dest, log (after_text_write dest ov st) = log st).
    { intros dest. unfold after_text_write.
      now destruct (ov || negb (Os.path_exists (fs st) dest)). }
    destruct (should_subtitle (transcription st)); [|apply Hmid].
    destruct (generate_subtitles_keeps
                (to_path (txt_destination ext file_path autosave)) ov
                (after_text_write
                   (to_path (txt_destination ext file_path autosave)) ov st))
      as (_ & Hlog & _).
    rewrite Hlog. apply Hmid.
Qed.

Lemma transcribe_file_logs_balanced (ext : Externals) (file_path : Path) :
  logs_balanced (_transcribe_file ext file_path).
Proof.
  unfold _transcribe_file.
  apply logs_balanced_bind; [now apply logs_balanced_unchanged|]. intros t.
  apply logs_balanced_bind.
  { destruct (method t) as [[|]|].
    - apply whisperx_logs_balanced.
    - apply google_logs_balanced.
    - now apply logs_balanced_unchanged. }
  intros _. apply logs_balanced_bind; [now apply logs_balanced_unchanged|].
  intros t1. apply logs_balanced_bind.
  { apply logs_balanced_unchanged. intros st. unfold when, unlink, ret.
    destruct (_ || _); [|reflexivity].
    now destruct (Os.path_exists (fs st) (source_path t1)). }
  intros _. apply logs_balanced_bind; [now apply logs_balanced_unchanged|].
  intros t2. apply logs_balanced_unchanged. intros st. unfold when, ret.
  destruct (should_autosave t2); [|reflexivity].
  apply save_transcription_keeps_log.
Qed.

(** C3, a counterexample.  A directory request against the statement of a
    single notification.  The directory holds two files: whisperx fails on the first and the view is
    told [on_processed_transcription] at once, before the backend is
    entered for the second file; the notification of the [finally] follows
    at the end, so the view is notified twice. *)
Lemma C3_counterexample :
  let t := Sample.request DIRECTORY (mkPath "/home" "mixed") WHISPERX
             false false false in
  let st := Sample.serve t (Sample.fresh t) in
  _get_transcribable_files_from_dir Sample.ext (mkPath "/home" "mixed")
  = [mkPath "/home/mixed" "noise.mp3"; mkPath "/home/mixed" "talk.mp3"]
  /\ log st
     = [CallView on_processing_transcription;
        CallBackend WHISPERX (mkPath "/home/mixed" "noise.mp3");
        CallView (on_processed_transcription false);
        CallView (display_text (MsgRepr (LibraryError "whisperx")));
        CallBackend WHISPERX (mkPath "/home/mixed" "talk.mp3");
        CallView (display_text (MsgFilesTranscribed (mkPath "/home" "mixed")));
        CallView (on_processed_transcription false)]
  /\ count is_processed (log st) = 2.
Proof. vm_compute. repeat split; reflexivity. Qed.

(** C3, as the code has it.  In a directory request that dispatches K
    per-file tasks, the notification of the [finally] is the last call of
    the request and is made when all K tasks have run to their end: the log
    is the log left by the K tasks, then either the message that the files
    were transcribed or the report of the exception that left a task, then
    the notification.  Besides that notification, the view is told
    [on_processed_transcription] once for every exception that reaches
    [_handle_exception], at the time it is handled; so the notification is
    the only one exactly when no exception is handled. *)
Theorem C3_final_notification_after_all_tasks
    (ext : Externals) (st : State) (files : list Path) :
  source (transcription st) = DIRECTORY ->
  _get_transcribable_files_from_dir ext (source_path (transcription st)) = files ->
  files <> [] ->
  let all_done := snd (gather (map (_transcribe_file ext) files) st) in
  let final := snd (_handle_transcription_process ext st) in
  exists new tail b,
    log final = log st ++ new
    /\ log final
       = log all_done ++ tail ++ [CallView (on_processed_transcription b)]
    /\ (tail = [CallView (display_text
                            (MsgFilesTranscribed (source_path (transcription st))))]
        \/ exists e, tail = [CallView (on_processed_transcription false);
                             CallView (display_text (MsgRepr e))])
    /\ fs final = fs all_done
    /\ count is_processed new = 1 + count is_handled_exception new
    /\ (count is_processed new = 1 <-> count is_handled_exception new = 0).
Proof.
  intros Hsrc Hfiles Hne all_done final.
  assert (Hgather : logs_balanced (gather (map (_transcribe_file ext) files))).
  { apply logs_balanced_gather. apply Forall_forall. intros m Hm.
    apply list_elem_of_In, in_map_iff in Hm. destruct Hm as (p & <- & _).
    apply transcribe_file_logs_balanced. }
  destruct (Hgather st) as (new0 & Hlog0 & Hbal0). fold all_done in Hlog0.
  unfold final, _handle_transcription_process. py_unfold.
  rewrite bool_decide_eq_true_2 by exact Hsrc. rewrite Hfiles.
  destruct files as [|f rest]; [congruence|].
  unfold all_done in *. clear all_done final.
  destruct (gather (map (_transcribe_file ext) (f :: rest)) st) as [[[]|e] st1];
    cbn [snd] in *; rewrite ?handle_exception_run; st_simpl.
  - exists (new0 ++ [CallView (display_text
                       (MsgFilesTranscribed (source_path (transcription st))));
                     CallView (on_processed_transcription
                                 (PyStr.is_empty (text (transcription st1))))]).
    exists [CallView (display_text
                        (MsgFilesTranscribed (source_path (transcription st))))].
    exists (PyStr.is_empty (text (transcription st1))).
    rewrite Hlog0, <- !List.app_assoc.
    split; [reflexivity|]. split; [reflexivity|]. split; [now left|].
    split; [reflexivity|].
    rewrite !count_app. unfold balanced in Hbal0. rewrite Hbal0. cbn. lia.
  - exists (new0 ++ [CallView (on_processed_transcription false);
                     CallView (display_text (MsgRepr e));
                     CallView (on_processed_transcription
                                 (PyStr.is_empty (text (transcription st1))))]).
    exists [CallView (on_processed_transcription false);
            CallView (display_text (MsgRepr e))].
    exists (PyStr.is_empty (text (transcription st1))).
    rewrite Hlog0, <- !List.app_assoc.
    split; [reflexivity|]. split; [reflexivity|].
    split; [right; now exists e|]. split; [reflexivity|].
    rewrite !count_app. unfold balanced in Hbal0. rewrite Hbal0. cbn. lia.
Qed.

(** C3 for the directory of two files, the first of which fails. *)
Lemma C3_final_notification_after_all_tasks_witness :
  let t := Sample.request DIRECTORY (mkPath "/home" "mixed") WHISPERX
             false false false in
  let st := Sample.fresh t in
  let files := [mkPath "/home/mixed" "noise.mp3"; mkPath "/home/mixed" "talk.mp3"] in
  let all_done := snd (gather (map (_transcribe_file Sample.ext) files) st) in
  let final := snd (_handle_transcription_process Sample.ext st) in
  exists new tail b,
    log final = log st ++ new
    /\ log final
       = log all_done ++ tail ++ [CallView (on_processed_transcription b)]
    /\ (tail = [CallView (display_text
                            (MsgFilesTranscribed (source_path (transcription st))))]
        \/ exists e, tail = [CallView (on_processed_transcription false);
                             CallView (display_text (MsgRepr e))])
    /\ fs final = fs all_done
    /\ count is_processed new = 1 + count is_handled_exception new
    /\ (count is_processed new = 1 <-> count is_handled_exception new = 0).
Proof.
  intros t st files all_done final.
  apply (C3_final_notification_after_all_tasks Sample.ext st files).
  - reflexivity.
  - reflexivity.
  - discriminate.
Defined.

(** C4, a counterexample.  A directory request against the statement of a
    synchronous validation error.  The directory holds no file of the
    allow-list, yet [_prepare_for_directory_files_transcription] returns, the only call
    made on the view during [prepare_for_transcription] is
    [on_processing_transcription], and the worker thread has been started:
    the error is raised later, in the worker. *)
Lemma C4_counterexample :
  let t := Sample.request DIRECTORY (mkPath "/home" "papers") WHISPERX
             false false false in
  let st := Sample.fresh t in
  _get_transcribable_files_from_dir Sample.ext (source_path t) = []
  /\ fst (_prepare_for_directory_files_transcription (source_path t) st) = Ok tt
  /\ fst (prepare_for_transcription t st) = Ok tt
  /\ log (snd (prepare_for_transcription t st))
     = [CallView on_processing_transcription]
  /\ threads (snd (prepare_for_transcription t st)) = [run_transcription_process].
Proof. vm_compute. repeat split; reflexivity. Qed.

(** C4, as the code has it.  For a DIRECTORY request whose directory holds
    no file with a matching extension, [prepare_for_transcription] raises
    nothing: it tells the view that processing has begun and starts the
    worker.  The worker raises the validation error before any backend is
    entered; the error is handled there and reported to the view, with a
    failure notification and its message, and the filesystem is left as it
    was.  The request is not a silent no-op. *)
Theorem C4_empty_directory_fails_in_worker
    (ext : Externals) (t : Transcription) (st : State) :
  source t = DIRECTORY ->
  _get_transcribable_files_from_dir ext (source_path t) = [] ->
  let prepared := prepare_for_transcription t st in
  let worked := _handle_transcription_process ext (snd prepared) in
  fst prepared = Ok tt
  /\ log (snd prepared) = log st ++ [CallView on_processing_transcription]
  /\ threads (snd prepared) = threads st ++ [run_transcription_process]
  /\ fs (snd prepared) = fs st
  /\ fst worked = Ok tt
  /\ (exists b,
        log (snd worked)
        = log (snd prepared)
            ++ [CallView (on_processed_transcription false);
                CallView (display_text (MsgRepr directory_error));
                CallView (on_processed_transcription b)])
  /\ count is_backend_call (log (snd worked)) = count is_backend_call (log st)
  /\ fs (snd worked) = fs st.
Proof.
  intros Hsrc Hempty prepared worked.
  assert (Hprep : prepared
                  = (Ok tt,
                     mkState (set_source_path t (source_path t))
                       (_is_mic_recording st) (_whisperx_result st) (fs st)
                       (log st ++ [CallView on_processing_transcription])
                       (threads st ++ [run_transcription_process]))).
  { unfold prepared, prepare_for_transcription,
      _prepare_for_directory_files_transcription.
    rewrite Hsrc. py_unfold. st_simpl. reflexivity. }
  assert (Hsame : set_source_path t (source_path t) = t) by now destruct t.
  rewrite Hsame in Hprep.
  unfold worked. rewrite Hprep. cbn [fst snd log threads fs].
  unfold _handle_transcription_process. py_unfold. st_simpl.
  rewrite bool_decide_eq_true_2 by exact Hsrc. rewrite Hempty.
  cbv beta iota. rewrite handle_exception_run. st_simpl.
  repeat split.
  - exists (PyStr.is_empty (text t)). rewrite <- !List.app_assoc. reflexivity.
  - rewrite !count_app. cbn. lia.
Qed.

(** C4 for the directory that holds no audio or video file. *)
Lemma C4_empty_directory_fails_in_worker_witness :
  let t := Sample.request DIRECTORY (mkPath "/home" "papers") WHISPERX
             false false false in
  let st := Sample.fresh t in
  let prepared := prepare_for_transcription t st in
  let worked := _handle_transcription_process Sample.ext (snd prepared) in
  fst prepared = Ok tt
  /\ log (snd prepared) = log st ++ [CallView on_processing_transcription]
  /\ threads (snd prepared) = threads st ++ [run_transcription_process]
  /\ fs (snd prepared) = fs st
  /\ fst worked = Ok tt
  /\ (exists b,
        log (snd worked)
        = log (snd prepared)
            ++ [CallView (on_processed_transcription false);
                CallView (display_text (MsgRepr directory_error));
                CallView (on_processed_transcription b)])
  /\ count is_backend_call (log (snd worked)) = count is_backend_call (log st)
  /\ fs (snd worked) = fs st.
Proof.
  intros t st prepared worked.
  apply (C4_empty_directory_fails_in_worker Sample.ext t st).
  - reflexivity.
  - reflexivity.
Defined.

(* ===================================================================== *)
(** * The scan and the chunk loop on the sample world                      *)
(* ===================================================================== *)

(** C5 for three chunks, the second of which fails recognition. *)
Lemma C5_google_text_is_concatenation_witness :
  let st := Sample.fresh (Sample.request FILE Sample.talk GOOGLE_API
                            false false false) in
  text (transcription (snd (_transcribe_using_google_api Sample.ext Sample.talk st)))
  = "Hello there. Bye. "
  /\ fst (_transcribe_using_google_api Sample.ext Sample.talk st) = Ok tt.
Proof.
  intros st.
  destruct (C5_google_text_is_concatenation Sample.ext Sample.talk st
              [Recognized "hello there"; RecognitionFails; Recognized "bYE"])
    as [Htext Hok].
  - reflexivity.
  - reflexivity.
  - repeat constructor; discriminate.
  - reflexivity.
  - split; [exact Htext | exact (Hok eq_refl)].
Defined.

(** C7 for the music directory: three matching files on three levels,
    three files that do not match. *)
Lemma C7_scan_returns_exactly_matching_witness :
  let found := _get_transcribable_files_from_dir Sample.ext (mkPath "/home" "music") in
  found = [mkPath "/home/music" "talk.mp3";
           mkPath "/home/music/live" "set.wav";
           mkPath "/home/music/live/deep" "clip.mp4"]
  /\ length found = 3
  /\ 3 + 3 = length (tree_files "/home/music" Sample.music).
Proof.
  intros found.
  destruct (C7_scan_returns_exactly_matching Sample.ext (mkPath "/home" "music")
              Sample.music 3 3) as (Hfound & Hlen & Hall & _).
  - reflexivity.
  - reflexivity.
  - reflexivity.
  - split; [exact Hfound|]. split; [exact Hlen | exact Hall].
Defined.

(* ===================================================================== *)
(** * Which files are accepted                                             *)
(* ===================================================================== *)

Lemma substring_full (s : string) : substring 0 (String.length s) s = s.
Proof. induction s as [|c s IH]; simpl; [reflexivity | now rewrite IH]. Qed.

Lemma substring_app_tail (a b : string) :
  substring (String.length a) (String.length b) (a +:+ b) = b.
Proof.
  induction a as [|x a IH]; [apply substring_full|].
  rewrite str_app_cons. simpl. exact IH.
Qed.

Lemma endswith_app (p suf : string) : PyStr.endswith (p +:+ suf) suf = true.
Proof.
  unfold PyStr.endswith. rewrite str_app_length.
  apply andb_true_iff. split; [apply Nat.leb_le; lia|].
  replace (String.length p + String.length suf - String.length suf)
    with (String.length p) by lia.
  rewrite substring_app_tail. apply String.eqb_refl.
Qed.

Lemma endswith_split (s suf : string) :
  PyStr.endswith s suf = true -> exists p, s = p +:+ suf.
Proof.
  unfold PyStr.endswith. intros H. apply andb_true_iff in H.
  destruct H as [Hle Heq]. apply Nat.leb_le in Hle. apply String.eqb_eq in Heq.
  exists (substring 0 (String.length s - String.length suf) s).
  pose proof (substring_split s (String.length s - String.length suf)
                ltac:(lia)) as Hsplit.
  replace (String.length s - (String.length s - String.length suf))
    with (String.length suf) in Hsplit by lia.
  rewrite Heq in Hsplit. now symmetry.
Qed.

Lemma str_in_In (x : string) (xs : list string) :
  str_in x xs = true <-> In x xs.
Proof.
  unfold str_in. rewrite existsb_exists. split.
  - intros (y & Hy & Heq). apply String.eqb_eq in Heq. now subst.
  - intros H. exists x. split; [exact H | apply String.eqb_refl].
Qed.

Lemma supported_extensions_plain :
  forall e, In e SUPPORTED_FILE_EXTENSIONS -> plain_extension e = true.
Proof.
  intros e He.
  assert (H : forallb plain_extension SUPPORTED_FILE_EXTENSIONS = true)
    by reflexivity.
  rewrite forallb_forall in H. now apply H.
Qed.

Lemma plain_extension_form (e : string) :
  plain_extension e = true ->
  exists rest, e = String "." rest /\ rest <> EmptyString
               /\ PyStr.rfind_dot rest = None.
Proof.
  destruct e as [|c rest]; [discriminate|]. cbn [plain_extension].
  intros H. apply andb_true_iff in H. destruct H as [H Hdot].
  apply andb_true_iff in H. destruct H as [Hc Hne].
  apply Ascii.eqb_eq in Hc. subst c. exists rest. repeat split.
  - intros ->. discriminate.
  - now destruct (PyStr.rfind_dot rest).
Qed.

(** The suffix of [<s><e>] for a non-empty [s] and a plain extension [e]
    is [e]; the suffix of a bare extension is empty. *)
Lemma suffix_of_app_plain (s e : string) :
  s <> EmptyString -> plain_extension e = true ->
  PyPath.suffix_of (s +:+ e) = e.
Proof.
  intros Hs He. destruct (plain_extension_form e He) as (rest & -> & Hne & Hdot).
  unfold PyPath.suffix_of. rewrite rfind_dot_app by exact Hdot.
  rewrite str_app_length.
  replace ((0 <? String.length s)
           && (String.length s
               <? String.length s + String.length (String "." rest) - 1))
    with true.
  - replace (String.length s + String.length (String "." rest) - String.length s)
      with (String.length (String "." rest)) by lia.
    apply substring_app_tail.
  - symmetry. apply andb_true_iff. split; apply Nat.ltb_lt.
    + destruct s; [congruence | simpl; lia].
    + destruct rest; [congruence | simpl; lia].
Qed.

Lemma suffix_of_bare_plain (e : string) :
  plain_extension e = true -> PyPath.suffix_of e = EmptyString.
Proof.
  intros He. destruct (plain_extension_form e He) as (rest & -> & Hne & Hdot).
  unfold PyPath.suffix_of. simpl. now rewrite Hdot.
Qed.

(** X1.  [_is_file_valid] accepts a path exactly when the file exists, its
    name ends in an extension of the allow-list, as the directory scan asks,
    and the name is more than the bare extension.  A file named [".mp3"] is
    returned by the scan and refused as a single file. *)
Theorem is_file_valid_iff_scan_match (f : FS) (file_path : Path) :
  _is_file_valid f file_path = true
  <-> Os.path_exists f file_path = true
      /\ is_transcribable (name file_path) = true
      /\ str_in (name file_path) SUPPORTED_FILE_EXTENSIONS = false.
Proof.
  unfold _is_file_valid. rewrite andb_true_iff, <- str_in_supported.
  unfold PyPath.suffix. set (nm := name file_path).
  split.
  - intros [Hex Hsuf]. split; [exact Hex|].
    apply str_in_In in Hsuf. split.
    + unfold is_transcribable. apply existsb_exists.
      exists (PyPath.suffix_of nm). split; [exact Hsuf|].
      rewrite <- (stem_suffix nm) at 1. apply endswith_app.
    + destruct (str_in nm SUPPORTED_FILE_EXTENSIONS) eqn:Hbare; [|reflexivity].
      apply str_in_In in Hbare.
      rewrite (suffix_of_bare_plain nm) in Hsuf
        by now apply supported_extensions_plain.
      apply str_in_In in Hsuf. discriminate.
  - intros (Hex & Hmatch & Hbare). split; [exact Hex|].
    unfold is_transcribable in Hmatch. apply existsb_exists in Hmatch.
    destruct Hmatch as (e & He & Hends).
    destruct (endswith_split nm e Hends) as [s Hs].
    assert (Hne : s <> EmptyString).
    { intros ->. rewrite str_app_nil_l in Hs. subst e.
      apply str_in_In in He. congruence. }
    rewrite Hs, suffix_of_app_plain; [now apply str_in_In | exact Hne |].
    now apply supported_extensions_plain.
Qed.

(* ===================================================================== *)
(** * What a request leaves in the controller                              *)
(* ===================================================================== *)

Lemma generate_subtitles_none (file_path : Path) (ov : bool) (st : State) :
  _whisperx_result st = None ->
  snd (_generate_subtitles file_path ov st) = st.
Proof.
  intros Hr. unfold _generate_subtitles. cbn [for_each]. py_unfold.
  destruct (ov || negb (Os.path_exists (fs st) (subtitle_path file_path "srt")));
    cbv beta iota; rewrite ?Hr; cbv beta iota; [reflexivity|].
  destruct (ov || negb (Os.path_exists (fs st) (subtitle_path file_path "vtt")));
    cbv beta iota; rewrite ?Hr; reflexivity.
Qed.

Lemma after_text_write_keeps (dest : Path) (ov : bool) (st : State) :
  transcription (after_text_write dest ov st) = transcription st
  /\ log (after_text_write dest ov st) = log st
  /\ threads (after_text_write dest ov st) = threads st
  /\ dirs (fs (after_text_write dest ov st)) = dirs (fs st)
  /\ _whisperx_result (after_text_write dest ov st) = _whisperx_result st.
Proof.
  unfold after_text_write.
  destruct (ov || negb (Os.path_exists (fs st) dest)); repeat split.
Qed.

(** [save_transcription] never calls the view, never starts a thread,
    never creates or removes a directory and never changes the record. *)
Lemma save_transcription_keeps
    (ext : Externals) (file_path : Path) (autosave ov : bool) (st : State) :
  let st' := snd (save_transcription ext file_path autosave ov st) in
  transcription st' = transcription st
  /\ log st' = log st
  /\ threads st' = threads st
  /\ dirs (fs st') = dirs (fs st).
Proof.
  cbv zeta.
  destruct (falsy (txt_destination ext file_path autosave)) eqn:Hdest.
  - rewrite save_transcription_cancelled by exact Hdest. repeat split.
  - rewrite save_transcription_steps by exact Hdest. cbv zeta.
    set (dest := to_path _).
    destruct (after_text_write_keeps dest ov st) as (Ht & Hl & Hth & Hd & _).
    destruct (should_subtitle (transcription st)); [|now repeat split].
    destruct (generate_subtitles_keeps dest ov (after_text_write dest ov st))
      as (Ht' & Hl' & Hth' & Hd').
    rewrite Ht', Hl', Hth', Hd'. now repeat split.
Qed.

Lemma transcribe_file_keeps_threads
    (ext : Externals) (file_path : Path) (st : State) :
  threads (snd (_transcribe_file ext file_path st)) = threads st.
Proof.
  rewrite transcribe_file_steps, bind_run.
  destruct (dispatch_backend_shape ext file_path st) as (_ & _ & Hth & _).
  destruct (dispatch_backend ext file_path st) as [[[]|e1] st1];
    cbn [fst snd] in *; [|exact Hth].
  rewrite bind_run.
  destruct (remove_tmp_file_shape st1) as (_ & Hth2 & _).
  destruct (remove_tmp_file st1) as [[[]|e] st2]; cbn [fst snd] in *;
    [|congruence].
  py_unfold. destruct (should_autosave (transcription st2)); [|cbn; congruence].
  destruct (save_transcription_keeps ext file_path true
              (should_overwrite (transcription st2)) st2) as (_ & _ & Hth3 & _).
  rewrite Hth3. congruence.
Qed.

Lemma gather_keeps_threads (ext : Externals) (files : list Path) :
  forall st,
    threads (snd (gather (map (_transcribe_file ext) files) st)) = threads st.
Proof.
  induction files as [|f files IH]; intros st; [reflexivity|].
  cbn [map gather].
  pose proof (transcribe_file_keeps_threads ext f st) as H1.
  destruct (_transcribe_file ext f st) as [r st1]. cbn [snd] in H1.
  specialize (IH st1).
  destruct (gather (map (_transcribe_file ext) files) st1) as [r' st2].
  cbn [snd] in *. congruence.
Qed.

(** The worker starts no thread. *)
Lemma process_keeps_threads (ext : Externals) (st : State) :
  threads (snd (_handle_transcription_process ext st)) = threads st.
Proof.
  unfold _handle_transcription_process. py_unfold.
  destruct (bool_decide (source (transcription st) = DIRECTORY)).
  - destruct (_get_transcribable_files_from_dir ext
                (source_path (transcription st))) as [|f rest] eqn:Hfiles.
    + rewrite handle_exception_run. reflexivity.
    + pose proof (gather_keeps_threads ext (f :: rest) st) as Hth.
      destruct (gather (map (_transcribe_file ext) (f :: rest)) st)
        as [[[]|e] st1]; cbn [snd] in Hth;
        rewrite ?handle_exception_run; st_simpl; exact Hth.
  - pose proof (transcribe_file_keeps_threads ext
                  (source_path (transcription st)) st) as Hth.
    destruct (_transcribe_file ext (source_path (transcription st)) st)
      as [[[]|e] st1]; cbn [snd] in Hth;
      rewrite ?handle_exception_run; st_simpl; exact Hth.
Qed.

(** Every run of the worker adds to the log one
    [on_processed_transcription] more than it handles exceptions. *)
Lemma process_log (ext : Externals) (st : State) :
  exists new,
    log (snd (_handle_transcription_process ext st)) = log st ++ new
    /\ count is_processed new = 1 + count is_handled_exception new.
Proof.
  set (body :=
         (t <- gets transcription ;;
          let path := source_path t in
          if bool_decide (source t = DIRECTORY) then
            match _get_transcribable_files_from_dir ext path with
            | (_ :: _) as files =>
                let tasks := map (_transcribe_file ext) files in
                gather tasks ;;
                view_call (display_text (MsgFilesTranscribed path))
            | [] => raise directory_error
            end
          else _transcribe_file ext path)%py).
  assert (Hbody : logs_balanced body).
  { unfold body. apply logs_balanced_bind; [now apply logs_balanced_unchanged|].
    intros t. destruct (bool_decide (source t = DIRECTORY)).
    - destruct (_get_transcribable_files_from_dir ext (source_path t))
        as [|f rest]; [now apply logs_balanced_unchanged|].
      apply logs_balanced_bind.
      + apply logs_balanced_gather. apply Forall_forall. intros m Hm.
        apply list_elem_of_In, in_map_iff in Hm. destruct Hm as (p & <- & _).
        apply transcribe_file_logs_balanced.
      + intros _ st0. eexists. split; [reflexivity | reflexivity].
    - apply transcribe_file_logs_balanced. }
  change (_handle_transcription_process ext st)
    with (try_finally (try_except body _handle_exception)
            (t <- gets transcription ;;
             let is_transcription_empty := PyStr.is_empty (text t) in
             view_call (on_processed_transcription is_transcription_empty))%py
            st).
  unfold try_finally, try_except.
  destruct (Hbody st) as (new0 & Hlog0 & Hbal0).
  destruct (body st) as [[[]|e] st1]; cbn [snd] in Hlog0;
    rewrite ?handle_exception_run; py_unfold; st_simpl; rewrite Hlog0.
  - exists (new0 ++ [CallView (on_processed_transcription
                                 (PyStr.is_empty (text (transcription st1))))]).
    rewrite <- List.app_assoc. split; [reflexivity|].
    rewrite !count_app. unfold balanced in Hbal0. rewrite Hbal0. cbn. lia.
  - exists (new0 ++ [CallView (on_processed_transcription false);
                     CallView (display_text (MsgRepr e));
                     CallView (on_processed_transcription
                                 (PyStr.is_empty (text (transcription st1))))]).
    rewrite <- !List.app_assoc. split; [reflexivity|].
    rewrite !count_app. unfold balanced in Hbal0. rewrite Hbal0. cbn. lia.
Qed.

(* ===================================================================== *)
(** * Accepting a request                                                  *)
(* ===================================================================== *)

Lemma set_source_path_same (t : Transcription) :
  set_source_path t (source_path t) = t.
Proof. now destruct t. Qed.

Lemma prepare_run (t : Transcription) (st : State) :
  prepare_for_transcription t st
  = (Ok tt,
     if bool_decide (source t = FILE)
        && negb (_is_file_valid (fs st) (source_path t))
     then
       mkState t (_is_mic_recording st) (_whisperx_result st) (fs st)
         (log st ++ [CallView on_processing_transcription;
                     CallView (on_processed_transcription false);
                     CallView (display_text
                                 (MsgRepr (ValueError
                                             "Error: No valid file selected.")))])
         (threads st)
     else
       mkState t (_is_mic_recording st) (_whisperx_result st) (fs st)
         (log st ++ [CallView on_processing_transcription])
         (threads st ++ [match source t with
                         | FILE | DIRECTORY => run_transcription_process
                         | MIC => record_from_mic
                         | YOUTUBE => download_audio_from_yt_video
                         end])).
Proof.
  unfold prepare_for_transcription, _prepare_for_file_transcription,
    _prepare_for_directory_files_transcription, _prepare_for_mic_transcription,
    _prepare_for_yt_transcription.
  destruct (source t) eqn:Hsrc; py_unfold; st_simpl; cbn [bool_decide andb];
    try (rewrite ?set_source_path_same; reflexivity).
  destruct (_is_file_valid (fs st) (source_path t)); cbv beta iota;
    rewrite ?handle_exception_run; st_simpl; cbn [negb];
    rewrite ?set_source_path_same, <- ?List.app_assoc; reflexivity.
Qed.

(** X2.  [prepare_for_transcription] never raises, installs the record it
    is given, and leaves the filesystem and the stored whisperx result as
    they are.  Only a FILE request is checked on the caller's thread: when
    its file is not valid, the view is told at once that the request failed,
    with the [ValueError], and no thread is started.  Every other request
    is accepted unchecked, and exactly one thread is started for it. *)
Theorem prepare_checks_file_requests_only (t : Transcription) (st : State) :
  let out := prepare_for_transcription t st in
  let refused :=
    bool_decide (source t = FILE)
    && negb (_is_file_valid (fs st) (source_path t)) in
  fst out = Ok tt
  /\ transcription (snd out) = t
  /\ fs (snd out) = fs st
  /\ _whisperx_result (snd out) = _whisperx_result st
  /\ (if refused
      then log (snd out)
           = log st ++ [CallView on_processing_transcription;
                        CallView (on_processed_transcription false);
                        CallView (display_text
                                    (MsgRepr (ValueError
                                                "Error: No valid file selected.")))]
           /\ threads (snd out) = threads st
      else log (snd out) = log st ++ [CallView on_processing_transcription]
           /\ threads (snd out)
              = threads st ++ [match source t with
                               | FILE | DIRECTORY => run_transcription_process
                               | MIC => record_from_mic
                               | YOUTUBE => download_audio_from_yt_video
                               end]).
Proof.
  cbv zeta. rewrite prepare_run.
  destruct (bool_decide (source t = FILE)
            && negb (_is_file_valid (fs st) (source_path t)));
    cbn [fst snd transcription fs _whisperx_result log threads]; repeat split.
Qed.

(* ===================================================================== *)
(** * The microphone and the download                                      *)
(* ===================================================================== *)

Lemma record_from_mic_run (ext : Externals) (st : State) :
  _record_from_mic ext st
  = (Ok tt,
     match mic_listen ext with
     | None =>
         mkState (transcription st) true (_whisperx_result st) (fs st)
           (log st ++ [CallView view_stop_recording_from_mic;
                       CallView (on_processed_transcription false);
                       CallView (display_text (MsgRepr (LibraryError "listen")))])
           (threads st)
     | Some 0 =>
         mkState (transcription st) false (_whisperx_result st) (fs st)
           (log st ++ [CallView (on_processed_transcription false);
                       CallView (display_text
                                   (MsgRepr (ValueError "No audio detected")))])
           (threads st)
     | Some (S _) =>
         mkState (set_source_path (transcription st) mic_output) false
           (_whisperx_result st)
           (Os.write_file (fs st) mic_output FAudio)
           (log st) (threads st ++ [run_transcription_process])
     end).
Proof.
  unfold _record_from_mic, mic_output. py_unfold.
  destruct (mic_listen ext) as [[|n]|]; cbn [Nat.ltb Nat.leb]; cbv beta iota;
    rewrite ?handle_exception_run; st_simpl; cbv beta iota;
    rewrite <- ?List.app_assoc; reflexivity.
Qed.

Lemma download_run (ext : Externals) (st : State) :
  _download_audio_from_yt_video ext st
  = (Ok tt,
     match yt_download ext (youtube_url (transcription st)) with
     | YtRegexMatchError =>
         with_log st
           (log st ++ [CallView (on_processed_transcription false);
                       CallView (display_text
                                   (MsgRepr (ValueError "The URL is not correct.")))])
     | YtFails =>
         with_log st
           (log st ++ [CallView (on_processed_transcription false);
                       CallView (display_text (MsgRepr (LibraryError "pytube")))])
     | YtDownloaded output_file =>
         if PyStr.is_empty output_file then st
         else
           mkState (set_source_path (transcription st)
                      (PyPath.of_string output_file))
             (_is_mic_recording st) (_whisperx_result st)
             (Os.write_file (fs st) (PyPath.of_string output_file) FAudio)
             (log st) (threads st ++ [run_transcription_process])
     end).
Proof.
  unfold _download_audio_from_yt_video. py_unfold.
  destruct (yt_download ext (youtube_url (transcription st))) as [| |f];
    rewrite ?handle_exception_run; try reflexivity.
  destruct (PyStr.is_empty f); cbv beta iota; st_simpl; [|reflexivity].
  now destruct st.
Qed.

(** X3.  A recording that ends with no segment, or in which listening
    raises, is reported to the view as a failure and leaves nothing
    behind: no file is written, no thread is started and the record is not
    changed.  With no segment the error is [ValueError("No audio
    detected")]; when listening raises, the view is first told to stop
    recording. *)
Theorem record_from_mic_failure (ext : Externals) (st : State) :
  mic_listen ext = Some 0 \/ mic_listen ext = None ->
  let out := _record_from_mic ext st in
  fst out = Ok tt
  /\ fs (snd out) = fs st
  /\ threads (snd out) = threads st
  /\ transcription (snd out) = transcription st
  /\ (mic_listen ext = Some 0 ->
      log (snd out)
      = log st ++ [CallView (on_processed_transcription false);
                   CallView (display_text
                               (MsgRepr (ValueError "No audio detected")))])
  /\ (mic_listen ext = None ->
      exists e,
        log (snd out)
        = log st ++ [CallView view_stop_recording_from_mic;
                     CallView (on_processed_transcription false);
                     CallView (display_text (MsgRepr e))]).
Proof.
  intros Hmic. cbv zeta. rewrite record_from_mic_run.
  destruct Hmic as [-> | ->]; cbn [fst snd fs threads transcription log];
    repeat split; try discriminate.
  intros _. eexists. reflexivity.
Qed.

(** X3 with the microphone that hears nothing. *)
Lemma record_from_mic_failure_witness :
  let st := Sample.fresh (Sample.request MIC Sample.talk WHISPERX false true false) in
  let out := _record_from_mic Sample.ext_silent st in
  fs (snd out) = fs st
  /\ threads (snd out) = []
  /\ log (snd out)
     = [CallView (on_processed_transcription false);
        CallView (display_text (MsgRepr (ValueError "No audio detected")))].
Proof.
  intros st out.
  destruct (record_from_mic_failure Sample.ext_silent st)
    as (_ & Hfs & Hth & _ & Hlog & _).
  - left. reflexivity.
  - split; [exact Hfs|]. split; [exact Hth|]. apply Hlog. reflexivity.
Defined.

(* ===================================================================== *)
(** * Requests from their start to their end                               *)
(* ===================================================================== *)

Lemma run_next_thread_idle (ext : Externals) (st : State) :
  threads st = [] -> run_next_thread ext st = st.
Proof. unfold run_next_thread. now intros ->. Qed.

Lemma run_next_thread_one (ext : Externals) (st : State) (target : ThreadTarget) :
  threads st = [target] ->
  run_next_thread ext st = snd (run_target ext target (with_threads st [])).
Proof. unfold run_next_thread. now intros ->. Qed.

Lemma prepare_run_unchecked (t : Transcription) (st : State) :
  source t <> FILE ->
  prepare_for_transcription t st
  = (Ok tt,
     mkState t (_is_mic_recording st) (_whisperx_result st) (fs st)
       (log st ++ [CallView on_processing_transcription])
       (threads st ++ [match source t with
                       | FILE | DIRECTORY => run_transcription_process
                       | MIC => record_from_mic
                       | YOUTUBE => download_audio_from_yt_video
                       end])).
Proof.
  intros Hsrc. rewrite prepare_run.
  now rewrite bool_decide_eq_false_2 by exact Hsrc.
Qed.

Lemma backend_returns_set_source_path
    (ext : Externals) (t : Transcription) (p : Path) :
  backend_returns ext (set_source_path t p) = backend_returns ext t.
Proof. now destruct t. Qed.

(** The worker on a microphone or YouTube request, started with no other
    thread pending: the temporary file is gone when the backend call
    returns and still there when it raises; no thread is left, and the view
    has been told of the end. *)
Lemma worker_removes_tmp_file (ext : Externals) (st : State) :
  source (transcription st) = MIC \/ source (transcription st) = YOUTUBE ->
  not_an_output (source_path (transcription st)) ->
  threads st = [] ->
  let final := snd (_handle_transcription_process ext st) in
  (backend_returns ext (transcription st) = true ->
   files (fs final) !! source_path (transcription st) = None)
  /\ (backend_returns ext (transcription st) = false ->
      Os.in_dir (chunks_directory_of ext) (source_path (transcription st))
      = false ->
      files (fs final) !! source_path (transcription st)
      = files (fs st) !! source_path (transcription st))
  /\ threads final = []
  /\ exists new, log final = log st ++ new /\ 1 <= count is_processed new.
Proof.
  intros Hsrc Hout Hth final. unfold final.
  assert (Hnodir : source (transcription st) <> DIRECTORY)
    by (destruct Hsrc as [-> | ->]; discriminate).
  split; [|split; [|split]].
  - intros Hret. rewrite process_single_file_fs by exact Hnodir.
    now apply tmp_file_removed_by_transcribe_file.
  - intros Hret Hin. now apply tmp_file_kept_when_backend_raises.
  - now rewrite process_keeps_threads.
  - destruct (process_log ext st) as (new & Hlog & Hcount).
    exists new. split; [exact Hlog | lia].
Qed.

(** X4.  A microphone request in which at least one segment is captured:
    the recording is written to [mic-output.wav] and handed to the worker.
    When the request is over, that file is gone again if the backend call
    returned, whatever happened inside the backend; if an exception left
    the backend (the chunks directory could not be made or removed), the
    recording is still there.  Either way no thread is left and the view
    has been told of the end. *)
Theorem mic_request_recording_cleanup
    (ext : Externals) (t : Transcription) (st : State) (captured : nat) :
  source t = MIC ->
  mic_listen ext = Some (S captured) ->
  threads st = [] ->
  let recorded := run_next_thread ext (snd (prepare_for_transcription t st)) in
  let final := run_request ext t st in
  files (fs recorded) !! mic_output = Some FAudio
  /\ source_path (transcription recorded) = mic_output
  /\ (backend_returns ext t = true -> files (fs final) !! mic_output = None)
  /\ (backend_returns ext t = false ->
      Os.in_dir (chunks_directory_of ext) mic_output = false ->
      files (fs final) !! mic_output = Some FAudio)
  /\ threads final = []
  /\ exists new,
       log final = log st ++ CallView on_processing_transcription :: new
       /\ 1 <= count is_processed new.
Proof.
  intros Hsrc Hmic Hth recorded final.
  assert (Hrec : recorded
                 = mkState (set_source_path t mic_output) false
                     (_whisperx_result st)
                     (Os.write_file (fs st) mic_output FAudio)
                     (log st ++ [CallView on_processing_transcription])
                     [run_transcription_process]).
  { unfold recorded. rewrite prepare_run_unchecked by (rewrite Hsrc; discriminate).
    rewrite Hsrc. cbn [snd].
    rewrite (run_next_thread_one ext _ record_from_mic)
      by (cbn [threads]; now rewrite Hth).
    cbn [run_target]. rewrite record_from_mic_run, Hmic. reflexivity. }
  unfold final, run_request. fold recorded. rewrite Hrec.
  rewrite (run_next_thread_one ext _ run_transcription_process) by reflexivity.
  cbn [run_target]. st_simpl.
  split; [apply lookup_insert_eq|]. split; [now destruct t|].
  match goal with
  | |- context [_handle_transcription_process ext ?s] =>
      destruct (worker_removes_tmp_file ext s)
        as (Hgone & Hkept & Hidle & new & Hlog & Hn)
  end.
  - left. cbn. now destruct t.
  - cbn. destruct t; cbn. unfold not_an_output, mic_output. cbn.
    repeat split; discriminate.
  - reflexivity.
  - cbn [transcription fs] in Hgone, Hkept.
    rewrite backend_returns_set_source_path in Hgone, Hkept.
    replace (source_path (set_source_path t mic_output)) with mic_output
      in Hgone, Hkept by now destruct t.
    split; [exact Hgone|]. split.
    { intros Hret Hin. rewrite (Hkept Hret Hin). apply lookup_insert_eq. }
    split; [exact Hidle|].
    exists new. cbn [log] in Hlog. rewrite Hlog, <- List.app_assoc.
    split; [reflexivity | exact Hn].
Qed.

(** X4 in the sample world, whose microphone captures two segments, and
    in the same world with a file in the place of the chunks directory. *)
Lemma mic_request_recording_cleanup_witness :
  let t := Sample.request MIC Sample.talk GOOGLE_API false true false in
  (let final := run_request Sample.ext t (Sample.fresh t) in
   files (fs final) !! mic_output = None /\ threads final = [])
  /\ (let final := run_request Sample.ext_blocked t (Sample.fresh t) in
      files (fs final) !! mic_output = Some FAudio /\ threads final = []).
Proof.
  intros t. split.
  - destruct (mic_request_recording_cleanup Sample.ext t (Sample.fresh t) 1)
      as (_ & _ & Hgone & _ & Hidle & _).
    + reflexivity.
    + reflexivity.
    + reflexivity.
    + split; [exact (Hgone eq_refl) | exact Hidle].
  - destruct (mic_request_recording_cleanup Sample.ext_blocked t
                (Sample.fresh t) 1)
      as (_ & _ & _ & Hkept & Hidle & _).
    + reflexivity.
    + reflexivity.
    + reflexivity.
    + split; [exact (Hkept eq_refl eq_refl) | exact Hidle].
Defined.

(** X5.  A YouTube request whose download yields a file: the file becomes
    the source of the request.  When the request is over, it is gone again
    if the backend call returned, whatever happened inside the backend; if
    an exception left the backend (the chunks directory could not be made
    or removed), the download is still there.  Either way no thread is
    left and the view has been told of the end. *)
Theorem youtube_request_download_cleanup
    (ext : Externals) (t : Transcription) (st : State) (output_file : string) :
  source t = YOUTUBE ->
  yt_download ext (youtube_url t) = YtDownloaded output_file ->
  output_file <> EmptyString ->
  not_an_output (PyPath.of_string output_file) ->
  threads st = [] ->
  let tmp := PyPath.of_string output_file in
  let downloaded := run_next_thread ext (snd (prepare_for_transcription t st)) in
  let final := run_request ext t st in
  files (fs downloaded) !! tmp = Some FAudio
  /\ source_path (transcription downloaded) = tmp
  /\ (backend_returns ext t = true -> files (fs final) !! tmp = None)
  /\ (backend_returns ext t = false ->
      Os.in_dir (chunks_directory_of ext) tmp = false ->
      files (fs final) !! tmp = Some FAudio)
  /\ threads final = []
  /\ exists new,
       log final = log st ++ CallView on_processing_transcription :: new
       /\ 1 <= count is_processed new.
Proof.
  intros Hsrc Hyt Hne Hout Hth tmp downloaded final.
  assert (Hdl : downloaded
                = mkState (set_source_path t tmp) (_is_mic_recording st)
                    (_whisperx_result st)
                    (Os.write_file (fs st) tmp FAudio)
                    (log st ++ [CallView on_processing_transcription])
                    [run_transcription_process]).
  { unfold downloaded.
    rewrite prepare_run_unchecked by (rewrite Hsrc; discriminate).
    rewrite Hsrc. cbn [snd].
    rewrite (run_next_thread_one ext _ download_audio_from_yt_video)
      by (cbn [threads]; now rewrite Hth).
    cbn [run_target]. rewrite download_run. st_simpl. rewrite Hyt.
    destruct output_file; [congruence | reflexivity]. }
  unfold final, run_request. fold downloaded. rewrite Hdl.
  rewrite (run_next_thread_one ext _ run_transcription_process) by reflexivity.
  cbn [run_target]. st_simpl.
  split; [apply lookup_insert_eq|]. split; [now destruct t|].
  match goal with
  | |- context [_handle_transcription_process ext ?s] =>
      destruct (worker_removes_tmp_file ext s)
        as (Hgone & Hkept & Hidle & new & Hlog & Hn)
  end.
  - right. cbn. now destruct t.
  - cbn [transcription].
    replace (source_path (set_source_path t tmp)) with tmp by now destruct t.
    exact Hout.
  - reflexivity.
  - cbn [transcription fs] in Hgone, Hkept.
    rewrite backend_returns_set_source_path in Hgone, Hkept.
    replace (source_path (set_source_path t tmp)) with tmp in Hgone, Hkept
      by now destruct t.
    split; [exact Hgone|]. split.
    { intros Hret Hin. rewrite (Hkept Hret Hin). apply lookup_insert_eq. }
    split; [exact Hidle|].
    exists new. cbn [log] in Hlog. rewrite Hlog, <- List.app_assoc.
    split; [reflexivity | exact Hn].
Qed.

(** X5 in the sample world, whose download yields [yt-audio.mp3], served
    by whisperx, and in the world where the chunk files cannot be removed,
    served by the cloud-API backend. *)
Lemma youtube_request_download_cleanup_witness :
  (let t := Sample.request YOUTUBE Sample.talk WHISPERX false false false in
   let final := run_request Sample.ext t (Sample.fresh t) in
   files (fs final) !! mkPath "." "yt-audio.mp3" = None /\ threads final = [])
  /\ (let t := Sample.request YOUTUBE Sample.talk GOOGLE_API false false false in
      let final := run_request Sample.ext_locked t (Sample.fresh t) in
      files (fs final) !! mkPath "." "yt-audio.mp3" = Some FAudio
      /\ threads final = []).
Proof.
  split.
  - intros t final.
    destruct (youtube_request_download_cleanup Sample.ext t (Sample.fresh t)
                "yt-audio.mp3") as (_ & _ & Hgone & _ & Hidle & _).
    + reflexivity.
    + reflexivity.
    + discriminate.
    + unfold not_an_output. cbn. repeat split; discriminate.
    + reflexivity.
    + split; [exact (Hgone eq_refl) | exact Hidle].
  - intros t final.
    destruct (youtube_request_download_cleanup Sample.ext_locked t
                (Sample.fresh t) "yt-audio.mp3")
      as (_ & _ & _ & Hkept & Hidle & _).
    + reflexivity.
    + reflexivity.
    + discriminate.
    + unfold not_an_output. cbn. repeat split; discriminate.
    + reflexivity.
    + split; [exact (Hkept eq_refl eq_refl) | exact Hidle].
Defined.

(** The worker, started with no other thread pending, leaves none and
    tells the view of the end. *)
Lemma worker_ends_notified (ext : Externals) (st : State) :
  threads st = [] ->
  let final := snd (_handle_transcription_process ext st) in
  threads final = []
  /\ exists new, log final = log st ++ new /\ 1 <= count is_processed new.
Proof.
  intros Hth final. unfold final. split; [now rewrite process_keeps_threads|].
  destruct (process_log ext st) as (new & Hlog & Hcount).
  exists new. split; [exact Hlog | lia].
Qed.

Ltac step_idle :=
  match goal with
  | |- context [run_next_thread ?e (mkState ?a ?b ?c ?d ?l ?th)] =>
      rewrite (run_next_thread_idle e (mkState a b c d l th))
        by (cbn [threads]; first [reflexivity | assumption])
  end.

Ltac step_one target :=
  match goal with
  | |- context [run_next_thread ?e (mkState ?a ?b ?c ?d ?l ?th)] =>
      rewrite (run_next_thread_one e (mkState a b c d l th) target)
        by (cbn [threads];
            first [reflexivity
                  | match goal with
                    | H : threads _ = [] |- _ => now rewrite H
                    end])
  end.

Ltac worker_step :=
  cbn [run_target]; st_simpl;
  match goal with
  | |- context [_handle_transcription_process ?e ?s] =>
      let Hidle := fresh "Hidle" in
      let new := fresh "new" in
      let Hlog := fresh "Hlog" in
      let Hn := fresh "Hn" in
      destruct (worker_ends_notified e s eq_refl) as (Hidle & new & Hlog & Hn);
      rewrite ?run_next_thread_idle by exact Hidle;
      split; [exact Hidle|]; exists new; cbn [log] in Hlog;
      rewrite Hlog, <- List.app_assoc; split; [reflexivity | exact Hn]
  end.

(** X6.  Every request comes to an end within the threads it starts: no
    thread is left pending, and after [on_processing_transcription] the
    view is told [on_processed_transcription] at least once.  The one
    exception is a YouTube request whose download returns an empty path:
    nothing at all follows [on_processing_transcription]. *)
Theorem every_request_reports_its_end
    (ext : Externals) (t : Transcription) (st : State) :
  threads st = [] ->
  let final := run_request ext t st in
  threads final = []
  /\ exists new,
       log final = log st ++ CallView on_processing_transcription :: new
       /\ (if download_yields_nothing ext t
           then new = []
           else 1 <= count is_processed new).
Proof.
  intros Hth final. unfold final, run_request, download_yields_nothing.
  rewrite prepare_run.
  destruct (bool_decide (source t = FILE)
            && negb (_is_file_valid (fs st) (source_path t))) eqn:Hrefused;
    cbn [snd].
  { (* a FILE request that is refused *)
    apply andb_true_iff in Hrefused. destruct Hrefused as [Hfile _].
    apply bool_decide_eq_true in Hfile. rewrite Hfile.
    rewrite (bool_decide_eq_false_2 (FILE = YOUTUBE)) by discriminate.
    cbn [andb]. step_idle. step_idle.
    split; [exact Hth|]. eexists. cbn [log]. split; [reflexivity|]. cbn. lia. }
  destruct (source t) eqn:Hsrc.
  - (* FILE, accepted *)
    rewrite (bool_decide_eq_false_2 (FILE = YOUTUBE)) by discriminate.
    cbn [andb]. step_one run_transcription_process. worker_step.
  - (* DIRECTORY *)
    rewrite (bool_decide_eq_false_2 (DIRECTORY = YOUTUBE)) by discriminate.
    cbn [andb]. step_one run_transcription_process. worker_step.
  - (* MIC *)
    rewrite (bool_decide_eq_false_2 (MIC = YOUTUBE)) by discriminate.
    cbn [andb]. step_one record_from_mic.
    cbn [run_target]. rewrite record_from_mic_run. st_simpl.
    destruct (mic_listen ext) as [[|n]|].
    + step_idle. split; [reflexivity|].
      eexists. cbn [log]. rewrite <- List.app_assoc.
      split; [reflexivity|]. cbn. lia.
    + step_one run_transcription_process. worker_step.
    + step_idle. split; [reflexivity|].
      eexists. cbn [log]. rewrite <- List.app_assoc.
      split; [reflexivity|]. cbn. lia.
  - (* YOUTUBE *)
    rewrite (bool_decide_eq_true_2 (YOUTUBE = YOUTUBE)) by reflexivity.
    cbn [andb]. step_one download_audio_from_yt_video.
    cbn [run_target]. rewrite download_run. st_simpl.
    destruct (yt_download ext (youtube_url t)) as [| |f].
    + step_idle. split; [reflexivity|]. eexists. cbn [log].
      rewrite <- List.app_assoc. split; [reflexivity|]. cbn. lia.
    + step_idle. split; [reflexivity|]. eexists. cbn [log].
      rewrite <- List.app_assoc. split; [reflexivity|]. cbn. lia.
    + destruct (PyStr.is_empty f).
      * step_idle. split; [reflexivity|]. exists []. split; reflexivity.
      * step_one run_transcription_process. worker_step.
Qed.

(** X6 for the two sample worlds: a request that is served, and the
    download that yields nothing. *)
Lemma every_request_reports_its_end_witness :
  let t := Sample.request YOUTUBE Sample.talk WHISPERX false false false in
  (exists new,
     log (run_request Sample.ext t (Sample.fresh t))
     = CallView on_processing_transcription :: new
     /\ 1 <= count is_processed new)
  /\ log (run_request Sample.ext_silent t (Sample.fresh t))
     = [CallView on_processing_transcription].
Proof.
  intros t. split.
  - destruct (every_request_reports_its_end Sample.ext t (Sample.fresh t) eq_refl)
      as (_ & new & Hlog & Hn).
    change (1 <= count is_processed new) in Hn.
    exists new. split; [exact Hlog | exact Hn].
  - destruct (every_request_reports_its_end Sample.ext_silent t (Sample.fresh t)
                eq_refl) as (_ & new & Hlog & Hn).
    change (new = []) in Hn. subst new. exact Hlog.
Defined.

(* ===================================================================== *)
(** * What the backends leave                                              *)
(* ===================================================================== *)



(** X8.  When whisperx fails, the failure is reported through
    [_handle_exception] and the record is left as it was, but the stored
    result is not: if the transcription itself had succeeded and only the
    alignment raised, the controller now holds the new, unaligned result;
    if the transcription raised, it still holds the result of an earlier
    file. *)
Theorem whisperx_failure_keeps_text_not_result
    (ext : Externals) (file_path : Path) (st : State) :
  method (transcription st) = Some WHISPERX ->
  backend_fails_internally ext (transcription st) file_path = true ->
  let out := _transcribe_using_whisperx ext file_path st in
  fst out = Ok tt
  /\ transcription (snd out) = transcription st
  /\ fs (snd out) = fs st
  /\ (exists e,
        log (snd out)
        = log st ++ [CallBackend WHISPERX file_path;
                     CallView (on_processed_transcription false);
                     CallView (display_text (MsgRepr e))])
  /\ match whisperx_transcribe ext file_path with
     | None => _whisperx_result (snd out) = _whisperx_result st
     | Some segs =>
         exists r, _whisperx_result (snd out) = Some r
                   /\ segments r = segs /\ aligned r = false
     end.
Proof.
  unfold backend_fails_internally. intros -> Hfail.
  unfold _transcribe_using_whisperx. py_unfold.
  destruct (whisperx_transcribe ext file_path) as [segs|]; cbv beta iota.
  - apply andb_true_iff in Hfail. destruct Hfail as [Hsub Halign].
    apply negb_true_iff in Halign. st_simpl. rewrite Hsub, Halign.
    cbv beta iota. rewrite handle_exception_run. st_simpl.
    rewrite <- List.app_assoc. repeat split; eexists; repeat split.
  - rewrite handle_exception_run. st_simpl. rewrite <- List.app_assoc.
    repeat split. eexists. reflexivity.
Qed.

(** X8 for a file that whisperx cannot read. *)
Lemma whisperx_failure_keeps_text_not_result_witness :
  let st := Sample.fresh (set_text (Sample.request FILE Sample.noise WHISPERX
                                      false false false) "earlier") in
  let out := _transcribe_using_whisperx Sample.ext Sample.noise st in
  text (transcription (snd out)) = "earlier"
  /\ _whisperx_result (snd out) = None.
Proof.
  intros st out.
  destruct (whisperx_failure_keeps_text_not_result Sample.ext Sample.noise st)
    as (_ & Htr & _ & _ & Hres).
  - reflexivity.
  - reflexivity.
  - split; [unfold out; now rewrite Htr | exact Hres].
Defined.

(** The chunk loop: it raises at the first chunk that cannot be exported,
    and otherwise returns the text of the recognized chunks. *)
Lemma recognize_chunks_result (ext : Externals) (chunks : list ChunkOutcome) :
  forall dir idx acc st,
  exists f',
    recognize_chunks ext dir idx chunks acc st
    = (if existsb is_export_failure chunks
       then Raise (LibraryError "export")
       else Ok (acc +:+ concat_chunk_texts ext (recognized_texts chunks)),
       with_fs st f').
Proof.
  induction chunks as [|c chunks IH]; intros dir idx acc st.
  - exists (fs st). cbn. rewrite str_app_nil_r. now destruct st.
  - destruct c as [chunk_text| |];
      cbn [recognize_chunks existsb is_export_failure orb recognized_texts
           concat_chunk_texts fold_right]; py_unfold.
    + destruct (IH dir (S idx) (acc +:+ str_capitalize ext chunk_text +:+ ". ")
                  (with_fs st (Os.write_file (fs st)
                     (mkPath dir ("chunk" +:+ PyStr.of_nat idx +:+ ".wav")) FAudio)))
        as [f' Hf'].
      exists f'. rewrite Hf'.
      fold (concat_chunk_texts ext (recognized_texts chunks)).
      now rewrite !str_app_assoc.
    + destruct (IH dir (S idx) acc
                  (with_fs st (Os.write_file (fs st)
                     (mkPath dir ("chunk" +:+ PyStr.of_nat idx +:+ ".wav")) FAudio)))
        as [f' Hf'].
      exists f'. now rewrite Hf'.
    + exists (fs st). now destruct st.
Qed.

Ltac google_run_finish :=
  st_simpl;
  repeat (match goal with
          | |- context [if ?c then _ else _] => destruct c
          end; cbv beta iota; st_simpl);
  rewrite <- ?List.app_assoc;
  (split; [reflexivity|]); (split; [reflexivity|]);
  eexists; (split; [reflexivity|]); (split; [reflexivity|]);
  (split; [reflexivity|]);
  intros Hnone; try discriminate Hnone; eexists; eexists; reflexivity.

Lemma google_backend_made_run (ext : Externals) (file_path : Path) (st : State) :
  mkdir_error ext (chunks_directory_of ext) = None ->
  let out := _transcribe_using_google_api ext file_path st in
  transcription (snd out)
  = with_backend_text (transcription st) (google_try_text ext file_path)
  /\ _whisperx_result (snd out) = _whisperx_result st
  /\ exists new,
       log (snd out) = log st ++ CallBackend GOOGLE_API file_path :: new
       /\ count is_processed new = 0
       /\ count is_handled_exception new = 0
       /\ (google_try_text ext file_path = None ->
           exists e rest, new = CallView (display_text (MsgTraceback e)) :: rest).
Proof.
  intros Hmk. unfold with_backend_text, google_try_text.
  rewrite str_in_supported.
  unfold _transcribe_using_google_api, mkdir, rmtree. py_unfold.
  rewrite Hmk. cbv beta iota.
  destruct (rmtree_error ext (chunks_directory_of ext)) as [e0|];
  (destruct (str_in (PyPath.suffix file_path) AUDIO_FILE_EXTENSIONS);
    [|destruct (str_in (PyPath.suffix file_path) VIDEO_FILE_EXTENSIONS)];
    cbn [orb];
    (destruct (google_chunks ext file_path) as [chunks|];
     cbv beta iota;
     try match goal with
       | |- context [recognize_chunks ?ee ?dd ?i ?c ?a ?s] =>
           destruct (recognize_chunks_result ee c dd i a s) as (f' & Hrun);
           rewrite Hrun; rewrite str_app_nil_l;
           destruct (existsb is_export_failure c)
       end;
     cbv beta iota)).
  all: google_run_finish.
Qed.

Lemma text_set_by_google (ext : Externals) (t : Transcription) (file_path : Path) :
  method t = Some GOOGLE_API ->
  text_set_by_backend ext t file_path
  = match mkdir_error ext (chunks_directory_of ext) with
    | Some _ => None
    | None => google_try_text ext file_path
    end.
Proof. unfold text_set_by_backend. now intros ->. Qed.

Lemma google_fails_internally (ext : Externals) (t : Transcription) (file_path : Path) :
  method t = Some GOOGLE_API ->
  backend_fails_internally ext t file_path = true ->
  chunks_directory_usable ext = true /\ google_try_text ext file_path = None.
Proof.
  unfold backend_fails_internally, google_try_text. intros -> H.
  apply andb_true_iff in H. destruct H as [Hu H]. split; [exact Hu|].
  destruct (str_in (PyPath.suffix file_path) SUPPORTED_FILE_EXTENSIONS);
    [|reflexivity].
  cbn [negb orb] in H.
  destruct (google_chunks ext file_path) as [chunks|]; [|reflexivity].
  now rewrite H.
Qed.

Lemma google_backend_run (ext : Externals) (file_path : Path) (st : State) :
  method (transcription st) = Some GOOGLE_API ->
  let out := _transcribe_using_google_api ext file_path st in
  transcription (snd out)
  = with_backend_text (transcription st)
      (text_set_by_backend ext (transcription st) file_path)
  /\ _whisperx_result (snd out) = _whisperx_result st
  /\ exists new,
       log (snd out) = log st ++ CallBackend GOOGLE_API file_path :: new
       /\ count is_processed new = 0
       /\ count is_handled_exception new = 0
       /\ (backend_fails_internally ext (transcription st) file_path = true ->
           exists e rest, new = CallView (display_text (MsgTraceback e)) :: rest).
Proof.
  intros Hm. cbv zeta. rewrite (text_set_by_google ext _ file_path Hm).
  destruct (mkdir_error ext (chunks_directory_of ext)) as [e|] eqn:Hmk.
  - rewrite (google_backend_blocked ext file_path st e Hmk). st_simpl.
    split; [reflexivity|]. split; [reflexivity|].
    exists []. repeat split.
    intros Hfail. apply (google_fails_internally ext _ _ Hm) in Hfail.
    destruct Hfail as [Hu _]. apply chunks_directory_usable_iff in Hu.
    destruct Hu as [Hu _]. congruence.
  - destruct (google_backend_made_run ext file_path st Hmk)
      as (Hrec & Hres & new & Hlog & Hproc & Hhand & Htrace).
    split; [exact Hrec|]. split; [exact Hres|].
    exists new. repeat split; try assumption.
    intros Hfail. apply Htrace.
    now apply (google_fails_internally ext _ _ Hm) in Hfail.
Qed.

Lemma whisperx_backend_run (ext : Externals) (file_path : Path) (st : State) :
  method (transcription st) = Some WHISPERX ->
  transcription (snd (_transcribe_using_whisperx ext file_path st))
  = with_backend_text (transcription st)
      (text_set_by_backend ext (transcription st) file_path).
Proof.
  intros Hm. unfold with_backend_text, text_set_by_backend. rewrite Hm.
  unfold _transcribe_using_whisperx. py_unfold.
  destruct (whisperx_transcribe ext file_path) as [segs|]; cbv beta iota;
    st_simpl; [|now rewrite handle_exception_run].
  destruct (should_subtitle (transcription st)); cbn [andb]; cbv beta iota;
    [destruct (whisperx_align ext file_path); cbn [negb]; cbv beta iota|];
    rewrite ?handle_exception_run; st_simpl;
    repeat (match goal with
            | |- context [if ?c then _ else _] => destruct c
            end; cbv beta iota; st_simpl);
    reflexivity.
Qed.

(** The record after the backend chosen by [method]. *)
Lemma dispatch_backend_text (ext : Externals) (file_path : Path) (st : State) :
  transcription (snd (dispatch_backend ext file_path st))
  = with_backend_text (transcription st)
      (text_set_by_backend ext (transcription st) file_path).
Proof.
  unfold dispatch_backend. py_unfold.
  destruct (method (transcription st)) as [[|]|] eqn:Hm.
  - now apply whisperx_backend_run.
  - now apply google_backend_run.
  - unfold text_set_by_backend. now rewrite Hm.
Qed.

Lemma text_set_by_backend_set_text
    (ext : Externals) (t : Transcription) (s : string) (file_path : Path) :
  text_set_by_backend ext (set_text t s) file_path
  = text_set_by_backend ext t file_path.
Proof. now destruct t. Qed.

(** The text of a backend call that returns is the text the call has put
    into the record. *)
Lemma backend_text_returned
    (ext : Externals) (t : Transcription) (file_path : Path) (s : string) :
  backend_text ext t file_path = Some s ->
  backend_returns ext t = true
  /\ text_set_by_backend ext t file_path = Some s.
Proof.
  unfold backend_text. destruct (backend_returns ext t); [tauto | discriminate].
Qed.

Lemma with_backend_text_text (t : Transcription) (o : option string) :
  with_backend_text t o = set_text t (default (text t) o).
Proof. destruct o; [reflexivity | now destruct t]. Qed.

(** The record after one file: the backend sets the text or leaves it;
    nothing after the backend changes the record. *)
Lemma transcribe_file_record (ext : Externals) (file_path : Path) (st : State) :
  transcription (snd (_transcribe_file ext file_path st))
  = with_backend_text (transcription st)
      (text_set_by_backend ext (transcription st) file_path).
Proof.
  rewrite transcribe_file_steps, bind_run.
  pose proof (dispatch_backend_text ext file_path st) as Hrec.
  destruct (dispatch_backend ext file_path st) as [[[]|e1] st1];
    cbn [fst snd] in *; [|exact Hrec].
  rewrite bind_run.
  destruct (remove_tmp_file_shape st1) as (Ht2 & _).
  destruct (remove_tmp_file st1) as [[[]|e] st2]; cbn [fst snd] in *;
    [|congruence].
  py_unfold. destruct (should_autosave (transcription st2));
    [|cbn [snd]; congruence].
  destruct (save_transcription_keeps ext file_path true
              (should_overwrite (transcription st2)) st2) as (Ht3 & _).
  rewrite Ht3. congruence.
Qed.

Lemma gather_record (ext : Externals) (files : list Path) :
  forall st,
    transcription (snd (gather (map (_transcribe_file ext) files) st))
    = set_text (transcription st)
        (text_after_files ext (transcription st) files
           (text (transcription st))).
Proof.
  induction files as [|f files IH]; intros st.
  - cbn. now destruct (transcription st).
  - cbn [map gather].
    pose proof (transcribe_file_record ext f st) as H1.
    destruct (_transcribe_file ext f st) as [r st1]. cbn [snd] in H1.
    specialize (IH st1).
    destruct (gather (map (_transcribe_file ext) files) st1) as [r' st2].
    cbn [snd] in *. rewrite IH, H1, with_backend_text_text.
    unfold text_after_files. cbn [fold_left].
    set (t := transcription st).
    set (s := default (text t) (text_set_by_backend ext t f)).
    assert (Hfold : forall l a,
              fold_left (fun txt fp =>
                           default txt
                             (text_set_by_backend ext (set_text t s) fp)) l a
              = fold_left (fun txt fp =>
                             default txt (text_set_by_backend ext t fp)) l a).
    { induction l as [|x l IHl]; intros a; [reflexivity|].
      cbn [fold_left]. now rewrite text_set_by_backend_set_text, IHl. }
    rewrite Hfold. now destruct t.
Qed.

(** X9.  The cloud-API backend reports through [display_text] only: it
    never tells the view that processing has ended and never goes through
    [_handle_exception], and it never changes the whisperx result that the
    controller holds.  When it fails inside (an extension it cannot load,
    a file it cannot decode, a chunk it cannot export), the first thing it
    shows is the traceback, and the record is left as it was, also when
    earlier chunks had been recognized. *)
Theorem google_backend_never_notifies_end
    (ext : Externals) (file_path : Path) (st : State) :
  method (transcription st) = Some GOOGLE_API ->
  let out := _transcribe_using_google_api ext file_path st in
  _whisperx_result (snd out) = _whisperx_result st
  /\ exists new,
       log (snd out) = log st ++ CallBackend GOOGLE_API file_path :: new
       /\ count is_processed new = 0
       /\ count is_handled_exception new = 0
       /\ (backend_fails_internally ext (transcription st) file_path = true ->
           transcription (snd out) = transcription st
           /\ exists e rest,
                new = CallView (display_text (MsgTraceback e)) :: rest).
Proof.
  intros Hm.
  destruct (google_backend_run ext file_path st Hm)
    as (Hrec & Hres & new & Hlog & Hproc & Hhand & Htrace).
  cbv zeta. split; [exact Hres|]. exists new.
  split; [exact Hlog|]. split; [exact Hproc|]. split; [exact Hhand|].
  intros Hfail. split; [|now apply Htrace].
  destruct (google_backend_shape ext file_path st) as (_ & _ & _ & _ & Hsame).
  now apply Hsame.
Qed.

(** X9 for a text file handed to the cloud-API backend. *)
Lemma google_backend_never_notifies_end_witness :
  let notes := mkPath "/home/music" "notes.txt" in
  let st := Sample.fresh (set_text (Sample.request FILE notes GOOGLE_API
                                      false false false) "earlier") in
  let out := _transcribe_using_google_api Sample.ext notes st in
  text (transcription (snd out)) = "earlier"
  /\ exists new,
       log (snd out) = CallBackend GOOGLE_API notes :: new
       /\ count is_processed new = 0.
Proof.
  intros notes st out.
  destruct (google_backend_never_notifies_end Sample.ext notes st eq_refl)
    as (_ & new & Hlog & Hproc & _ & Hfail).
  destruct (Hfail eq_refl) as (Htr & _).
  split; [unfold out; now rewrite Htr|].
  exists new. split; [exact Hlog | exact Hproc].
Defined.

(** X10.  The record holds one text.  After the worker has run, it is the
    text set by the last file whose backend succeeded, in the order the
    files were served, or the text the record had before when none did;
    for a directory the files are those the scan returns, otherwise the
    one source file.  The other fields of the record are unchanged. *)
Theorem worker_leaves_last_text (ext : Externals) (st : State) :
  let t := transcription st in
  let served :=
    if bool_decide (source t = DIRECTORY)
    then _get_transcribable_files_from_dir ext (source_path t)
    else [source_path t] in
  transcription (snd (_handle_transcription_process ext st))
  = set_text t (text_after_files ext t served (text t)).
Proof.
  cbv zeta. unfold _handle_transcription_process. py_unfold.
  destruct (bool_decide (source (transcription st) = DIRECTORY)).
  - destruct (_get_transcribable_files_from_dir ext
                (source_path (transcription st))) as [|f rest] eqn:Hfiles.
    + rewrite handle_exception_run. st_simpl. cbn.
      now destruct (transcription st).
    + pose proof (gather_record ext (f :: rest) st) as Hrec.
      destruct (gather (map (_transcribe_file ext) (f :: rest)) st)
        as [[[]|e] st1]; cbn [snd] in Hrec;
        rewrite ?handle_exception_run; st_simpl; exact Hrec.
  - pose proof (transcribe_file_record ext (source_path (transcription st)) st)
      as Hrec.
    rewrite with_backend_text_text in Hrec.
    destruct (_transcribe_file ext (source_path (transcription st)) st)
      as [[[]|e] st1]; cbn [snd] in Hrec;
      rewrite ?handle_exception_run; st_simpl; exact Hrec.
Qed.

Lemma transcribe_file_saves_text
    (ext : Externals) (file_path : Path) (st : State) (s : string) :
  should_autosave (transcription st) = true ->
  backend_text ext (transcription st) file_path = Some s ->
  (source (transcription st) = FILE \/ source (transcription st) = DIRECTORY
   \/ (Os.path_exists (fs st) (source_path (transcription st)) = true
       /\ Os.in_dir (chunks_directory_of ext) (source_path (transcription st))
          = false)) ->
  let dest := PyPath.sibling file_path (PyPath.stem file_path +:+ ".txt") in
  should_overwrite (transcription st) = true \/ files (fs st) !! dest = None ->
  files (fs (snd (_transcribe_file ext file_path st))) !! dest
  = Some (FText s).
Proof.
  intros Hauto Htext Htmp dest Hwrite.
  apply backend_text_returned in Htext. destruct Htext as [Hret Htext].
  rewrite transcribe_file_steps, bind_run.
  pose proof (dispatch_backend_text ext file_path st) as Hrec.
  rewrite Htext in Hrec. cbn [with_backend_text] in Hrec.
  destruct (dispatch_backend_shape ext file_path st)
    as (Hreturns & _ & _ & Hframe & _).
  destruct (Hreturns Hret) as [Hok Hnone].
  destruct (dispatch_backend ext file_path st) as [r1 st1].
  cbn [fst snd] in *. subst r1. rewrite bind_run.
  destruct (remove_tmp_file_shape st1) as (Ht2 & _ & _ & Hnone2 & Hok2 & _).
  assert (Hfields : source (transcription st1) = source (transcription st)
                    /\ source_path (transcription st1)
                       = source_path (transcription st)
                    /\ should_autosave (transcription st1) = true
                    /\ should_overwrite (transcription st1)
                       = should_overwrite (transcription st)
                    /\ text (transcription st1) = s).
  { rewrite Hrec. destruct (transcription st); cbn in *. repeat split.
    exact Hauto. }
  destruct Hfields as (Hsrc & Hpath & Hauto1 & Hov1 & Htext1).
  assert (Hok2' : fst (remove_tmp_file st1) = Ok tt).
  { apply Hok2. rewrite Hsrc, Hpath.
    destruct Htmp as [H | [H | [Hex Hin]]]; [tauto | tauto |].
    right. right. unfold Os.path_exists in *. now rewrite (Hframe _ Hin). }
  destruct (remove_tmp_file st1) as [r2 st2]. cbn [fst snd] in *. subst r2.
  py_unfold. rewrite Ht2, Hauto1, Hov1.
  rewrite (save_transcription_at_dest ext file_path true
             (should_overwrite (transcription st)) st2 dest);
    try reflexivity.
  - rewrite Ht2, Htext1. destruct Hwrite as [-> | Hfree]; [reflexivity|].
    apply Hnone, Hnone2, path_exists_false in Hfree. rewrite Hfree.
    now rewrite orb_true_r.
  - intros H. symmetry in H. revert H. unfold dest, PyPath.sibling.
    apply subtitle_path_not_txt. now left.
  - intros H. symmetry in H. revert H. unfold dest, PyPath.sibling.
    apply subtitle_path_not_txt. now right.
Qed.

(** X11.  With [should_autosave] set, the text that the backend produces
    for a file is what the file [<stem>.txt] beside it holds afterwards,
    when [should_overwrite] is set or that file did not exist: no other
    text of the record, and nothing added to it. *)
Theorem autosave_writes_backend_text
    (ext : Externals) (file_path : Path) (st : State) (s : string) :
  should_autosave (transcription st) = true ->
  backend_text ext (transcription st) file_path = Some s ->
  (source (transcription st) = FILE \/ source (transcription st) = DIRECTORY
   \/ (Os.path_exists (fs st) (source_path (transcription st)) = true
       /\ Os.in_dir (chunks_directory_of ext) (source_path (transcription st))
          = false)) ->
  let dest := PyPath.sibling file_path (PyPath.stem file_path +:+ ".txt") in
  should_overwrite (transcription st) = true \/ files (fs st) !! dest = None ->
  files (fs (snd (_transcribe_file ext file_path st))) !! dest
  = Some (FText s).
Proof.
  intros Hauto Htext Htmp dest Hwrite.
  now apply transcribe_file_saves_text.
Qed.

(** X11 for [talk.mp3], served by whisperx. *)
Lemma autosave_writes_backend_text_witness :
  let st := Sample.fresh (Sample.request FILE Sample.talk WHISPERX
                            false true false) in
  files (fs (snd (_transcribe_file Sample.ext Sample.talk st)))
    !! mkPath "/home/music" "talk.txt"
  = Some (FText "hello world").
Proof.
  intros st.
  apply (autosave_writes_backend_text Sample.ext Sample.talk st "hello world").
  - reflexivity.
  - reflexivity.
  - left. reflexivity.
  - right. reflexivity.
Defined.

(** X12.  How the backends end, and what they leave on disk.  The whisperx
    backend never raises, whatever happens inside it, and leaves the whole
    filesystem as it was.  The cloud-API backend raises exactly when
    making the chunks directory raises, before its [try], or removing it
    raises, in its [finally], and then with that exception; whatever
    happens inside its [try], it returns otherwise.  However it ends, it
    leaves every file outside the chunks directory as it was, and when it
    returns none is left inside.  Neither backend starts a thread. *)
Theorem backends_end_and_keep_files
    (ext : Externals) (file_path : Path) (st : State) :
  let wx := _transcribe_using_whisperx ext file_path st in
  let ga := _transcribe_using_google_api ext file_path st in
  let d := chunks_directory_of ext in
  (fst wx = Ok tt /\ fs (snd wx) = fs st /\ threads (snd wx) = threads st)
  /\ (fst ga = match mkdir_error ext d, rmtree_error ext d with
               | Some e, _ => Raise e
               | None, Some e => Raise e
               | None, None => Ok tt
               end
      /\ threads (snd ga) = threads st
      /\ (forall p, Os.in_dir d p = false ->
                    files (fs (snd ga)) !! p = files (fs st) !! p)
      /\ (fst ga = Ok tt ->
          forall p, Os.in_dir d p = true -> files (fs (snd ga)) !! p = None)).
Proof.
  cbv zeta. split.
  - destruct (whisperx_backend_shape ext file_path st) as (Hok & Hfs & _ & Hth).
    now repeat split.
  - destruct (google_backend_shape ext file_path st)
      as (_ & Hframe & _ & Hth & _).
    split; [|split; [exact Hth | split; [exact Hframe|]]].
    + destruct (mkdir_error ext (chunks_directory_of ext)) as [e|] eqn:Hmk.
      * now rewrite (google_backend_blocked ext file_path st e Hmk).
      * destruct (google_backend_made ext file_path st Hmk)
          as ((f1 & _ & Hend) & _).
        destruct (rmtree_error ext (chunks_directory_of ext)); tauto.
    + intros Hok p Hp.
      destruct (mkdir_error ext (chunks_directory_of ext)) as [e|] eqn:Hmk.
      * rewrite (google_backend_blocked ext file_path st e Hmk) in Hok.
        discriminate.
      * destruct (google_backend_made ext file_path st Hmk)
          as ((f1 & _ & Hend) & _).
        destruct (rmtree_error ext (chunks_directory_of ext)) as [e|].
        -- destruct Hend as [Hraise _]. congruence.
        -- destruct Hend as [_ Hfs]. rewrite Hfs. now apply rmtree_inside.
Qed.

(** X13.  [save_transcription] touches its destination and the two
    subtitle files beside it, and nothing else: every other file is as it
    was, no directory is made or removed, the view is not called, no
    thread is started and the record is not changed. *)
Theorem save_touches_only_its_outputs
    (ext : Externals) (file_path : Path) (should_autosave should_overwrite : bool)
    (st : State) :
  let st' := snd (save_transcription ext file_path should_autosave
                    should_overwrite st) in
  let dest := to_path (txt_destination ext file_path should_autosave) in
  transcription st' = transcription st
  /\ log st' = log st
  /\ threads st' = threads st
  /\ dirs (fs st') = dirs (fs st)
  /\ (forall p, p <> dest ->
                p <> subtitle_path dest "srt" ->
                p <> subtitle_path dest "vtt" ->
                files (fs st') !! p = files (fs st) !! p).
Proof.
  cbv zeta.
  destruct (save_transcription_keeps ext file_path should_autosave
              should_overwrite st) as (Ht & Hl & Hth & Hd).
  repeat split; try assumption.
  intros p Hp Hsrt Hvtt. now apply save_transcription_frame.
Qed.

(** X14.  When no whisperx result is stored and subtitles are asked for,
    [save_transcription] raises a [TypeError] as soon as a subtitle file is
    due, after the text file has been dealt with: the destination holds
    the text if it was absent or may be overwritten, and no other file has
    changed. *)
Theorem save_raises_after_writing_text
    (ext : Externals) (file_path : Path) (should_overwrite : bool) (st : State) :
  should_subtitle (transcription st) = true ->
  _whisperx_result st = None ->
  let dest := PyPath.sibling file_path (PyPath.stem file_path +:+ ".txt") in
  should_overwrite = true
  \/ files (fs st) !! subtitle_path dest "srt" = None
  \/ files (fs st) !! subtitle_path dest "vtt" = None ->
  let out := save_transcription ext file_path true should_overwrite st in
  (exists msg, fst out = Raise (TypeError msg))
  /\ files (fs (snd out)) !! dest
     = (if should_overwrite || negb (Os.path_exists (fs st) dest)
        then Some (FText (text (transcription st)))
        else files (fs st) !! dest)
  /\ (forall p, p <> dest -> files (fs (snd out)) !! p = files (fs st) !! p).
Proof.
  intros Hsub Hres dest Hdue out.
  assert (Hsrt : subtitle_path dest "srt" <> dest)
    by (unfold dest, PyPath.sibling; apply subtitle_path_not_txt; now left).
  assert (Hvtt : subtitle_path dest "vtt" <> dest)
    by (unfold dest, PyPath.sibling; apply subtitle_path_not_txt; now right).
  assert (Hout : out = _generate_subtitles dest should_overwrite
                         (after_text_write dest should_overwrite st)).
  { unfold out. rewrite save_transcription_steps by reflexivity.
    cbv zeta. rewrite Hsub. reflexivity. }
  destruct (after_text_write_keeps dest should_overwrite st)
    as (_ & _ & _ & _ & Hres').
  rewrite Hres in Hres'.
  assert (Hmid : forall fmt, fmt = "srt" \/ fmt = "vtt" ->
            Os.path_exists (fs (after_text_write dest should_overwrite st))
              (subtitle_path dest fmt)
            = Os.path_exists (fs st) (subtitle_path dest fmt)).
  { intros fmt Hfmt. unfold after_text_write.
    destruct (should_overwrite || negb (Os.path_exists (fs st) dest));
      [|reflexivity].
    cbn [fs with_fs]. apply path_exists_write_ne.
    intros H. symmetry in H. revert H.
    unfold dest, PyPath.sibling. now apply subtitle_path_not_txt. }
  rewrite Hout. split; [|split].
  - unfold _generate_subtitles. cbn [for_each]. py_unfold.
    rewrite (Hmid "srt") by now left.
    destruct (should_overwrite
              || negb (Os.path_exists (fs st) (subtitle_path dest "srt")))
      eqn:Hdsrt; cbv beta iota; rewrite ?Hres'; cbv beta iota;
      [eexists; reflexivity|].
    rewrite (Hmid "vtt") by now right.
    destruct (should_overwrite
              || negb (Os.path_exists (fs st) (subtitle_path dest "vtt")))
      eqn:Hdvtt; cbv beta iota; rewrite ?Hres'; cbv beta iota;
      [eexists; reflexivity|].
    exfalso. apply orb_false_iff in Hdsrt, Hdvtt.
    destruct Hdsrt as [Hov Hs], Hdvtt as [_ Hv].
    apply negb_false_iff in Hs, Hv.
    destruct Hdue as [-> | [H | H]]; [discriminate | |];
      apply path_exists_false in H; congruence.
  - rewrite generate_subtitles_none by exact Hres'. unfold after_text_write.
    destruct (should_overwrite || negb (Os.path_exists (fs st) dest));
      [|reflexivity].
    cbn. apply lookup_insert_eq.
  - intros p Hp. rewrite generate_subtitles_none by exact Hres'.
    unfold after_text_write.
    destruct (should_overwrite || negb (Os.path_exists (fs st) dest));
      [|reflexivity].
    cbn. now apply lookup_insert_ne.
Qed.

(** X14 on a new controller, with [talk.mp3] and the cloud-API backend. *)
Lemma save_raises_after_writing_text_witness :
  let st := Sample.fresh (set_text (Sample.request FILE Sample.talk GOOGLE_API
                                      true true false) "Hello there. ") in
  let out := save_transcription Sample.ext Sample.talk true false st in
  (exists msg, fst out = Raise (TypeError msg))
  /\ files (fs (snd out)) !! mkPath "/home/music" "talk.txt"
     = Some (FText "Hello there. ").
Proof.
  intros st out.
  destruct (save_raises_after_writing_text Sample.ext Sample.talk false st)
    as (Hraise & Hdest & _).
  - reflexivity.
  - reflexivity.
  - right. left. reflexivity.
  - split; [exact Hraise | exact Hdest].
Defined.

(* ===================================================================== *)
(** * Saving twice, and two files with one stem                            *)
(* ===================================================================== *)

Lemma generate_subtitles_result (file_path : Path) (ov : bool) (st : State) :
  option_map forced_english
    (_whisperx_result (snd (_generate_subtitles file_path ov st)))
  = option_map forced_english (_whisperx_result st).
Proof.
  destruct (_whisperx_result st) as [r|] eqn:Hr;
    [|now rewrite generate_subtitles_none, Hr].
  unfold _generate_subtitles. cbn [for_each]. py_unfold.
  destruct (ov || negb (Os.path_exists (fs st) (subtitle_path file_path "srt")));
    cbv beta iota; rewrite ?Hr; cbv beta iota; st_simpl;
    match goal with
    | |- context [if ?c then _ else _] => destruct c
    end; cbv beta iota; st_simpl; rewrite ?Hr; cbv beta iota; st_simpl;
    reflexivity.
Qed.

(** What an autosave leaves in a subtitle file. *)
Lemma autosave_at_subtitle
    (ext : Externals) (file_path : Path) (ov : bool) (st : State) (fmt : string) :
  fmt = "srt" \/ fmt = "vtt" ->
  let dest := PyPath.sibling file_path (PyPath.stem file_path +:+ ".txt") in
  let sub := subtitle_path dest fmt in
  files (fs (snd (save_transcription ext file_path true ov st))) !! sub
  = if should_subtitle (transcription st)
       && (ov || negb (Os.path_exists (fs st) sub))
    then match _whisperx_result st with
         | Some r => Some (FSubtitles fmt (forced_english r))
         | None => files (fs st) !! sub
         end
    else files (fs st) !! sub.
Proof.
  intros Hfmt dest sub.
  assert (Hne : sub <> dest)
    by (unfold sub, dest, PyPath.sibling; now apply subtitle_path_not_txt).
  rewrite save_transcription_steps by reflexivity. cbv zeta.
  change (to_path (txt_destination ext file_path true)) with dest.
  assert (Hmid_files : files (fs (after_text_write dest ov st)) !! sub
                       = files (fs st) !! sub).
  { unfold after_text_write.
    destruct (ov || negb (Os.path_exists (fs st) dest)); [|reflexivity].
    cbn. apply lookup_insert_ne. congruence. }
  assert (Hmid_exists : Os.path_exists (fs (after_text_write dest ov st)) sub
                        = Os.path_exists (fs st) sub).
  { unfold Os.path_exists. now rewrite Hmid_files. }
  destruct (after_text_write_keeps dest ov st) as (_ & _ & _ & _ & Hres).
  destruct (should_subtitle (transcription st)); cbn [andb snd];
    [|exact Hmid_files].
  destruct (_whisperx_result st) as [r|] eqn:Hr.
  - destruct (generate_subtitles_stored dest ov (after_text_write dest ov st) r
                Hres) as (_ & Hfiles).
    unfold sub in *. rewrite (Hfiles fmt Hfmt), Hmid_exists, Hmid_files.
    reflexivity.
  - rewrite generate_subtitles_none by exact Hres. rewrite Hmid_files.
    now destruct (ov || negb (Os.path_exists (fs st) sub)).
Qed.

Lemma autosave_result
    (ext : Externals) (file_path : Path) (ov : bool) (st : State) :
  option_map forced_english
    (_whisperx_result (snd (save_transcription ext file_path true ov st)))
  = option_map forced_english (_whisperx_result st).
Proof.
  rewrite save_transcription_steps by reflexivity. cbv zeta.
  set (dest := to_path _).
  destruct (after_text_write_keeps dest ov st) as (_ & _ & _ & _ & Hres).
  destruct (should_subtitle (transcription st)); cbn [snd];
    [|now rewrite Hres].
  now rewrite generate_subtitles_result, Hres.
Qed.

Lemma FS_eq (a b : FS) : files a = files b -> dirs a = dirs b -> a = b.
Proof. destruct a, b. cbn. now intros -> ->. Qed.

(** A file written under the rule of [ov] and written again under the
    same rule does not change. *)
Lemma rewrite_settles {A} (ov : bool) (x : option A) (new : A) :
  (ov = true -> x = Some new) ->
  (ov = false -> is_Some x) ->
  (if ov || negb (bool_decide (is_Some x)) then Some new else x) = x.
Proof.
  intros Hov Hkeep. destruct ov; cbn [orb].
  - now rewrite Hov.
  - destruct (Hkeep eq_refl) as [y ->]. reflexivity.
Qed.

Lemma written_or_kept {A} (ov : bool) (old : option A) (new : A) :
  let x := if ov || negb (bool_decide (is_Some old)) then Some new else old in
  (ov = true -> x = Some new) /\ (ov = false -> is_Some x).
Proof.
  cbv zeta. destruct ov; cbn [orb]; split; try discriminate; try reflexivity.
  intros _. destruct old as [y|]; cbn; eauto.
Qed.

(** X15.  Autosaving twice in a row is the same as autosaving once: the
    second call of [save_transcription] leaves the filesystem exactly as
    the first one left it, whatever [should_overwrite] is and whether or
    not the first call raised. *)
Theorem autosave_twice_is_autosave_once
    (ext : Externals) (file_path : Path) (should_overwrite : bool) (st : State) :
  let once := snd (save_transcription ext file_path true should_overwrite st) in
  fs (snd (save_transcription ext file_path true should_overwrite once))
  = fs once.
Proof.
  intros once.
  set (dest := PyPath.sibling file_path (PyPath.stem file_path +:+ ".txt")).
  assert (Hsrt : dest <> subtitle_path dest "srt").
  { intros H. symmetry in H. revert H. unfold dest, PyPath.sibling.
    apply subtitle_path_not_txt. now left. }
  assert (Hvtt : dest <> subtitle_path dest "vtt").
  { intros H. symmetry in H. revert H. unfold dest, PyPath.sibling.
    apply subtitle_path_not_txt. now right. }
  destruct (save_transcription_keeps ext file_path true should_overwrite st)
    as (Ht & _ & _ & Hd). fold once in Ht, Hd.
  destruct (save_transcription_keeps ext file_path true should_overwrite once)
    as (_ & _ & _ & Hd2).
  apply FS_eq; [|congruence].
  apply map_eq. intros p.
  destruct (decide (p = dest)) as [-> | Hp].
  { rewrite (save_transcription_at_dest ext file_path true should_overwrite
               once dest) by (reflexivity || assumption).
    rewrite Ht. unfold Os.path_exists at 1.
    pose proof (save_transcription_at_dest ext file_path true should_overwrite
                  st dest eq_refl eq_refl Hsrt Hvtt) as Hone.
    fold once in Hone. unfold Os.path_exists in Hone.
    destruct (written_or_kept should_overwrite (files (fs st) !! dest)
                (FText (text (transcription st)))) as [Hov Hkeep].
    rewrite <- Hone in Hov, Hkeep. now apply rewrite_settles. }
  assert (Hsub : forall fmt, fmt = "srt" \/ fmt = "vtt" ->
            files (fs (snd (save_transcription ext file_path true
                              should_overwrite once)))
              !! subtitle_path dest fmt
            = files (fs once) !! subtitle_path dest fmt).
  { intros fmt Hfmt. unfold dest.
    rewrite (autosave_at_subtitle ext file_path should_overwrite once fmt Hfmt).
    rewrite Ht.
    pose proof (autosave_at_subtitle ext file_path should_overwrite st fmt Hfmt)
      as Hone. cbv zeta in Hone. fold once in Hone.
    pose proof (autosave_result ext file_path should_overwrite st) as Hres.
    fold once in Hres.
    destruct (should_subtitle (transcription st)); cbn [andb] in *;
      [|reflexivity].
    destruct (_whisperx_result st) as [r|];
      destruct (_whisperx_result once) as [r'|]; try discriminate Hres;
      [|match goal with
        | |- (if ?c then _ else _) = _ => now destruct c
        end].
    assert (Hf : forced_english r' = forced_english r)
      by (cbn [option_map] in Hres; congruence).
    rewrite Hf. unfold Os.path_exists in *.
    destruct (written_or_kept should_overwrite
                (files (fs st)
                   !! subtitle_path
                        (PyPath.sibling file_path
                           (PyPath.stem file_path +:+ ".txt")) fmt)
                (FSubtitles fmt (forced_english r))) as [Hov Hkeep].
    rewrite <- Hone in Hov, Hkeep. now apply rewrite_settles. }
  destruct (decide (p = subtitle_path dest "srt")) as [-> | Hps];
    [apply Hsub; now left|].
  destruct (decide (p = subtitle_path dest "vtt")) as [-> | Hpv];
    [apply Hsub; now right|].
  rewrite save_transcription_frame by assumption. reflexivity.
Qed.

(** A text file that exists is not changed by serving the file beside it
    when overwriting is not allowed. *)
Lemma transcribe_file_keeps_existing_text
    (ext : Externals) (file_path : Path) (st : State) (old : FileData) :
  let dest := PyPath.sibling file_path (PyPath.stem file_path +:+ ".txt") in
  should_overwrite (transcription st) = false ->
  source (transcription st) = FILE \/ source (transcription st) = DIRECTORY ->
  Os.in_dir (chunks_directory_of ext) dest = false ->
  files (fs st) !! dest = Some old ->
  files (fs (snd (_transcribe_file ext file_path st))) !! dest = Some old.
Proof.
  intros dest Hov Hsrc Hin Hold.
  rewrite transcribe_file_steps, bind_run.
  destruct (dispatch_backend_shape ext file_path st)
    as (_ & Hreq & _ & Hframe & _).
  apply same_request_fields in Hreq.
  destruct Hreq as (Hsource & Hpath & _ & _ & _ & Hov1).
  destruct (dispatch_backend ext file_path st) as [[[]|e1] st1];
    cbn [fst snd] in *; [|now rewrite (Hframe _ Hin)].
  rewrite bind_run.
  assert (Hold1 : files (fs st1) !! dest = Some old)
    by now rewrite (Hframe _ Hin).
  assert (Hst2 : remove_tmp_file st1 = (Ok tt, st1)).
  { unfold remove_tmp_file. py_unfold. rewrite Hsource.
    destruct Hsrc as [-> | ->]; reflexivity. }
  rewrite Hst2. py_unfold.
  destruct (should_autosave (transcription st1)); [|exact Hold1].
  rewrite (save_transcription_at_dest ext file_path true
             (should_overwrite (transcription st1)) st1 dest);
    try reflexivity.
  - rewrite Hov1, Hov. cbn [orb].
    assert (Os.path_exists (fs st1) dest = true) as ->.
    { unfold Os.path_exists. apply bool_decide_eq_true. now exists old. }
    exact Hold1.
  - intros H. symmetry in H. revert H. unfold dest, PyPath.sibling.
    apply subtitle_path_not_txt. now left.
  - intros H. symmetry in H. revert H. unfold dest, PyPath.sibling.
    apply subtitle_path_not_txt. now right.
Qed.

(** X16.  The text file of a source file is named by its directory and its
    stem alone, so two files of one directory with the same stem, such as
    [a.mp3] and [a.wav], share one text file.  When they are served one
    after the other with [should_autosave] set and [should_overwrite] not,
    the file holds the text of the first, and the text of the second is
    not saved. *)
Theorem same_stem_files_share_one_text_file
    (ext : Externals) (p q : Path) (st : State) (s : string) :
  parent p = parent q ->
  PyPath.stem p = PyPath.stem q ->
  should_autosave (transcription st) = true ->
  should_overwrite (transcription st) = false ->
  source (transcription st) = FILE \/ source (transcription st) = DIRECTORY ->
  backend_text ext (transcription st) p = Some s ->
  let dest := PyPath.sibling p (PyPath.stem p +:+ ".txt") in
  files (fs st) !! dest = None ->
  Os.in_dir (chunks_directory_of ext) dest = false ->
  let after_p := snd (_transcribe_file ext p st) in
  let after_q := snd (_transcribe_file ext q after_p) in
  to_path (txt_destination ext q true) = dest
  /\ files (fs after_p) !! dest = Some (FText s)
  /\ files (fs after_q) !! dest = Some (FText s).
Proof.
  intros Hparent Hstem Hauto Hov Hsrc Htext dest Hfree Hin after_p after_q.
  assert (Hdest : PyPath.sibling q (PyPath.stem q +:+ ".txt") = dest).
  { unfold dest, PyPath.sibling. now rewrite Hparent, Hstem. }
  assert (Hp : files (fs after_p) !! dest = Some (FText s)).
  { unfold after_p, dest. apply transcribe_file_saves_text; auto.
    destruct Hsrc; tauto. }
  split; [exact Hdest|]. split; [exact Hp|].
  pose proof (transcribe_file_record ext p st) as Hrec.
  fold after_p in Hrec. rewrite with_backend_text_text in Hrec.
  unfold after_q. rewrite <- Hdest.
  apply transcribe_file_keeps_existing_text.
  - rewrite Hrec. destruct (transcription st); exact Hov.
  - rewrite Hrec. destruct (transcription st); exact Hsrc.
  - now rewrite Hdest.
  - now rewrite Hdest.
Qed.

(** X16 for [talk.mp3] and a [talk.wav] beside it, which whisperx cannot
    read. *)
Lemma same_stem_files_share_one_text_file_witness :
  let st := Sample.fresh (Sample.request DIRECTORY (mkPath "/home" "music")
                            WHISPERX false true false) in
  let after_p := snd (_transcribe_file Sample.ext Sample.talk st) in
  let after_q :=
    snd (_transcribe_file Sample.ext (mkPath "/home/music" "talk.wav") after_p) in
  files (fs after_q) !! mkPath "/home/music" "talk.txt"
  = Some (FText "hello world").
Proof.
  intros st after_p after_q.
  destruct (same_stem_files_share_one_text_file Sample.ext Sample.talk
              (mkPath "/home/music" "talk.wav") st "hello world")
    as (_ & _ & Hq).
  - reflexivity.
  - reflexivity.
  - reflexivity.
  - reflexivity.
  - right. reflexivity.
  - reflexivity.
  - reflexivity.
  - reflexivity.
  - exact Hq.
Defined.

(** X17.  The worker never raises and never starts a thread, whatever the
    source of the request: an exception that leaves a file's task (a
    temporary file that cannot be removed, a subtitle that cannot be
    written) or the directory check is handled at its outer boundary.  It
    only adds to the log, and it adds one [on_processed_transcription]
    more than exceptions are handled, the last call being that
    notification. *)
Theorem worker_never_raises (ext : Externals) (st : State) :
  let out := _handle_transcription_process ext st in
  fst out = Ok tt
  /\ threads (snd out) = threads st
  /\ exists new b,
       log (snd out)
       = log st ++ new ++ [CallView (on_processed_transcription b)]
       /\ count is_processed new = count is_handled_exception new.
Proof.
  cbv zeta. split; [|split].
  - destruct (process_run ext st) as [st2 ->]. reflexivity.
  - apply process_keeps_threads.
  - destruct (process_log ext st) as (new & Hlog & Hcount).
    destruct (process_run ext st) as [st2 Hrun]. rewrite Hrun in Hlog.
    cbn [snd log with_log] in Hlog. rewrite Hrun. cbn [snd log with_log].
    assert (Hnew : exists new0,
               new = new0 ++ [CallView (on_processed_transcription
                                          (PyStr.is_empty
                                             (text (transcription st2))))]
               /\ log st2 = log st ++ new0).
    { assert (Hne : new <> []) by (intros ->; cbn in Hcount; lia).
      destruct (exists_last Hne) as (new0 & c & ->).
      rewrite List.app_assoc in Hlog. apply app_inj_tail in Hlog.
      destruct Hlog as [Hl <-]. now exists new0. }
    destruct Hnew as (new0 & -> & Hl).
    exists new0, (PyStr.is_empty (text (transcription st2))).
    rewrite Hl, <- List.app_assoc. split; [reflexivity|].
    rewrite !count_app in Hcount. cbn in Hcount. lia.
Qed.
